(** * Nablax agent service: registry, MCP session wrapper, routing and selection

    A shallow embedding of the orchestration core of the backend
    ([services/agent_service]): the MCP client wrapper ([mcp_client.py]),
    the class-based registry ([mcp_registry.py]), the module-level registry
    and request handlers of the service ([main.py]) and the LLM tool selector
    ([llm_tool_selector.py]).

    Conventions of the embedding.
    - A Python [str] is a [string] of bytes (UTF-8); [in] and [split] on
      such strings are computed.  [str.lower] and [str.strip] work on
      Unicode text and belong to the interpreter: they are the two methods
      of the class [str_methods], and every statement holds for every such
      pair of methods.  Where a statement is about ASCII text it says so and
      takes [lower_on_ascii], the agreement of [lower] with [ascii_lower] on
      ASCII text; the sample inputs are ASCII and are run with
      [ascii_methods].
    - A Python [dict] is an association list in insertion order, with the
      update discipline of [dict.__setitem__] (a present key keeps its
      place).
    - An exception value [exn] stands for an instance of Python's
      [Exception], known by its class and its message.  The handlers of the
      sources are [except Exception], but for the one
      [except json.JSONDecodeError] of the selector, which looks at the
      class.
    - The MCP SDK, the LLM endpoint and [json] rendering and parsing are
      outside the repository: they are the fields of [externals], and every
      statement holds for all of their behaviours.
    - A value that comes with a request or with an answer of the LLM is a
      JSON-shaped value [json]; where the code applies [in], [split] or
      [lower] to it, the embedding gives what these do on each shape of
      value, the exception included.
    - Of the log only the [warning] and [error] records are tracked: a
      statement about the log is about these records, and the [info]
      records of the sources are not part of it. *)

From Stdlib Require Import String Ascii List Bool ZArith DecimalString Lia.
Import ListNotations.
Open Scope string_scope.

(** ** Python data *)

Module Py.

(** *** [str] *)

(** [s.lower()] and [s.strip()], the methods of the interpreter *)
Class str_methods : Type :=
  { lower : string -> string;
    strip : string -> string }.

(** The two methods on ASCII text: the letters A to Z are lowered, and the
    white space is the bytes 9 to 13 and 28 to 32. *)
Definition lower_char (c : ascii) : ascii :=
  let n := nat_of_ascii c in
  if (65 <=? n)%nat && (n <=? 90)%nat then ascii_of_nat (n + 32) else c.

Fixpoint ascii_lower (s : string) : string :=
  match s with
  | EmptyString => EmptyString
  | String c r => String (lower_char c) (ascii_lower r)
  end.

Fixpoint is_ascii (s : string) : bool :=
  match s with
  | EmptyString => true
  | String c r => (nat_of_ascii c <? 128)%nat && is_ascii r
  end.

(** [needle in hay] on two strings *)
Fixpoint contains (needle hay : string) : bool :=
  if prefix needle hay then true
  else match hay with
       | EmptyString => false
       | String _ r => contains needle r
       end.

Definition isspace (c : ascii) : bool :=
  let n := nat_of_ascii c in
  ((9 <=? n)%nat && (n <=? 13)%nat) || ((28 <=? n)%nat && (n <=? 32)%nat).

Fixpoint lstrip (s : string) : string :=
  match s with
  | EmptyString => EmptyString
  | String c r => if isspace c then lstrip r else s
  end.

Fixpoint rstrip (s : string) : string :=
  match s with
  | EmptyString => EmptyString
  | String c r =>
      match rstrip r with
      | EmptyString => if isspace c then EmptyString else String c EmptyString
      | r' => String c r'
      end
  end.

Definition ascii_strip (s : string) : string := rstrip (lstrip s).

Definition ascii_methods : str_methods :=
  {| lower := ascii_lower; strip := ascii_strip |}.

(** [lower] is [ascii_lower] on ASCII text *)
Definition lower_on_ascii {py : str_methods} : Prop :=
  forall s, is_ascii s = true -> lower s = ascii_lower s.

Fixpoint rev_string (acc s : string) : string :=
  match s with
  | EmptyString => acc
  | String c r => rev_string (String c acc) r
  end.

(** Left-to-right scan of [s.split(sep)] for a non-empty [sep]: [skip]
    counts the bytes of a separator still to be passed over, [cur] is the
    current part in reverse. *)
Fixpoint split_scan (sep s : string) (skip : nat) (cur : string) : list string :=
  match s with
  | EmptyString => [rev_string EmptyString cur]
  | String c r =>
      match skip with
      | S k => split_scan sep r k cur
      | O =>
          if prefix sep s
          then rev_string EmptyString cur
               :: split_scan sep r (String.length sep - 1) EmptyString
          else split_scan sep r 0 (String c cur)
      end
  end.

(** [s.split(sep)] *)
Definition split (s sep : string) : list string := split_scan sep s 0 EmptyString.

(** *** [dict] with [str] keys *)

Definition dict (V : Type) : Type := list (string * V).

Section Dict.
Context {V : Type}.

(** [d.get(k)] *)
Fixpoint get (d : dict V) (k : string) : option V :=
  match d with
  | [] => None
  | (k', v) :: r => if String.eqb k' k then Some v else get r k
  end.

(** [d.get(k, dflt)] *)
Definition get_default (d : dict V) (k : string) (dflt : V) : V :=
  match get d k with Some v => v | None => dflt end.

(** [k in d] *)
Definition mem (k : string) (d : dict V) : bool :=
  match get d k with Some _ => true | None => false end.

(** [d[k] = v] *)
Fixpoint set (d : dict V) (k : string) (v : V) : dict V :=
  match d with
  | [] => [(k, v)]
  | (k', v') :: r =>
      if String.eqb k' k then (k', v) :: r else (k', v') :: set r k v
  end.

(** [list(d.keys())] *)
Definition keys (d : dict V) : list string := map fst d.

(** [list(d.values())] *)
Definition values (d : dict V) : list V := map snd d.

(** [d.clear()] *)
Definition clear (d : dict V) : dict V := [].
End Dict.

(** *** JSON-shaped values *)

#[warnings="-register-all"]
Inductive json : Type :=
| JNull
| JBool (b : bool)
| JNum (n : Z)
| JStr (s : string)
| JArr (items : list json)
| JObj (fields : list (string * json)).

(** [type(v).__name__] *)
Definition type_name (v : json) : string :=
  match v with
  | JNull => "NoneType"
  | JBool _ => "bool"
  | JNum _ => "int"
  | JStr _ => "str"
  | JArr _ => "list"
  | JObj _ => "dict"
  end.

Definition str_list (l : list string) : json := JArr (map JStr l).

(** *** Exceptions and results *)

Record exn : Type := Exn { exn_class : string; exn_msg : string }.

(** [str(e)] *)
Definition str_exn (e : exn) : string := exn_msg e.

Definition AttributeError (tyname attr : string) : exn :=
  Exn "AttributeError"
      ("'" ++ tyname ++ "' object has no attribute '" ++ attr ++ "'").

Inductive outcome (A : Type) : Type :=
| Returned (a : A)
| Raised (e : exn).
Arguments Returned {A} a.
Arguments Raised {A} e.

(** [v.get(k, dflt)] on a value that may be no mapping *)
Definition py_get (v : json) (k : string) (dflt : json) : outcome json :=
  match v with
  | JObj d => Returned (get_default d k dflt)
  | _ => Raised (AttributeError (type_name v) "get")
  end.

(** reading a key of a returned mapping *)
Definition field (v : json) (k : string) : option json :=
  match v with
  | JObj d => get d k
  | _ => None
  end.

(** [str(v)] of a value without items *)
Definition str_scalar (v : json) : string :=
  match v with
  | JNull => "None"
  | JBool true => "True"
  | JBool false => "False"
  | JNum n => NilZero.string_of_int (Z.to_int n)
  | JStr s => s
  | JArr _ | JObj _ => type_name v
  end.

(** [x or dflt] on a string *)
Definition or_default (x dflt : string) : string :=
  if String.eqb x "" then dflt else x.

(** sequencing of two results *)
Definition and_then {A B} (r : outcome A) (k : A -> outcome B) : outcome B :=
  match r with
  | Returned a => k a
  | Raised e => Raised e
  end.

(** [item == needle] for a [str] needle *)
Definition is_str (needle : string) (item : json) : bool :=
  match item with
  | JStr s => String.eqb s needle
  | _ => false
  end.

(** [needle in v] for a [str] needle: a substring of a [str], an item of a
    [list], a key of a [dict] *)
Definition py_in (needle : string) (v : json) : outcome bool :=
  match v with
  | JStr s => Returned (contains needle s)
  | JArr items => Returned (existsb (is_str needle) items)
  | JObj d => Returned (mem needle d)
  | _ => Raised (Exn "TypeError"
                     ("argument of type '" ++ type_name v ++ "' is not iterable"))
  end.

(** [v.split(sep)] *)
Definition py_split (v : json) (sep : string) : outcome (list string) :=
  match v with
  | JStr s => Returned (split s sep)
  | _ => Raised (AttributeError (type_name v) "split")
  end.

(** [v.lower()] *)
Definition py_lower {py : str_methods} (v : json) : outcome string :=
  match v with
  | JStr s => Returned (lower s)
  | _ => Raised (AttributeError (type_name v) "lower")
  end.

(** the truth value of [v] *)
Definition truthy (v : json) : bool :=
  match v with
  | JNull => false
  | JBool b => b
  | JNum n => negb (n =? 0)%Z
  | JStr s => negb (String.eqb s "")
  | JArr items => match items with [] => false | _ => true end
  | JObj d => match d with [] => false | _ => true end
  end.

(** [v or dflt] *)
Definition py_or (v dflt : json) : json := if truthy v then v else dflt.

(** [except json.JSONDecodeError] *)
Definition is_JSONDecodeError (e : exn) : bool :=
  String.eqb (exn_class e) "JSONDecodeError".

(** *** Log *)

Inductive level : Type := WARNING | ERROR.
Record log_record : Type := Log { log_level : level; log_msg : string }.

End Py.

Import Py.

(** ** Effects: a state and exception monad

    A computation runs in an environment [env W] (the outside world and the
    log) over an object of type [S] it may mutate ([self], or a module
    global), and returns or raises. *)

Record env (W : Type) : Type := Env { world : W; logs : list log_record }.
Arguments Env {W} world logs.
Arguments world {W} e.
Arguments logs {W} e.

Definition M (W S A : Type) : Type := env W -> S -> env W * S * outcome A.

Section Monad.
Context {W S : Type}.

Definition ret {A} (a : A) : M W S A := fun en s => (en, s, Returned a).

Definition raise {A} (e : exn) : M W S A := fun en s => (en, s, Raised e).

Definition bind {A B} (m : M W S A) (k : A -> M W S B) : M W S B :=
  fun en s =>
    match m en s with
    | (en', s', Returned a) => k a en' s'
    | (en', s', Raised e) => (en', s', Raised e)
    end.

(** [try: m  except Exception as e: handler e] *)
Definition try_except {A} (m : M W S A) (handler : exn -> M W S A) : M W S A :=
  fun en s =>
    match m en s with
    | (en', s', Returned a) => (en', s', Returned a)
    | (en', s', Raised e) => handler e en' s'
    end.

(** reading and writing the object *)
Definition get_self : M W S S := fun en s => (en, s, Returned s).
Definition put_self (s : S) : M W S unit := fun en _ => (en, s, Returned tt).
Definition modify (f : S -> S) : M W S unit := fun en s => (en, f s, Returned tt).

(** a call into the outside world *)
Definition extern {A} (f : W -> W * outcome A) : M W S A :=
  fun en s => let '(w', r) := f (world en) in (Env w' (logs en), s, r).

Definition log (l : level) (msg : string) : M W S unit :=
  fun en s => (Env (world en) (logs en ++ [Log l msg]), s, Returned tt).

(** lifting an already computed result *)
Definition of_outcome {A} (r : outcome A) : M W S A := fun en s => (en, s, r).
End Monad.

(** running a computation on a part [T] of the object and storing the part back *)
Definition zoom {W S T A} (get : S -> T) (put : T -> S -> S) (m : M W T A) : M W S A :=
  fun en s => let '(en', t', r) := m en (get s) in (en', put t' s, r).

Declare Scope py_scope.
Delimit Scope py_scope with py.
Notation "x <- m ;; k" := (bind m (fun x => k))
  (at level 61, m at next level, right associativity) : py_scope.
Notation "m ;; k" := (bind m (fun _ => k))
  (at level 61, right associativity) : py_scope.
Open Scope py_scope.

(** ** What lies outside the repository *)

(** An object of the MCP SDK (a transport context, a stream, a client
    session) is known by a handle. *)
Definition handle : Type := nat.

(** [StdioServerParameters(command=..., args=..., env=None)] *)
Record StdioServerParameters : Type :=
  { sp_command : string; sp_args : list string }.

(** What [session.call_tool] hands back; the callers use [str(result)] and
    [str(type(result))] only. *)
Record mcp_result : Type := { result_str : string; result_type_str : string }.

(** A member of [tools_response.tools]: an object with attributes, as the
    SDK's tool type (it has no [get] method), or a plain mapping. *)
Inductive sdk_tool : Type :=
| ToolObject (name description : string) (inputSchema : option json)
| ToolMapping (d : dict json).

(** One entry of [tool_schemas] in the selector. *)
Record tool_schema : Type :=
  { schema_name : json;
    schema_description : json;
    schema_input_schema : json;
    schema_keywords : list string;
    schema_human_description : string }.

(** The selector's [input_data : Dict[str, Any]]: a mapping of JSON-shaped
    values; the value under "user_request" may be of any shape. *)
Definition payload : Type := dict json.

(** One chat message, [{"role": ..., "content": ...}]. *)
Record message : Type := { role : string; content : string }.

Record externals (W : Type) : Type :=
  { (* mcp.client.stdio and mcp.ClientSession *)
    stdio_client : StdioServerParameters -> W -> W * outcome handle;
    ctx_aenter : handle -> Z -> W -> W * outcome (handle * handle);
    ctx_aexit : handle -> option exn -> W -> W * outcome unit;
    ClientSession : handle -> handle -> W -> W * outcome handle;
    session_aenter : handle -> W -> W * outcome unit;
    session_initialize : handle -> Z -> W -> W * outcome unit;
    session_aexit : handle -> option exn -> W -> W * outcome unit;
    session_list_tools : handle -> Z -> W -> W * outcome (list sdk_tool);
    session_call_tool : handle -> string -> json -> Z -> W -> W * outcome mcp_result;
    (* llm_client.call_llm(messages, temperature=0.3, max_tokens=1000) *)
    call_llm : list message -> W -> W * outcome string;
    (* json.loads on a str: it raises a json.JSONDecodeError on a text that
       is no JSON, and may raise otherwise (a RecursionError) *)
    json_loads : string -> outcome json;
    (* text rendering built on json.dumps and str() *)
    render_system_prompt : dict tool_schema -> string;
    render_user_prompt : payload -> string;
    str_of_payload : payload -> string }.

Arguments stdio_client {W} _ _ _.
Arguments ctx_aenter {W} _ _ _ _.
Arguments ctx_aexit {W} _ _ _ _.
Arguments ClientSession {W} _ _ _ _.
Arguments session_aenter {W} _ _ _.
Arguments session_initialize {W} _ _ _ _.
Arguments session_aexit {W} _ _ _ _.
Arguments session_list_tools {W} _ _ _ _.
Arguments session_call_tool {W} _ _ _ _ _ _.
Arguments call_llm {W} _ _ _.
Arguments json_loads {W} _ _.
Arguments render_system_prompt {W} _ _.
Arguments render_user_prompt {W} _ _.
Arguments str_of_payload {W} _ _.

(** ** [mcp_client.py] *)

Module mcp_client.

(** The fields of an [MCPClient] instance. *)
Record MCPClient : Type :=
  { server_params : StdioServerParameters;
    timeout : Z;
    session : option handle;
    _client_ctx : option handle;
    _read : option handle;
    _write : option handle }.

Definition set_session (h : handle) (c : MCPClient) : MCPClient :=
  {| server_params := server_params c; timeout := timeout c;
     session := Some h; _client_ctx := _client_ctx c;
     _read := _read c; _write := _write c |}.

Definition set_client_ctx (h : handle) (c : MCPClient) : MCPClient :=
  {| server_params := server_params c; timeout := timeout c;
     session := session c; _client_ctx := Some h;
     _read := _read c; _write := _write c |}.

Definition set_read_write (rw : handle * handle) (c : MCPClient) : MCPClient :=
  {| server_params := server_params c; timeout := timeout c;
     session := session c; _client_ctx := _client_ctx c;
     _read := Some (fst rw); _write := Some (snd rw) |}.

(** [MCPClient(server_command=..., server_args=..., timeout=...)]: the
    call the registries make, [server_script_path] left at [None].  An
    empty command or an empty argument list is falsy. *)
Definition __init__ (server_command : string) (server_args : list string)
    (timeout : Z) : outcome MCPClient :=
  if negb (String.eqb server_command "")
     && negb (match server_args with [] => true | _ => false end)
  then Returned {| server_params := {| sp_command := server_command;
                                       sp_args := server_args |};
                   timeout := timeout;
                   session := None; _client_ctx := None;
                   _read := None; _write := None |}
  else Raised (Exn "ValueError"
    "Either (server_command, server_args) or server_script_path must be provided").

Section Methods.
Context {W : Type} (X : externals W).

Local Abbreviation Mc := (M W MCPClient).

(** [if obj: await obj.__aexit__(...)] for an optional SDK object *)
Definition exit_if_set (o : option handle)
    (aexit : handle -> option exn -> W -> W * outcome unit)
    (exc : option exn) : Mc unit :=
  match o with
  | Some h => extern (aexit h exc)
  | None => ret tt
  end.

Definition __aenter__ : Mc unit :=
  try_except
    (self <- get_self ;;
     ctx <- extern (stdio_client X (server_params self)) ;;
     modify (set_client_ctx ctx) ;;
     rw <- extern (ctx_aenter X ctx (timeout self)) ;;
     modify (set_read_write rw) ;;
     s <- extern (ClientSession X (fst rw) (snd rw)) ;;
     modify (set_session s) ;;
     extern (session_aenter X s) ;;
     extern (session_initialize X s (timeout self)) ;;
     ret tt)
    (fun e =>
       log ERROR ("Failed to initialize MCP client: " ++ str_exn e) ;;
       self <- get_self ;;
       exit_if_set (session self) (session_aexit X) (Some e) ;;
       exit_if_set (_client_ctx self) (ctx_aexit X) (Some e) ;;
       raise e).

Definition __aexit__ (exc : option exn) : Mc unit :=
  try_except
    (self <- get_self ;;
     exit_if_set (session self) (session_aexit X) exc ;;
     exit_if_set (_client_ctx self) (ctx_aexit X) exc ;;
     ret tt)
    (fun e => log ERROR ("Error closing MCP client: " ++ str_exn e)).

Definition list_tools : Mc (list sdk_tool) :=
  self <- get_self ;;
  match session self with
  | None => raise (Exn "RuntimeError" "MCP session not initialized")
  | Some s =>
      try_except
        (extern (session_list_tools X s (timeout self)))
        (fun e => log ERROR ("Failed to list tools: " ++ str_exn e) ;; raise e)
  end.

Definition call_tool (tool_name : string) (arguments : json) : Mc mcp_result :=
  self <- get_self ;;
  match session self with
  | None => raise (Exn "RuntimeError" "MCP session not initialized")
  | Some s =>
      try_except
        (extern (session_call_tool X s tool_name arguments (timeout self)))
        (fun e =>
           log ERROR ("Failed to call tool " ++ tool_name ++ ": " ++ str_exn e) ;;
           raise e)
  end.

(** [async with client as mcp_session: body].  [__aexit__] returns [None],
    so an exception of the body is raised again after the exit. *)
Definition async_with {A} (body : Mc A) : Mc A :=
  __aenter__ ;;
  fun en self =>
    match body en self with
    | (en', self', Returned a) => (__aexit__ None ;; ret a) en' self'
    | (en', self', Raised e) => (__aexit__ (Some e) ;; raise e) en' self'
    end.

End Methods.
End mcp_client.

(** ** The configuration source

    What [os.path.exists], [open] and [json.load] make of the configuration
    file, down to the shape the loaders look at: field values are taken at
    the types [MCPServerInfo] annotates ([str], [List[str]]); a value that
    is no JSON object where the loader calls [get] or [items] is kept by its
    type name. *)

Record server_entry : Type :=
  { entry_command : option string;
    entry_args : option (list string);
    entry_description : option string;
    entry_keywords : option (list string) }.

Inductive entry_value : Type :=
| EntryObject (e : server_entry)
| EntryOther (tyname : string).

Inductive servers_value : Type :=
| ServersObject (items : dict entry_value)
| ServersOther (tyname : string).

Inductive config_value : Type :=
| ConfigObject (mcpServers : option servers_value)
| ConfigOther (tyname : string).

Inductive config_source : Type :=
| FileAbsent (config_file : string)
| FileUnreadable (e : exn)
| FileJson (config : config_value).

(** [config.get('mcpServers', {})] *)
Definition get_mcpServers (config : config_value) : outcome servers_value :=
  match config with
  | ConfigObject (Some v) => Returned v
  | ConfigObject None => Returned (ServersObject [])
  | ConfigOther ty => Raised (AttributeError ty "get")
  end.

(** [mcp_servers.items()] *)
Definition servers_items (v : servers_value) : outcome (dict entry_value) :=
  match v with
  | ServersObject items => Returned items
  | ServersOther ty => Raised (AttributeError ty "items")
  end.

(** the four [server_config.get(..., default)] of the loaders *)
Definition entry_fields (server_name : string) (v : entry_value)
    : outcome (string * list string * string * list string) :=
  match v with
  | EntryObject e =>
      Returned
        (match entry_command e with Some c => c | None => "python" end,
         match entry_args e with Some a => a | None => [] end,
         match entry_description e with
         | Some d => d
         | None => "MCP Server: " ++ server_name
         end,
         match entry_keywords e with Some k => k | None => [] end)
  | EntryOther ty => Raised (AttributeError ty "get")
  end.

(** [for x in xs: body x] *)
Fixpoint for_each {W S A} (xs : list A) (body : A -> M W S unit) : M W S unit :=
  match xs with
  | [] => ret tt
  | x :: r => body x ;; for_each r body
  end.

(** The inner loop of both [find_server_by_keywords]:
    [for keyword in keywords: if keyword.lower() in text_lower: return ...] *)
Definition keyword_hit {py : str_methods} (text_lower : string)
    (keywords : list string) : bool :=
  existsb (fun keyword => contains (lower keyword) text_lower) keywords.

(** ** [mcp_registry.py] *)

Module mcp_registry.

Record MCPServerInfo : Type :=
  { name : string;
    command : string;
    args : list string;
    description : string;
    keywords : list string;
    client : option mcp_client.MCPClient }.

Definition with_client (c : mcp_client.MCPClient) (i : MCPServerInfo)
    : MCPServerInfo :=
  {| name := name i; command := command i; args := args i;
     description := description i; keywords := keywords i;
     client := Some c |}.

Section Registry.
Context {W : Type}.

(** the state of an [MCPRegistry] is its [servers] mapping *)
Local Abbreviation Mr := (M W (dict MCPServerInfo)).

(** one turn of the loop of [load_config] *)
Definition register_entry (item : string * entry_value) : Mr unit :=
  let '(server_name, server_config) := item in
  f <- of_outcome (entry_fields server_name server_config) ;;
  let '(command, args, description, keywords) := f in
  let server_info :=
    {| name := server_name; command := command; args := args;
       description := description; keywords := keywords; client := None |} in
  c <- of_outcome (mcp_client.__init__ command args 30) ;;
  modify (fun servers => set servers server_name (with_client c server_info)).

Definition load_config (src : config_source) : Mr unit :=
  try_except
    (match src with
     | FileAbsent config_file =>
         log WARNING ("⚠️  MCP config file not found: " ++ config_file)
     | FileUnreadable e => raise e
     | FileJson config =>
         mcp_servers <- of_outcome (get_mcpServers config) ;;
         items <- of_outcome (servers_items mcp_servers) ;;
         for_each items register_entry
     end)
    (fun e => log ERROR ("❌ Failed to load MCP config: " ++ str_exn e)).

Definition reload_config (src : config_source) : Mr unit :=
  modify clear ;;
  load_config src.

End Registry.

(** [get_server] *)
Definition get_server (servers : dict MCPServerInfo) (name : string)
    : option MCPServerInfo := get servers name.

(** first loop of [find_server_by_keywords], over [self.servers.values()] *)
Fixpoint find_by_keyword_loop {py : str_methods} (text_lower : string)
    (servers : list MCPServerInfo) : option MCPServerInfo :=
  match servers with
  | [] => None
  | server :: r =>
      if keyword_hit text_lower (keywords server) then Some server
      else find_by_keyword_loop text_lower r
  end.

(** second loop, over [self.servers.items()] *)
Fixpoint find_by_name_loop {py : str_methods} (text_lower : string)
    (servers : dict MCPServerInfo) : option MCPServerInfo :=
  match servers with
  | [] => None
  | (server_name, server) :: r =>
      if contains (lower server_name) text_lower then Some server
      else find_by_name_loop text_lower r
  end.

Definition find_server_by_keywords {py : str_methods}
    (servers : dict MCPServerInfo) (text : string) : option MCPServerInfo :=
  let text_lower := lower text in
  match find_by_keyword_loop text_lower (values servers) with
  | Some server => Some server
  | None => find_by_name_loop text_lower servers
  end.

(** [list_servers], one record per server in order *)
Definition list_servers (servers : dict MCPServerInfo) : list json :=
  map (fun server =>
         JObj [("name", JStr (name server));
               ("command", JStr (command server));
               ("args", str_list (args server));
               ("description", JStr (description server));
               ("keywords", str_list (keywords server))])
      (values servers).

End mcp_registry.

(** ** Text heuristics

    [do_task] and [_generate_fallback_arguments] carry the same two pieces
    of code, the extraction of the mail text and the detection of the tone.
    In [do_task] they run on a [str] (the router has called [lower] on the
    value before); they are given here on a [str].  In the selector they run
    on the value of [user_request] whatever its shape; that version is
    [scan_patterns] and [tone_of] of [llm_tool_selector]. *)

(** extraction of the mail text: the first pattern that occurs decides;
    [parts[-1].strip()] *)
Fixpoint extract_original_email {py : str_methods} (patterns : list string)
    (user_request : string) : string :=
  match patterns with
  | [] => user_request
  | pattern :: r =>
      if contains pattern user_request then
        let parts := split user_request pattern in
        if (1 <? List.length parts)%nat then strip (last parts EmptyString)
        else extract_original_email r user_request
      else extract_original_email r user_request
  end.

Definition patterns : list string := ["："; ":"; "邮件"; "内容是"; "下面的"].

Definition detect_tone {py : str_methods} (user_request : string) : string :=
  if contains "轻松" user_request || contains "casual" (lower user_request)
  then "casual"
  else if contains "紧急" user_request || contains "urgent" (lower user_request)
  then "urgent"
  else "professional".

(** ** [main.py] of the agent service *)

Module main.

(** a value of the module global [mcp_servers] *)
Record server_info : Type :=
  { client : mcp_client.MCPClient;
    command : string;
    args : list string;
    description : string;
    keywords : list string }.

Definition with_client (c : mcp_client.MCPClient) (i : server_info) : server_info :=
  {| client := c; command := command i; args := args i;
     description := description i; keywords := keywords i |}.

(** [mcp_servers[server_name]['client']] seen as a part of [mcp_servers] *)
Definition store_client (server_name : string) (c : mcp_client.MCPClient)
    (mcp_servers : dict server_info) : dict server_info :=
  match get mcp_servers server_name with
  | Some i => set mcp_servers server_name (with_client c i)
  | None => mcp_servers
  end.

Fixpoint find_loop {py : str_methods} (text_lower : string)
    (mcp_servers : dict server_info) : option string :=
  match mcp_servers with
  | [] => None
  | (server_name, server_info) :: r =>
      if keyword_hit text_lower (keywords server_info) then Some server_name
      else find_loop text_lower r
  end.

Definition find_server_by_keywords {py : str_methods}
    (mcp_servers : dict server_info) (text : string) : option string :=
  let text_lower := lower text in
  match find_loop text_lower mcp_servers with
  | Some server_name => Some server_name
  | None => hd_error (keys mcp_servers)
  end.

(** [server_info] as it is put in a response *)
Definition server_info_json (i : server_info) : json :=
  JObj [("command", JStr (command i));
        ("args", str_list (args i));
        ("description", JStr (description i))].

Definition task_arguments {py : str_methods} (user_request : string) : json :=
  let original_email := extract_original_email patterns user_request in
  let tone := detect_tone user_request in
  let urgency := if String.eqb tone "urgent" then "high" else "normal" in
  let context_str := "Reply type: reply, Urgency: " ++ urgency in
  JObj [("original_email", JStr (or_default original_email "User request"));
        ("tone", JStr tone);
        ("context", JStr context_str)].

Section Service.
Context {W : Type} (X : externals W) {py : str_methods}.

(** the state is the module global [mcp_servers] *)
Local Abbreviation Mg := (M W (dict server_info)).

(** one turn of the loop of [load_mcp_config] *)
Definition register_entry (item : string * entry_value) : Mg unit :=
  let '(server_name, server_config) := item in
  f <- of_outcome (entry_fields server_name server_config) ;;
  let '(command, args, description, keywords) := f in
  client <- of_outcome (mcp_client.__init__ command args 30) ;;
  modify (fun mcp_servers =>
            set mcp_servers server_name
              {| client := client; command := command; args := args;
                 description := description; keywords := keywords |}).

Definition load_mcp_config (src : config_source) : Mg unit :=
  try_except
    (match src with
     | FileAbsent config_file =>
         log ERROR ("❌ MCP config file not found: " ++ config_file)
     | FileUnreadable e => raise e
     | FileJson config =>
         servers_config <- of_outcome (get_mcpServers config) ;;
         items <- of_outcome (servers_items servers_config) ;;
         for_each items register_entry
     end)
    (fun e => log ERROR ("❌ Failed to load MCP config: " ++ str_exn e)).

(** the session use of [call_mcp_server], run on the client object held in
    [mcp_servers[server_name]] *)
Definition use_session (server_name : string) (i : server_info)
    (tool_name : string) (arguments : json) : Mg mcp_result :=
  zoom (fun _ => client i) (store_client server_name)
       (mcp_client.async_with X (mcp_client.call_tool X tool_name arguments)).

Definition call_mcp_server (server_name tool_name : string) (arguments : json)
    : Mg json :=
  mcp_servers <- get_self ;;
  match get mcp_servers server_name with
  | None => raise (Exn "ValueError" ("Server not found: " ++ server_name))
  | Some server_info =>
      try_except
        (result <- use_session server_name server_info tool_name arguments ;;
         ret (JObj [("success", JBool true);
                    ("server_name", JStr server_name);
                    ("tool_name", JStr tool_name);
                    ("raw_mcp_result", JStr (result_str result));
                    ("mcp_result_type", JStr (result_type_str result));
                    ("server_info", server_info_json server_info);
                    ("data", JObj [("reply_subject", JStr "MCP Response");
                                   ("reply_body", JStr (result_str result))])]))
        (fun e =>
           log ERROR ("❌ MCP call failed: " ++ str_exn e) ;;
           ret (JObj [("success", JBool false);
                      ("server_name", JStr server_name);
                      ("tool_name", JStr tool_name);
                      ("error", JStr (str_exn e));
                      ("server_info", server_info_json server_info)]))
  end.

(** [text.lower()] at the head of [find_server_by_keywords], on the value
    the request carries *)
Definition as_text (v : json) : outcome string :=
  match v with
  | JStr s => Returned s
  | _ => Raised (AttributeError (type_name v) "lower")
  end.

Definition do_task (request : dict json) : Mg json :=
  try_except
    (input_data <- ret (get_default request "input_data" (JObj request)) ;;
     user_request <- of_outcome (py_get input_data "user_request" (JStr "")) ;;
     mcp_servers <- get_self ;;
     text <- of_outcome (as_text user_request) ;;
     match find_server_by_keywords mcp_servers text with
     | None | Some EmptyString =>
         ret (JObj [("success", JBool false);
                    ("error", JStr "No MCP servers available");
                    ("available_servers", str_list (keys mcp_servers))])
     | Some server_name =>
         call_mcp_server server_name "generate_email_draft" (task_arguments text)
     end)
    (fun e =>
       log ERROR ("❌ Task processing failed: " ++ str_exn e) ;;
       mcp_servers <- get_self ;;
       ret (JObj [("success", JBool false);
                  ("error", JStr ("Task processing error: " ++ str_exn e));
                  ("available_servers", str_list (keys mcp_servers))])).

(** the endpoint [reload_config] *)
Definition reload_config (src : config_source) : Mg json :=
  try_except
    (load_mcp_config src ;;
     mcp_servers <- get_self ;;
     ret (JObj [("success", JBool true);
                ("message", JStr "Configuration reloaded");
                ("servers", JNum (Z.of_nat (List.length mcp_servers)));
                ("server_names", str_list (keys mcp_servers))]))
    (fun e => ret (JObj [("success", JBool false); ("error", JStr (str_exn e))])).

(** the endpoint [list_servers] *)
Definition list_servers : Mg json :=
  mcp_servers <- get_self ;;
  let servers :=
    map (fun '(server_name, i) =>
           JObj [("name", JStr server_name);
                 ("command", JStr (command i));
                 ("args", str_list (args i));
                 ("description", JStr (description i));
                 ("keywords", str_list (keywords i))])
        mcp_servers in
  ret (JObj [("servers", JArr servers);
             ("total", JNum (Z.of_nat (List.length servers)))]).

End Service.
End main.

(** ** [llm_tool_selector.py] *)

Module llm_tool_selector.

(** a value of [available_tools] *)
Record tool_info : Type :=
  { client : mcp_client.MCPClient;
    method : string;
    keywords : option (list string);
    description : option string }.

Definition with_client (c : mcp_client.MCPClient) (i : tool_info) : tool_info :=
  {| client := c; method := method i; keywords := keywords i;
     description := description i |}.

Definition store_client (tool_name : string) (c : mcp_client.MCPClient)
    (available_tools : dict tool_info) : dict tool_info :=
  match get available_tools tool_name with
  | Some i => set available_tools tool_name (with_client c i)
  | None => available_tools
  end.

Definition info_keywords (i : tool_info) : list string :=
  match keywords i with Some k => k | None => [] end.

Definition info_description (i : tool_info) : string :=
  match description i with Some d => d | None => "" end.

Definition str_field (description : string) : json :=
  JObj [("type", JStr "string"); ("description", JStr description)].

Definition _get_default_schema (tool_name : string) : json :=
  if String.eqb tool_name "email_draft" then
    JObj [("type", JStr "object");
          ("properties",
           JObj [("original_email",
                  str_field "The original email content to respond to");
                 ("tone",
                  JObj [("type", JStr "string");
                        ("description",
                         JStr "Tone of the reply (professional, casual, urgent)");
                        ("enum", str_list ["professional"; "casual"; "urgent"]);
                        ("default", JStr "professional")]);
                 ("context",
                  JObj [("type", JStr "object");
                        ("description",
                         JStr "Additional context for email generation");
                        ("properties",
                         JObj [("reply_type",
                                JObj [("type", JStr "string");
                                      ("default", JStr "reply")]);
                               ("urgency",
                                JObj [("type", JStr "string");
                                      ("default", JStr "normal")]);
                               ("subject", JObj [("type", JStr "string")]);
                               ("sender_name", JObj [("type", JStr "string")])])])]);
          ("required", str_list ["original_email"])]
  else
    JObj [("type", JStr "object");
          ("properties", JObj [("input", str_field "General input for the tool")]);
          ("required", str_list ["input"])].

(** the schema built from [tool_info] alone *)
Definition general_schema (tool_name : string) (i : tool_info) : tool_schema :=
  {| schema_name := JStr (method i);
     schema_description := JStr (info_description i);
     schema_input_schema := _get_default_schema tool_name;
     schema_keywords := info_keywords i;
     schema_human_description := info_description i |}.

(** The two [getattr(tool, attr, tool.get(attr, dflt))] of the logging loop:
    the default is evaluated first, so an object without [get] raises. *)
Definition log_tool (tool : sdk_tool) : outcome unit :=
  match tool with
  | ToolObject _ _ _ => Raised (AttributeError "Tool" "get")
  | ToolMapping _ => Returned tt
  end.

Fixpoint log_tools (tools : list sdk_tool) : outcome unit :=
  match tools with
  | [] => Returned tt
  | tool :: r =>
      match log_tool tool with
      | Returned _ => log_tools r
      | Raised e => Raised e
      end
  end.

(** the loop that looks for the tool named [tool_info["method"]] *)
Fixpoint find_relevant_tool (i : tool_info) (tools : list sdk_tool)
    : option tool_schema :=
  match tools with
  | [] => None
  | ToolObject name description inputSchema :: r =>
      if String.eqb name (method i) then
        Some {| schema_name := JStr name;
                schema_description := JStr description;
                schema_input_schema :=
                  match inputSchema with Some sc => sc | None => JObj [] end;
                schema_keywords := info_keywords i;
                schema_human_description := info_description i |}
      else find_relevant_tool i r
  | ToolMapping d :: r =>
      match get d "name" with
      | Some (JStr name) =>
          if String.eqb name (method i) then
            Some {| schema_name := JStr name;
                    schema_description := get_default d "description" (JStr "");
                    schema_input_schema := get_default d "inputSchema" (JObj []);
                    schema_keywords := info_keywords i;
                    schema_human_description := info_description i |}
          else find_relevant_tool i r
      | _ => find_relevant_tool i r
      end
  end.

Definition fallback_context (urgency : string) : json :=
  JObj [("reply_type", JStr "reply"); ("urgency", JStr urgency)].

(** concatenation of the [str] values of the legacy format, each followed
    by a blank *)
Fixpoint text_of_fields (fields : dict json) : string :=
  match fields with
  | [] => EmptyString
  | (_, JStr value) :: r => value ++ " " ++ text_of_fields r
  | _ :: r => text_of_fields r
  end.

(** The loop over [patterns] on the value of [user_request], whatever its
    shape: [pattern in user_request], [user_request.split(pattern)],
    [parts[-1].strip()]. *)
Fixpoint scan_patterns {py : str_methods} (patterns : list string)
    (user_request : json) : outcome json :=
  match patterns with
  | [] => Returned user_request
  | pattern :: r =>
      and_then (py_in pattern user_request) (fun found =>
        if (found : bool) then
          and_then (py_split user_request pattern) (fun parts =>
            if (1 <? List.length parts)%nat
            then Returned (JStr (strip (last parts EmptyString)))
            else scan_patterns r user_request)
        else scan_patterns r user_request)
  end.

(** [mark in user_request or word in user_request.lower()] *)
Definition marked {py : str_methods} (mark word : string) (user_request : json)
    : outcome bool :=
  and_then (py_in mark user_request) (fun found =>
    if (found : bool) then Returned true
    else and_then (py_lower user_request) (fun user_request_lower =>
           Returned (contains word user_request_lower))).

(** the [if ... elif ...] that sets [tone] *)
Definition tone_of {py : str_methods} (user_request : json) : outcome string :=
  and_then (marked "轻松" "casual" user_request) (fun casual =>
    if (casual : bool) then Returned "casual"
    else and_then (marked "紧急" "urgent" user_request) (fun urgent =>
           Returned (if (urgent : bool) then "urgent" else "professional"))).

Definition _generate_fallback_arguments {py : str_methods} (input_data : payload)
    : outcome json :=
  match get input_data "user_request" with
  | Some user_request =>
      and_then (scan_patterns patterns user_request) (fun original_email =>
      and_then (tone_of user_request) (fun tone =>
        Returned
          (JObj [("original_email", py_or original_email (JStr "User request"));
                 ("tone", JStr tone);
                 ("context",
                  fallback_context
                    (if String.eqb tone "urgent" then "high" else "normal"))])))
  | None =>
      let text_content := text_of_fields input_data in
      Returned
        (JObj [("original_email", JStr (or_default (strip text_content) "User request"));
               ("tone", JStr "professional");
               ("context", fallback_context "normal")])
  end.

(** [{"response": response}] *)
Definition response_payload (response : string) : payload :=
  [("response", JStr response)].

(** [for tool_name in self.available_tools.keys(): if tool_name in response_lower] *)
Fixpoint scan_for_tool (response_lower : string) (tool_names : list string)
    : option string :=
  match tool_names with
  | [] => None
  | tool_name :: r =>
      if contains tool_name response_lower then Some tool_name
      else scan_for_tool response_lower r
  end.

Definition email_keywords : list string :=
  ["email"; "mail"; "reply"; "draft"; "message"; "respond"].

Section Selector.
Context {W : Type} (X : externals W) {py : str_methods}.

(** the state is [self.available_tools] *)
Local Abbreviation Ms := (M W (dict tool_info)).

(** the body of the [try] in [_get_tool_schemas], for one tool *)
Definition discover (tool_name : string) (i : tool_info) : Ms tool_schema :=
  zoom (fun _ => client i) (store_client tool_name)
    (mcp_client.async_with X
       (tools <- mcp_client.list_tools X ;;
        of_outcome (log_tools tools) ;;
        ret (match find_relevant_tool i tools with
             | Some sc => sc
             | None => general_schema tool_name i
             end))).

Fixpoint schemas_loop (items : dict tool_info) (tool_schemas : dict tool_schema)
    : Ms (dict tool_schema) :=
  match items with
  | [] => ret tool_schemas
  | (tool_name, i) :: r =>
      sc <- try_except
              (discover tool_name i)
              (fun e =>
                 log WARNING ("Could not get schema for tool " ++ tool_name
                              ++ ": " ++ str_exn e) ;;
                 ret (general_schema tool_name i)) ;;
      schemas_loop r (set tool_schemas tool_name sc)
  end.

Definition _get_tool_schemas : Ms (dict tool_schema) :=
  available_tools <- get_self ;;
  schemas_loop available_tools [].

Definition _parse_llm_response (response : string) : Ms (json * json) :=
  available_tools <- get_self ;;
  match json_loads X (strip response) with
  | Returned parsed =>
      tool_name <- of_outcome (py_get parsed "selected_tool" (JStr "email_draft")) ;;
      arguments <- of_outcome (py_get parsed "arguments" (JObj [])) ;;
      ret (tool_name, arguments)
  | Raised e =>
      if is_JSONDecodeError e then
        log ERROR ("Failed to parse LLM response as JSON: " ++ str_exn e) ;;
        log ERROR ("Response was: " ++ response) ;;
        let response_lower := lower response in
        match scan_for_tool response_lower (keys available_tools) with
        | Some tool_name =>
            arguments <- of_outcome
                           (_generate_fallback_arguments (response_payload response)) ;;
            ret (JStr tool_name, arguments)
        | None =>
            arguments <- of_outcome
                           (_generate_fallback_arguments (response_payload response)) ;;
            ret (JStr "email_draft", arguments)
        end
      else raise e
  end.

Definition _fallback_selection (input_data : payload) : Ms (string * json) :=
  log WARNING "Using fallback tool selection" ;;
  let text_content := lower (str_of_payload X input_data) in
  if existsb (fun keyword => contains keyword text_content) email_keywords
  then arguments <- of_outcome (_generate_fallback_arguments input_data) ;;
       ret ("email_draft", arguments)
  else arguments <- of_outcome (_generate_fallback_arguments input_data) ;;
       ret ("email_draft", arguments).

(** [if tool_name not in self.available_tools: ...]; a list or a mapping is
    not hashable *)
Definition validate (input_data : payload) (tool_name arguments : json)
    : Ms (string * json) :=
  available_tools <- get_self ;;
  let unknown :=
    log WARNING ("LLM selected unknown tool: " ++ str_scalar tool_name
                 ++ ", falling back to email_draft") ;;
    generated <- of_outcome (_generate_fallback_arguments input_data) ;;
    ret ("email_draft", generated) in
  match tool_name with
  | JStr s => if mem s available_tools then ret (s, arguments) else unknown
  | JArr _ | JObj _ =>
      raise (Exn "TypeError" ("unhashable type: '" ++ type_name tool_name ++ "'"))
  | _ => unknown
  end.

Definition _llm_select_and_generate (input_data : payload)
    (tool_schemas : dict tool_schema) : Ms (string * json) :=
  let system_prompt := render_system_prompt X tool_schemas in
  let user_prompt := render_user_prompt X input_data in
  try_except
    (let messages := [ {| role := "system"; content := system_prompt |};
                       {| role := "user"; content := user_prompt |} ] in
     response <- extern (call_llm X messages) ;;
     p <- _parse_llm_response response ;;
     validate input_data (fst p) (snd p))
    (fun e =>
       log ERROR ("LLM tool selection failed: " ++ str_exn e) ;;
       _fallback_selection input_data).

Definition select_tool_and_generate_args (input_data : payload)
    : Ms (string * json) :=
  tool_schemas <- _get_tool_schemas ;;
  _llm_select_and_generate input_data tool_schemas.

End Selector.
End llm_tool_selector.

(** ** [main.py]: the direct tool call *)

Module main_endpoints.

Section Endpoints.
Context {W : Type} (X : externals W).

(** [call_server_tool_direct]: [request.get("arguments", {})], then
    [call_mcp_server] with nothing around it *)
Definition call_server_tool_direct (server_name tool_name : string)
    (request : dict json) : M W (dict main.server_info) json :=
  let arguments := get_default request "arguments" (JObj []) in
  main.call_mcp_server X server_name tool_name arguments.

End Endpoints.
End main_endpoints.

(** ** [mcp_registry.py]: the calls through a registered client *)

Module mcp_registry_calls.

(** [server.client] seen as a part of [self.servers] *)
Definition store_client (server_name : string) (c : mcp_client.MCPClient)
    (servers : dict mcp_registry.MCPServerInfo) : dict mcp_registry.MCPServerInfo :=
  match get servers server_name with
  | Some i => set servers server_name (mcp_registry.with_client c i)
  | None => servers
  end.

Section Calls.
Context {W : Type} (X : externals W).

Local Abbreviation Mr := (M W (dict mcp_registry.MCPServerInfo)).

Definition get_server_tools (server_name : string) : Mr (list sdk_tool) :=
  servers <- get_self ;;
  match mcp_registry.get_server servers server_name with
  | None => ret []
  | Some server =>
      match mcp_registry.client server with
      | None => ret []
      | Some c =>
          try_except
            (zoom (fun _ => c) (store_client server_name)
               (mcp_client.async_with X (mcp_client.list_tools X)))
            (fun e =>
               log ERROR ("❌ Failed to get tools from " ++ server_name ++ ": "
                          ++ str_exn e) ;;
               ret [])
      end
  end.

Definition call_server_tool (server_name tool_name : string) (arguments : json)
    : Mr mcp_result :=
  servers <- get_self ;;
  let not_found := raise (Exn "ValueError" ("Server not found: " ++ server_name)) in
  match mcp_registry.get_server servers server_name with
  | None => not_found
  | Some server =>
      match mcp_registry.client server with
      | None => not_found
      | Some c =>
          try_except
            (zoom (fun _ => c) (store_client server_name)
               (mcp_client.async_with X (mcp_client.call_tool X tool_name arguments)))
            (fun e =>
               log ERROR ("❌ Failed to call tool " ++ tool_name ++ " on "
                          ++ server_name ++ ": " ++ str_exn e) ;;
               raise e)
      end
  end.

End Calls.
End mcp_registry_calls.

(** ** [agents/email_utils.py] *)

Module email_utils.

(** the loop of [extract_email_content], which returns from inside *)
Fixpoint extract_loop {py : str_methods} (patterns : list string)
    (user_request : string) : string :=
  match patterns with
  | [] => user_request
  | pattern :: r =>
      if contains pattern user_request then
        let parts := split user_request pattern in
        if (1 <? List.length parts)%nat then strip (last parts EmptyString)
        else extract_loop r user_request
      else extract_loop r user_request
  end.

Definition extract_email_content {py : str_methods} (user_request : string)
    : string :=
  extract_loop ["："; ":"; "邮件"; "内容是"; "下面的"] user_request.

Definition detect_tone {py : str_methods} (user_request : string) : string :=
  let user_request_lower := lower user_request in
  if contains "轻松" user_request || contains "casual" user_request_lower
  then "casual"
  else if contains "紧急" user_request || contains "urgent" user_request_lower
  then "urgent"
  else if contains "正式" user_request || contains "formal" user_request_lower
  then "formal"
  else if contains "友好" user_request || contains "friendly" user_request_lower
  then "friendly"
  else "professional".

Definition detect_urgency {py : str_methods} (user_request tone : string)
    : string :=
  let user_request_lower := lower user_request in
  if String.eqb tone "urgent" || contains "紧急" user_request
     || contains "urgent" user_request_lower
  then "high"
  else if contains "慢" user_request || contains "slow" user_request_lower
  then "low"
  else "normal".

Definition build_context_string {py : str_methods} (user_request tone : string)
    : string :=
  let urgency := detect_urgency user_request tone in
  "Reply type: reply, Urgency: " ++ urgency.

Definition get_supported_tones : list string :=
  ["professional"; "casual"; "urgent"; "formal"; "friendly"].

End email_utils.

(** * Vocabulary of the statements *)

(** ** Keyword matching, in the words of the specification *)

Module Spec.

(** [needle] occurs in [hay] as a contiguous run *)
Definition occurs_in (needle hay : string) : Prop :=
  exists before after, hay = before ++ needle ++ after.

(** case-insensitive substring containment of a keyword in a text *)
Definition keyword_matches {py : str_methods} (text keyword : string) : Prop :=
  occurs_in (lower keyword) (lower text).

(** a keyword set has any match *)
Definition any_match {py : str_methods} (text : string) (keywords : list string)
    : Prop :=
  exists keyword, In keyword keywords /\ keyword_matches text keyword.

(** *** The heuristics, in words

    What "heuristically generated arguments" are for a request text: the
    mail text is the request itself when none of the patterns occurs in it,
    and else what follows the last occurrence of the first pattern (in the
    order of the list) that occurs, stripped; an empty mail text is replaced
    by "User request".  The tone is "casual" or "urgent" when the text
    carries the mark of it, "casual" first, and "professional" otherwise. *)

Definition mail_text_of {py : str_methods} (patterns : list string)
    (text original_email : string) : Prop :=
  (Forall (fun pattern => ~ occurs_in pattern text) patterns
   /\ original_email = or_default text "User request")
  \/ (exists skipped pattern rest before after,
         patterns = (skipped ++ pattern :: rest)%list
         /\ Forall (fun p => ~ occurs_in p text) skipped
         /\ text = before ++ pattern ++ after
         /\ ~ occurs_in pattern after
         /\ original_email = or_default (strip after) "User request").

Definition casual_marks {py : str_methods} (text : string) : Prop :=
  occurs_in "轻松" text \/ occurs_in "casual" (lower text).

Definition urgent_marks {py : str_methods} (text : string) : Prop :=
  occurs_in "紧急" text \/ occurs_in "urgent" (lower text).

Definition tone_for {py : str_methods} (text tone : string) : Prop :=
  (casual_marks text /\ tone = "casual")
  \/ (~ casual_marks text /\ urgent_marks text /\ tone = "urgent")
  \/ (~ casual_marks text /\ ~ urgent_marks text /\ tone = "professional").

(** the [str] values of a mapping, in order *)
Definition texts (d : dict json) : list string :=
  flat_map (fun item => match snd item with JStr value => [value] | _ => [] end) d.

(** each text followed by a blank, all in a row *)
Definition blank_separated (l : list string) : string :=
  fold_right (fun value acc => value ++ " " ++ acc) EmptyString l.

(** a payload whose [user_request], when it has one, is a text *)
Definition textual (input_data : payload) : Prop :=
  match get input_data "user_request" with
  | Some (JStr _) | None => True
  | Some _ => False
  end.

(** Arguments generated by the heuristics from a textual payload: a mapping
    with the mail text (never empty), the tone, and a context whose urgency
    is "high" exactly for the tone "urgent".  Without [user_request] the
    mail text is made of the [str] values of the payload and the tone is
    "professional". *)
Definition heuristic_arguments {py : str_methods} (input_data : payload)
    (arguments : json) : Prop :=
  exists original_email tone urgency,
    arguments = JObj [("original_email", JStr original_email);
                      ("tone", JStr tone);
                      ("context", JObj [("reply_type", JStr "reply");
                                        ("urgency", JStr urgency)])]
    /\ original_email <> ""
    /\ (tone = "urgent" /\ urgency = "high" \/ tone <> "urgent" /\ urgency = "normal")
    /\ match get input_data "user_request" with
       | Some (JStr text) =>
           mail_text_of ["："; ":"; "邮件"; "内容是"; "下面的"] text original_email
           /\ tone_for text tone
       | Some _ => False
       | None =>
           original_email
           = or_default (strip (blank_separated (texts input_data))) "User request"
           /\ tone = "professional"
       end.

End Spec.

(** a computation that hands back a value whatever the state *)
Definition returns {W S A} (m : M W S A) : Prop :=
  forall en s, exists en' s' a, m en s = (en', s', Returned a).

(** the mapping returned when the session use raised [e] *)
Definition failure_result (server_name tool_name : string) (e : exn)
    (i : main.server_info) : json :=
  JObj [("success", JBool false);
        ("server_name", JStr server_name);
        ("tool_name", JStr tool_name);
        ("error", JStr (str_exn e));
        ("server_info", main.server_info_json i)].

(** "email_draft" with the arguments generated from the payload, when
    their generation returns *)
Definition default_selection {py : str_methods} (input_data : payload)
    : outcome (string * json) :=
  and_then (llm_tool_selector._generate_fallback_arguments input_data)
           (fun arguments => Returned ("email_draft", arguments)).

(** the arguments generated from [{"response": response}] *)
Definition response_arguments {py : str_methods} (response : string) : json :=
  JObj [("original_email", JStr (or_default (strip (response ++ " ")) "User request"));
        ("tone", JStr "professional");
        ("context", JObj [("reply_type", JStr "reply"); ("urgency", JStr "normal")])].

(** the log records of a failed LLM call *)
Definition failure_logs (e : exn) : list log_record :=
  [Log ERROR ("LLM tool selection failed: " ++ str_exn e);
   Log WARNING "Using fallback tool selection"].

(** the name found by scanning the raw answer, else the default *)
Definition scanned_name {py : str_methods} (response : string)
    (available_tools : dict llm_tool_selector.tool_info) : string :=
  match llm_tool_selector.scan_for_tool (lower response) (keys available_tools) with
  | Some tool_name => tool_name
  | None => "email_draft"
  end.

(** The exception a source raises before the first entry is read: the file
    cannot be read as JSON, or its top level or its [mcpServers] value is no
    mapping. *)
Definition source_error (src : config_source) : option exn :=
  match src with
  | FileAbsent _ => None
  | FileUnreadable e => Some e
  | FileJson (ConfigOther ty) => Some (AttributeError ty "get")
  | FileJson (ConfigObject (Some (ServersOther ty))) => Some (AttributeError ty "items")
  | FileJson (ConfigObject _) => None
  end.

Section SelectionVocabulary.
Context {W : Type} (X : externals W) {py : str_methods}.

(** the two messages sent to the LLM *)
Definition llm_messages (input_data : payload) (tool_schemas : dict tool_schema)
    : list message :=
  [ {| role := "system"; content := render_system_prompt X tool_schemas |};
    {| role := "user"; content := render_user_prompt X input_data |} ].

(** the body of the [try] in [_llm_select_and_generate] *)
Definition selection_body (input_data : payload) (tool_schemas : dict tool_schema)
    : M W (dict llm_tool_selector.tool_info) (string * json) :=
  response <- extern (call_llm X (llm_messages input_data tool_schemas)) ;;
  p <- llm_tool_selector._parse_llm_response X response ;;
  llm_tool_selector.validate input_data (fst p) (snd p).

End SelectionVocabulary.

(** ** Vocabulary of the further properties *)

(** what a server of [main.py] shows to the outside: all but its client *)
Definition public_part (i : main.server_info)
    : string * list string * string * list string :=
  (main.command i, main.args i, main.description i, main.keywords i).

(** the registered names with the public part of each, in load order *)
Definition catalogue (mcp_servers : dict main.server_info)
    : list (string * (string * list string * string * list string)) :=
  map (fun p => (fst p, public_part (snd p))) mcp_servers.

(** a computation whose final object is related to its initial one by [R] *)
Definition preserves {W S A} (R : S -> S -> Prop) (m : M W S A) : Prop :=
  forall en s en' s' r, m en s = (en', s', r) -> R s s'.

(** two registries of [main.py] that show the same to the outside *)
Definition same_catalogue (mcp_servers servers' : dict main.server_info) : Prop :=
  catalogue servers' = catalogue mcp_servers.

(** a computation whose returned values all satisfy [Q] *)
Definition ensures {W S A} (Q : A -> Prop) (m : M W S A) : Prop :=
  forall en s en' s' a, m en s = (en', s', Returned a) -> Q a.

(** a schema that carries the keywords and the description of its tool *)
Definition schema_of_tool (i : llm_tool_selector.tool_info) (sc : tool_schema) : Prop :=
  schema_keywords sc = llm_tool_selector.info_keywords i
  /\ schema_human_description sc = llm_tool_selector.info_description i.

(** [v[k1][k2]...] on nested mappings *)
Fixpoint lookup_path (v : json) (path : list string) : option json :=
  match path with
  | [] => Some v
  | k :: r =>
      match field v k with
      | Some v' => lookup_path v' r
      | None => None
      end
  end.

(** a client as the constructor leaves it: launch parameters, timeout, and
    no session yet *)
Definition fresh_client (command : string) (args : list string) : mcp_client.MCPClient :=
  {| mcp_client.server_params := {| sp_command := command; sp_args := args |};
     mcp_client.timeout := 30;
     mcp_client.session := None; mcp_client._client_ctx := None;
     mcp_client._read := None; mcp_client._write := None |}.

(** an entry of the configuration that the loaders accept: a mapping whose
    command is not the empty text and whose argument list is present and not
    empty *)
Definition loadable (v : entry_value) : Prop :=
  match v with
  | EntryObject e =>
      entry_command e <> Some "" /\ entry_args e <> None /\ entry_args e <> Some []
  | EntryOther _ => False
  end.

(** the descriptor a loadable entry stands for, with the defaults of the
    loader *)
Definition described (server_name : string) (e : server_entry)
    : mcp_registry.MCPServerInfo :=
  let command := match entry_command e with Some c => c | None => "python" end in
  let args := match entry_args e with Some a => a | None => [] end in
  {| mcp_registry.name := server_name;
     mcp_registry.command := command;
     mcp_registry.args := args;
     mcp_registry.description :=
       match entry_description e with
       | Some d => d
       | None => "MCP Server: " ++ server_name
       end;
     mcp_registry.keywords := match entry_keywords e with Some k => k | None => [] end;
     mcp_registry.client := Some (fresh_client command args) |}.

(** the registry a list of loadable entries stands for, in the order of the
    file *)
Fixpoint registry_of (items : dict entry_value) : dict mcp_registry.MCPServerInfo :=
  match items with
  | [] => []
  | (server_name, EntryObject e) :: r => (server_name, described server_name e) :: registry_of r
  | (_, EntryOther _) :: r => registry_of r
  end.

(** a registered server of [MCPRegistry] that can be launched: it is stored
    under its own name, command and arguments are not empty, and its client
    was built from them and is not opened *)
Definition launchable (p : string * mcp_registry.MCPServerInfo) : Prop :=
  mcp_registry.name (snd p) = fst p
  /\ mcp_registry.command (snd p) <> ""
  /\ mcp_registry.args (snd p) <> []
  /\ mcp_registry.client (snd p)
     = Some (fresh_client (mcp_registry.command (snd p)) (mcp_registry.args (snd p))).

(** a configuration file that is a mapping of servers with these items *)
Definition config_of (items : dict entry_value) : config_source :=
  FileJson (ConfigObject (Some (ServersObject items))).

(** ** Sample data *)

Module Examples.

Definition mail_client : mcp_client.MCPClient :=
  {| mcp_client.server_params :=
       {| sp_command := "python"; sp_args := ["mail_server.py"] |};
     mcp_client.timeout := 30;
     mcp_client.session := None; mcp_client._client_ctx := None;
     mcp_client._read := None; mcp_client._write := None |}.

Definition calendar_client : mcp_client.MCPClient :=
  {| mcp_client.server_params :=
       {| sp_command := "python"; sp_args := ["calendar_server.py"] |};
     mcp_client.timeout := 30;
     mcp_client.session := None; mcp_client._client_ctx := None;
     mcp_client._read := None; mcp_client._write := None |}.

(** entries of the module global [mcp_servers] of [main.py] *)
Definition mailer_info : main.server_info :=
  {| main.client := mail_client; main.command := "python";
     main.args := ["mail_server.py"];
     main.description := "Mail drafting server";
     main.keywords := ["email"; "mail"] |}.

Definition calendar_info : main.server_info :=
  {| main.client := calendar_client; main.command := "python";
     main.args := ["calendar_server.py"];
     main.description := "Calendar server";
     main.keywords := ["calendar"; "meeting"] |}.

(** entries of [MCPRegistry.servers] *)
Definition mailer_server : mcp_registry.MCPServerInfo :=
  {| mcp_registry.name := "mailer"; mcp_registry.command := "python";
     mcp_registry.args := ["mail_server.py"];
     mcp_registry.description := "Mail drafting server";
     mcp_registry.keywords := ["email"];
     mcp_registry.client := Some mail_client |}.

Definition calendar_server : mcp_registry.MCPServerInfo :=
  {| mcp_registry.name := "calendar"; mcp_registry.command := "python";
     mcp_registry.args := ["calendar_server.py"];
     mcp_registry.description := "Calendar server";
     mcp_registry.keywords := ["meeting"];
     mcp_registry.client := Some calendar_client |}.

Definition two_servers : dict mcp_registry.MCPServerInfo :=
  [("calendar", calendar_server); ("mailer", mailer_server)].

Definition mailer_only : dict mcp_registry.MCPServerInfo :=
  [("mailer", mailer_server)].

(** An outside world that counts the calls made into the SDK: every call
    succeeds and adds one to the counter; the LLM endpoint is down and
    [json.loads] rejects every text. *)
Definition counting_sdk : externals nat :=
  {| stdio_client := fun _ w => (S w, Returned 1);
     ctx_aenter := fun _ _ w => (S w, Returned (2, 3));
     ctx_aexit := fun _ _ w => (S w, Returned tt);
     ClientSession := fun _ _ w => (S w, Returned 4);
     session_aenter := fun _ w => (S w, Returned tt);
     session_initialize := fun _ _ w => (S w, Returned tt);
     session_aexit := fun _ _ w => (S w, Returned tt);
     session_list_tools := fun _ _ w => (S w, Returned []);
     session_call_tool := fun _ _ _ _ w =>
       (S w, Returned {| result_str := "draft"; result_type_str := "CallToolResult" |});
     call_llm := fun _ w => (S w, Raised (Exn "APIConnectionError" "Connection error."));
     json_loads := fun _ => Raised (Exn "JSONDecodeError" "Expecting value");
     render_system_prompt := fun _ => "system";
     render_user_prompt := fun _ => "user";
     str_of_payload := fun _ => "{}" |}.

(** The text of a JSON answer that selects a tool named "weather". *)
Definition quote : string := String "034"%char EmptyString.

Definition weather_answer : string :=
  "{" ++ quote ++ "selected_tool" ++ quote ++ ": " ++ quote ++ "weather" ++ quote
  ++ ", " ++ quote ++ "arguments" ++ quote ++ ": {}}".

(** [json.loads] on the answers used below *)
Definition sample_json_loads (s : string) : outcome json :=
  if String.eqb s weather_answer
  then Returned (JObj [("selected_tool", JStr "weather"); ("arguments", JObj [])])
  else Raised (Exn "JSONDecodeError" "Expecting value: line 1 column 1 (char 0)").

(** An outside world in which no server process can be started and the
    session teardown fails; the LLM gives the answer [llm_answer]. *)
Definition failing_sdk (llm_answer : string) : externals nat :=
  {| stdio_client := fun _ w => (S w, Returned 1);
     ctx_aenter := fun _ _ w =>
       (S w, Raised (Exn "FileNotFoundError" "No such file or directory: 'python'"));
     ctx_aexit := fun _ _ w => (S w, Returned tt);
     ClientSession := fun _ _ w => (S w, Returned 4);
     session_aenter := fun _ w => (S w, Returned tt);
     session_initialize := fun _ _ w => (S w, Raised (Exn "TimeoutError" ""));
     session_aexit := fun _ _ w =>
       (S w, Raised (Exn "RuntimeError" "Attempted to exit cancel scope twice"));
     session_list_tools := fun _ _ w => (S w, Raised (Exn "TimeoutError" ""));
     session_call_tool := fun _ _ _ _ w => (S w, Raised (Exn "TimeoutError" ""));
     call_llm := fun _ w => (S w, Returned llm_answer);
     json_loads := sample_json_loads;
     render_system_prompt := fun _ => "system";
     render_user_prompt := fun _ => "user";
     str_of_payload := fun _ => "{}" |}.

(** the selector's tools: a calendar tool only, and a calendar and a mail tool *)
Definition calendar_tool : llm_tool_selector.tool_info :=
  {| llm_tool_selector.client := calendar_client;
     llm_tool_selector.method := "create_event";
     llm_tool_selector.keywords := Some ["calendar"; "meeting"];
     llm_tool_selector.description := Some "Create a calendar event" |}.

Definition email_tool : llm_tool_selector.tool_info :=
  {| llm_tool_selector.client := mail_client;
     llm_tool_selector.method := "generate_email_draft";
     llm_tool_selector.keywords := Some ["email"; "mail"];
     llm_tool_selector.description := Some "Draft a reply to a mail" |}.

Definition calendar_only : dict llm_tool_selector.tool_info :=
  [("calendar", calendar_tool)].

Definition calendar_and_email : dict llm_tool_selector.tool_info :=
  [("calendar", calendar_tool); ("email_draft", email_tool)].

Definition weather_request : payload :=
  [("user_request", JStr "what is the weather in Paris")].

(** a payload whose [user_request] is the number 5 *)
Definition number_request : payload := [("user_request", JNum 5)].

(** a client whose session was opened before *)
Definition opened_client : mcp_client.MCPClient :=
  {| mcp_client.server_params :=
       {| sp_command := "python"; sp_args := ["mail_server.py"] |};
     mcp_client.timeout := 30;
     mcp_client.session := Some 4; mcp_client._client_ctx := Some 1;
     mcp_client._read := Some 2; mcp_client._write := Some 3 |}.

Definition env0 : env nat := Env 0 [].

(** a configuration file that declares the calendar server only *)
Definition calendar_config : config_source :=
  FileJson
    (ConfigObject
       (Some (ServersObject
                [("calendar",
                  EntryObject {| entry_command := Some "python";
                                 entry_args := Some ["calendar_server.py"];
                                 entry_description := Some "Calendar server";
                                 entry_keywords := Some ["calendar"; "meeting"] |})]))).

(** a configuration file that is no JSON text *)
Definition broken_config : config_source :=
  FileUnreadable (Exn "JSONDecodeError" "Expecting value: line 1 column 1 (char 0)").

End Examples.

(** ** More sample data *)

Module MoreExamples.

Definition calendar_entry : entry_value :=
  EntryObject {| entry_command := Some "python";
                 entry_args := Some ["calendar_server.py"];
                 entry_description := Some "Calendar server";
                 entry_keywords := Some ["calendar"; "meeting"] |}.

(** an entry that leaves out all but the arguments *)
Definition mailer_fields : server_entry :=
  {| entry_command := None;
     entry_args := Some ["mail_server.py"];
     entry_description := None;
     entry_keywords := None |}.

(** an entry without arguments *)
Definition no_args_entry : entry_value :=
  EntryObject {| entry_command := Some "python";
                 entry_args := None;
                 entry_description := Some "Notes server";
                 entry_keywords := Some ["note"] |}.

Definition two_entries : dict entry_value :=
  [("calendar", calendar_entry); ("mailer", EntryObject mailer_fields)].

Definition main_registry : dict main.server_info :=
  [("calendar", Examples.calendar_info); ("mailer", Examples.mailer_info)].

Definition mail_request : dict json := [("user_request", JStr "draft a mail: hi")].

Definition draft : mcp_result :=
  {| result_str := "draft"; result_type_str := "CallToolResult" |}.

(** the selector's tools when a tool named "weather" is registered *)
Definition weather_only : dict llm_tool_selector.tool_info :=
  [("weather", Examples.calendar_tool)].

End MoreExamples.

(** * Properties *)

Lemma prefix_iff_app (p s : string) :
  prefix p s = true <-> exists rest, s = p ++ rest.
Proof.
  revert s; induction p as [|c p IH]; intros s.
  - split; [intros _; now exists s | intros _; now destruct s].
  - destruct s as [|d s]; simpl.
    + split; [discriminate | intros [rest H]; discriminate].
    + destruct (Ascii.ascii_dec c d) as [->|Hne].
      * rewrite IH. split; intros [rest H]; exists rest.
        -- now rewrite H.
        -- now inversion H.
      * split; [discriminate | intros [rest H]; congruence].
Qed.

Lemma contains_unfold (n h : string) :
  contains n h =
  if prefix n h then true
  else match h with EmptyString => false | String _ r => contains n r end.
Proof. destruct h; reflexivity. Qed.

Lemma contains_iff_occurs (n h : string) :
  contains n h = true <-> Spec.occurs_in n h.
Proof.
  unfold Spec.occurs_in. split.
  - induction h as [|c h IH]; rewrite contains_unfold;
      destruct (prefix n _) eqn:Hp.
    + intros _. apply prefix_iff_app in Hp as [rest ->]. now exists "", rest.
    + discriminate.
    + intros _. apply prefix_iff_app in Hp as [rest ->]. now exists "", rest.
    + intros H. destruct (IH H) as (b & a & ->). now exists (String c b), a.
  - intros (b & a & ->). induction b as [|c b IH]; rewrite contains_unfold.
    + assert (Hp : prefix n ("" ++ n ++ a) = true)
        by (apply prefix_iff_app; now exists a).
      now rewrite Hp.
    + change (String c b ++ n ++ a) with (String c (b ++ n ++ a)).
      destruct (prefix n (String c (b ++ n ++ a))); [reflexivity | exact IH].
Qed.

(** ** Routing by keyword (C8, C2, C10) *)

Lemma values_app {V} (a b : dict V) : values (a ++ b)%list = (values a ++ values b)%list.
Proof. apply map_app. Qed.

Lemma Forall_values {V} (P : V -> Prop) (d : dict V) :
  Forall (fun p => P (snd p)) d -> Forall P (values d).
Proof. intros H. unfold values. apply Forall_map. exact H. Qed.

Section Routing.
Context {py : str_methods}.

Lemma keyword_hit_iff (text : string) (keywords : list string) :
  keyword_hit (lower text) keywords = true <-> Spec.any_match text keywords.
Proof.
  unfold keyword_hit, Spec.any_match, Spec.keyword_matches.
  rewrite existsb_exists. split; intros (k & Hin & H); exists k; split; trivial;
    now apply contains_iff_occurs.
Qed.

Lemma keyword_hit_false (text : string) (keywords : list string) :
  ~ Spec.any_match text keywords -> keyword_hit (lower text) keywords = false.
Proof.
  intros H. destruct (keyword_hit _ _) eqn:E; trivial.
  now apply keyword_hit_iff in E.
Qed.

(** *** The loops of the two finders *)

Lemma main_find_loop_first (text : string) (before after : dict main.server_info)
    (server_name : string) (i : main.server_info) :
  Forall (fun p => ~ Spec.any_match text (main.keywords (snd p))) before ->
  Spec.any_match text (main.keywords i) ->
  main.find_loop (lower text) (before ++ (server_name, i) :: after)%list = Some server_name.
Proof.
  intros Hb Hi. induction Hb as [|[n j] b Hj _ IH]; simpl in *.
  - apply keyword_hit_iff in Hi. now rewrite Hi.
  - now rewrite (keyword_hit_false _ _ Hj).
Qed.

Lemma main_find_loop_none (text : string) (mcp_servers : dict main.server_info) :
  Forall (fun p => ~ Spec.any_match text (main.keywords (snd p))) mcp_servers ->
  main.find_loop (lower text) mcp_servers = None.
Proof.
  intros H. induction H as [|[n j] b Hj _ IH]; simpl in *; trivial.
  now rewrite (keyword_hit_false _ _ Hj).
Qed.

Lemma registry_keyword_loop_first (text : string)
    (before after : list mcp_registry.MCPServerInfo)
    (server : mcp_registry.MCPServerInfo) :
  Forall (fun s => ~ Spec.any_match text (mcp_registry.keywords s)) before ->
  Spec.any_match text (mcp_registry.keywords server) ->
  mcp_registry.find_by_keyword_loop (lower text) (before ++ server :: after)%list
  = Some server.
Proof.
  intros Hb Hi. induction Hb as [|j b Hj _ IH]; simpl.
  - apply keyword_hit_iff in Hi. now rewrite Hi.
  - now rewrite (keyword_hit_false _ _ Hj).
Qed.

Lemma registry_keyword_loop_none (text : string)
    (servers : list mcp_registry.MCPServerInfo) :
  Forall (fun s => ~ Spec.any_match text (mcp_registry.keywords s)) servers ->
  mcp_registry.find_by_keyword_loop (lower text) servers = None.
Proof.
  intros H. induction H as [|j b Hj _ IH]; simpl; trivial.
  now rewrite (keyword_hit_false _ _ Hj).
Qed.

Lemma registry_name_loop_first (text : string)
    (before after : dict mcp_registry.MCPServerInfo)
    (server_name : string) (server : mcp_registry.MCPServerInfo) :
  Forall (fun p => ~ Spec.keyword_matches text (fst p)) before ->
  Spec.keyword_matches text server_name ->
  mcp_registry.find_by_name_loop (lower text) (before ++ (server_name, server) :: after)%list
  = Some server.
Proof.
  intros Hb Hi. induction Hb as [|[n j] b Hj _ IH]; simpl in *.
  - apply contains_iff_occurs in Hi. now rewrite Hi.
  - destruct (contains (lower n) (lower text)) eqn:E; trivial.
    apply contains_iff_occurs in E. now elim Hj.
Qed.

Lemma registry_name_loop_none (text : string)
    (servers : dict mcp_registry.MCPServerInfo) :
  Forall (fun p => ~ Spec.keyword_matches text (fst p)) servers ->
  mcp_registry.find_by_name_loop (lower text) servers = None.
Proof.
  intros H. induction H as [|[n j] b Hj _ IH]; simpl in *; trivial.
  destruct (contains (lower n) (lower text)) eqn:E; trivial.
  apply contains_iff_occurs in E. now elim Hj.
Qed.

(** C8.  Keyword matching is a case-insensitive substring containment check
    of each descriptor's keywords against the text, and the first descriptor
    in load order with any matching keyword wins, in the router of [main.py]
    and in [MCPRegistry] alike.  Whatever [str.lower] does: the check of the
    code holds exactly when some keyword, lowered, occurs in the lowered
    text; two texts with the same lowering are routed alike; and a server
    whose keyword set has a match is returned whenever no server loaded
    before it has one.  On ASCII text, where [str.lower] lowers the letters
    A to Z: a keyword matches exactly when it occurs in the text once the
    letters of both are lowered, and a server "mailer" whose keywords are
    "email" and "mail", in any case, is selected for "please draft an
    email", in any case. *)
Theorem first_keyword_match_wins :
  (forall text keywords,
      keyword_hit (lower text) keywords = true <-> Spec.any_match text keywords)
  /\ (forall mcp_servers text text',
      lower text = lower text' ->
      main.find_server_by_keywords mcp_servers text
      = main.find_server_by_keywords mcp_servers text')
  /\ (forall servers text text',
      lower text = lower text' ->
      mcp_registry.find_server_by_keywords servers text
      = mcp_registry.find_server_by_keywords servers text')
  /\ (forall text before after server_name i,
         Forall (fun p => ~ Spec.any_match text (main.keywords (snd p))) before ->
         Spec.any_match text (main.keywords i) ->
         main.find_server_by_keywords (before ++ (server_name, i) :: after)%list text
         = Some server_name)
  /\ (forall text before after server_name server,
         Forall (fun p => ~ Spec.any_match text (mcp_registry.keywords (snd p)))
                before ->
         Spec.any_match text (mcp_registry.keywords server) ->
         mcp_registry.find_server_by_keywords
           (before ++ (server_name, server) :: after)%list text
         = Some server)
  /\ (lower_on_ascii ->
      forall text keyword,
        is_ascii text = true -> is_ascii keyword = true ->
        (keyword_hit (lower text) [keyword] = true
         <-> Spec.occurs_in (ascii_lower keyword) (ascii_lower text)))
  /\ (lower_on_ascii ->
      forall i after text,
        is_ascii text = true ->
        ascii_lower text = "please draft an email" ->
        Forall (fun keyword => is_ascii keyword = true) (main.keywords i) ->
        map ascii_lower (main.keywords i) = ["email"; "mail"] ->
        main.find_server_by_keywords (("mailer", i) :: after) text = Some "mailer").
Proof.
  split; [exact keyword_hit_iff|]. split; [|split; [|split; [|split; [|split]]]].
  - intros mcp_servers text text' H. unfold main.find_server_by_keywords.
    now rewrite H.
  - intros servers text text' H. unfold mcp_registry.find_server_by_keywords.
    now rewrite H.
  - intros text before after server_name i Hb Hi.
    unfold main.find_server_by_keywords.
    now rewrite (main_find_loop_first text before after server_name i Hb Hi).
  - intros text before after server_name server Hb Hi.
    unfold mcp_registry.find_server_by_keywords.
    rewrite values_app. simpl.
    rewrite (registry_keyword_loop_first text (values before) (values after) server);
      trivial.
    now apply Forall_values.
  - intros Hlow text keyword Ht Hk. unfold keyword_hit. cbn [existsb].
    rewrite orb_false_r, (Hlow text Ht), (Hlow keyword Hk).
    apply contains_iff_occurs.
  - intros Hlow i after text Ht Htext Hks Hmap.
    unfold main.find_server_by_keywords. cbn [main.find_loop].
    destruct (main.keywords i) as [|k1 [|k2 [|k3 r]]]; try discriminate Hmap.
    injection Hmap as H1 H2.
    inversion Hks as [|? ? Hk1 Hks']; subst.
    unfold keyword_hit. cbn [existsb].
    rewrite (Hlow text Ht), (Hlow k1 Hk1), Htext, H1. reflexivity.
Qed.

Lemma registry_no_keyword_no_name (servers : dict mcp_registry.MCPServerInfo)
    (text : string) :
  Forall (fun p => ~ Spec.any_match text (mcp_registry.keywords (snd p))) servers ->
  Forall (fun p => ~ Spec.keyword_matches text (fst p)) servers ->
  mcp_registry.find_server_by_keywords servers text = None.
Proof.
  intros Hk Hn. unfold mcp_registry.find_server_by_keywords.
  rewrite registry_keyword_loop_none by now apply Forall_values.
  now apply registry_name_loop_none.
Qed.

Lemma registry_no_keyword_first_name (text : string)
    (before after : dict mcp_registry.MCPServerInfo)
    (server_name : string) (server : mcp_registry.MCPServerInfo) :
  Forall (fun p => ~ Spec.any_match text (mcp_registry.keywords (snd p)))
         (before ++ (server_name, server) :: after)%list ->
  Forall (fun p => ~ Spec.keyword_matches text (fst p)) before ->
  Spec.keyword_matches text server_name ->
  mcp_registry.find_server_by_keywords
    (before ++ (server_name, server) :: after)%list text
  = Some server.
Proof.
  intros Hk Hb Hn. unfold mcp_registry.find_server_by_keywords.
  rewrite registry_keyword_loop_none by now apply Forall_values.
  now apply registry_name_loop_first.
Qed.

(** C2, as the code has it.  In the router of [main.py], when no keyword of
    any server is contained in the text (case-insensitively), the name of
    the first-loaded server is returned on a non-empty registry and [None]
    on an empty one.  [MCPRegistry.find_server_by_keywords] returns [None]
    on an empty registry as well, but without a keyword match it does not
    take the first-loaded descriptor: it returns [None] unless a server name
    is contained in the text. *)
Theorem first_loaded_fallback :
  (forall text server_name i rest,
      Forall (fun p => ~ Spec.any_match text (main.keywords (snd p)))
             ((server_name, i) :: rest) ->
      main.find_server_by_keywords ((server_name, i) :: rest) text = Some server_name)
  /\ (forall text, main.find_server_by_keywords [] text = None)
  /\ (forall text, mcp_registry.find_server_by_keywords [] text = None)
  /\ (forall text servers,
         Forall (fun p => ~ Spec.any_match text (mcp_registry.keywords (snd p)))
                servers ->
         Forall (fun p => ~ Spec.keyword_matches text (fst p)) servers ->
         mcp_registry.find_server_by_keywords servers text = None).
Proof.
  repeat split.
  - intros text server_name i rest H. unfold main.find_server_by_keywords.
    now rewrite (main_find_loop_none _ _ H).
  - intros text servers Hk Hn. now apply registry_no_keyword_no_name.
Qed.

(** C10.  In [MCPRegistry.find_server_by_keywords], when no keyword of any
    server matches the text, the name of each server is checked in load
    order as a case-insensitive substring of the text and the first such
    server is returned; when no name matches either the answer is [None],
    also on a non-empty registry. *)
Theorem registry_name_fallback (text : string)
    (servers : dict mcp_registry.MCPServerInfo) :
  Forall (fun p => ~ Spec.any_match text (mcp_registry.keywords (snd p))) servers ->
  (forall before after server_name server,
      servers = (before ++ (server_name, server) :: after)%list ->
      Forall (fun p => ~ Spec.keyword_matches text (fst p)) before ->
      Spec.keyword_matches text server_name ->
      mcp_registry.find_server_by_keywords servers text = Some server)
  /\ (Forall (fun p => ~ Spec.keyword_matches text (fst p)) servers ->
      mcp_registry.find_server_by_keywords servers text = None).
Proof.
  intros Hk. split.
  - intros before after server_name server -> Hb Hn.
    now apply registry_no_keyword_first_name.
  - intros Hn. now apply registry_no_keyword_no_name.
Qed.

End Routing.

(** the samples are routed with the methods on ASCII text *)
Lemma ascii_methods_lower_on_ascii : lower_on_ascii (py := ascii_methods).
Proof. intros s _. reflexivity. Qed.

Lemma first_keyword_match_wins_witness :
  main.find_server_by_keywords (py := ascii_methods)
    [("mailer", Examples.mailer_info); ("calendar", Examples.calendar_info)]
    "Please draft an EMAIL"
  = Some "mailer".
Proof.
  apply (proj2 (proj2 (proj2 (proj2 (proj2 (proj2
           (first_keyword_match_wins (py := ascii_methods)))))))
           ascii_methods_lower_on_ascii Examples.mailer_info
           [("calendar", Examples.calendar_info)] "Please draft an EMAIL").
  - reflexivity.
  - reflexivity.
  - repeat constructor.
  - reflexivity.
Defined.

Lemma first_loaded_fallback_witness :
  main.find_server_by_keywords (py := ascii_methods)
    [("calendar", Examples.calendar_info); ("mailer", Examples.mailer_info)]
    "What is the weather?"
  = Some "calendar".
Proof.
  apply (proj1 (first_loaded_fallback (py := ascii_methods)) "What is the weather?"
           "calendar" Examples.calendar_info [("mailer", Examples.mailer_info)]).
  repeat constructor; intros H; apply keyword_hit_iff in H; vm_compute in H;
    discriminate.
Defined.

(** C2 as stated fails on [MCPRegistry.find_server_by_keywords]: on the
    registry holding the one server "mailer" (keyword "email") and the text
    "hello", no keyword matches, the registry is not empty, and the answer
    is [None], not the first-loaded descriptor. *)
Lemma registry_finder_does_not_fall_back_to_first :
  Forall (fun p => ~ Spec.any_match (py := ascii_methods) "hello"
                     (mcp_registry.keywords (snd p)))
         Examples.mailer_only
  /\ hd_error (values Examples.mailer_only) = Some Examples.mailer_server
  /\ mcp_registry.find_server_by_keywords (py := ascii_methods)
       Examples.mailer_only "hello" = None
  /\ mcp_registry.find_server_by_keywords (py := ascii_methods)
       Examples.mailer_only "hello"
     <> hd_error (values Examples.mailer_only).
Proof.
  repeat split.
  - repeat constructor. intros H. apply keyword_hit_iff in H. vm_compute in H.
    discriminate.
  - vm_compute. discriminate.
Qed.

Lemma registry_name_fallback_witness :
  mcp_registry.find_server_by_keywords (py := ascii_methods)
    Examples.two_servers "ask the Mailer"
  = Some Examples.mailer_server
  /\ mcp_registry.find_server_by_keywords (py := ascii_methods)
       Examples.two_servers "hello" = None.
Proof.
  split.
  - apply (proj1 (registry_name_fallback (py := ascii_methods) "ask the Mailer"
                    Examples.two_servers
                    ltac:(repeat constructor; intros H; apply keyword_hit_iff in H;
                          vm_compute in H; discriminate))
             [("calendar", Examples.calendar_server)] [] "mailer"
             Examples.mailer_server eq_refl).
    + repeat constructor. intros H. apply contains_iff_occurs in H.
      vm_compute in H. discriminate.
    + apply contains_iff_occurs. vm_compute. reflexivity.
  - apply (proj2 (registry_name_fallback (py := ascii_methods) "hello"
                    Examples.two_servers
                    ltac:(repeat constructor; intros H; apply keyword_hit_iff in H;
                          vm_compute in H; discriminate))).
    repeat constructor; intros H; apply contains_iff_occurs in H;
      vm_compute in H; discriminate.
Defined.

(** ** Running computations *)

Ltac run :=
  unfold bind, try_except, ret, raise, get_self, put_self, modify, extern, log,
    of_outcome, zoom.

(** case analysis on the next call into the outside world *)
Ltac next_call :=
  match goal with
  | |- context [stdio_client ?X ?a ?w] =>
      destruct (stdio_client X a w) as [? [?|?]] eqn:?
  | |- context [ctx_aenter ?X ?a ?b ?w] =>
      destruct (ctx_aenter X a b w) as [? [[? ?]|?]] eqn:?
  | |- context [ClientSession ?X ?a ?b ?w] =>
      destruct (ClientSession X a b w) as [? [?|?]] eqn:?
  | |- context [session_aenter ?X ?a ?w] =>
      destruct (session_aenter X a w) as [? [[]|?]] eqn:?
  | |- context [session_initialize ?X ?a ?b ?w] =>
      destruct (session_initialize X a b w) as [? [[]|?]] eqn:?
  | |- context [session_list_tools ?X ?a ?b ?w] =>
      destruct (session_list_tools X a b w) as [? [?|?]] eqn:?
  | |- context [session_call_tool ?X ?a ?b ?c ?d ?w] =>
      destruct (session_call_tool X a b c d w) as [? [?|?]] eqn:?
  | |- context [session_aexit ?X ?a ?b ?w] =>
      destruct (session_aexit X a b w) as [? [[]|?]] eqn:?
  | |- context [ctx_aexit ?X ?a ?b ?w] =>
      destruct (ctx_aexit X a b w) as [? [[]|?]] eqn:?
  | |- context [call_llm ?X ?a ?w] =>
      destruct (call_llm X a w) as [? [?|?]] eqn:?
  end.

Ltac calls := repeat (cbn -[append]; try next_call).


Lemma try_except_returns {W S A} (m : M W S A) (handler : exn -> M W S A) :
  (forall e, returns (handler e)) -> returns (try_except m handler).
Proof.
  intros H en s. unfold try_except.
  destruct (m en s) as [[en' s'] [a|e]].
  - now exists en', s', a.
  - apply H.
Qed.

Lemma bind_returns {W S A B} (m : M W S A) (k : A -> M W S B) :
  returns m -> (forall a, returns (k a)) -> returns (bind m k).
Proof.
  intros Hm Hk en s. unfold bind.
  destruct (Hm en s) as (en' & s' & a & ->). apply Hk.
Qed.

Lemma ret_returns {W S A} (a : A) : returns (ret (W:=W) (S:=S) a).
Proof. intros en s. now exists en, s, a. Qed.

Lemma log_returns {W S} (l : level) (msg : string) : returns (log (W:=W) (S:=S) l msg).
Proof. intros en s. unfold log. eauto. Qed.

Lemma get_self_returns {W S} : returns (get_self (W:=W) (S:=S)).
Proof. intros en s. unfold get_self. eauto. Qed.

(** ** Closing a session (C9) *)

Section ClientFacts.
Context {W : Type} (X : externals W).

(** [__aexit__] never touches the fields of the client and never raises *)
Lemma aexit_returns_same_client (exc : option exn) (en : env W)
    (c : mcp_client.MCPClient) :
  exists en', mcp_client.__aexit__ X exc en c = (en', c, Returned tt).
Proof.
  unfold mcp_client.__aexit__, mcp_client.exit_if_set. run.
  destruct (mcp_client.session c) as [s|];
    destruct (mcp_client._client_ctx c) as [x|]; calls; eauto.
Qed.

(** C9, as the code has it.  [MCPClient.__aexit__] never raises, whatever
    the state of the client (opened, closed before, never opened) and
    whatever the SDK does: an exception of the teardown is caught and
    logged as an error.  It never changes the fields of the client, so on a
    client that was never opened it does nothing at all, and a second close
    in sequence returns normally as well; on an opened client every close
    calls the teardown of the same session and transport objects again. *)
Theorem close_never_raises (exc : option exn) (en : env W)
    (c : mcp_client.MCPClient) :
  (exists en', mcp_client.__aexit__ X exc en c = (en', c, Returned tt))
  /\ (mcp_client.session c = None -> mcp_client._client_ctx c = None ->
      mcp_client.__aexit__ X exc en c = (en, c, Returned tt))
  /\ (forall s w' e,
         mcp_client.session c = Some s ->
         session_aexit X s exc (world en) = (w', Raised e) ->
         mcp_client.__aexit__ X exc en c
         = (Env w' (logs en ++ [Log ERROR ("Error closing MCP client: " ++ str_exn e)]),
            c, Returned tt))
  /\ (forall x w' e,
         mcp_client.session c = None ->
         mcp_client._client_ctx c = Some x ->
         ctx_aexit X x exc (world en) = (w', Raised e) ->
         mcp_client.__aexit__ X exc en c
         = (Env w' (logs en ++ [Log ERROR ("Error closing MCP client: " ++ str_exn e)]),
            c, Returned tt))
  /\ (forall s x w1 w2 e,
         mcp_client.session c = Some s ->
         mcp_client._client_ctx c = Some x ->
         session_aexit X s exc (world en) = (w1, Returned tt) ->
         ctx_aexit X x exc w1 = (w2, Raised e) ->
         mcp_client.__aexit__ X exc en c
         = (Env w2 (logs en ++ [Log ERROR ("Error closing MCP client: " ++ str_exn e)]),
            c, Returned tt))
  /\ (forall exc', exists en1 en2,
         mcp_client.__aexit__ X exc en c = (en1, c, Returned tt)
         /\ mcp_client.__aexit__ X exc' en1 c = (en2, c, Returned tt)).
Proof.
  split; [apply aexit_returns_same_client|].
  split; [|split; [|split; [|split]]].
  - intros Hs Hc. unfold mcp_client.__aexit__, mcp_client.exit_if_set. run.
    rewrite Hs, Hc. now destruct en.
  - intros s w' e Hs He. unfold mcp_client.__aexit__, mcp_client.exit_if_set. run.
    rewrite Hs. cbn -[append]. now rewrite He.
  - intros x w' e Hs Hc He. unfold mcp_client.__aexit__, mcp_client.exit_if_set. run.
    rewrite Hs, Hc. cbn -[append]. now rewrite He.
  - intros s x w1 w2 e Hs Hc H1 H2.
    unfold mcp_client.__aexit__, mcp_client.exit_if_set. run.
    rewrite Hs, Hc. cbn -[append]. rewrite H1. cbn -[append]. now rewrite H2.
  - intros exc'. destruct (aexit_returns_same_client exc en c) as [en1 H1].
    destruct (aexit_returns_same_client exc' en1 c) as [en2 H2].
    now exists en1, en2.
Qed.

End ClientFacts.

Lemma close_never_raises_witness :
  mcp_client.__aexit__ (Examples.failing_sdk "") None Examples.env0 Examples.opened_client
  = (Env 1 [Log ERROR
              "Error closing MCP client: Attempted to exit cancel scope twice"],
     Examples.opened_client, Returned tt).
Proof.
  apply (proj1 (proj2 (proj2 (close_never_raises (Examples.failing_sdk "") None
                                Examples.env0 Examples.opened_client)))
           4 1 (Exn "RuntimeError" "Attempted to exit cancel scope twice")).
  - reflexivity.
  - reflexivity.
Defined.

(** C9 as stated fails in its last part: a second close is not a no-op.  On
    a client whose session was opened, with an SDK that counts the calls it
    receives, the first close makes two calls (session, transport) and the
    second close makes the same two calls again. *)
Lemma second_close_repeats_the_teardown :
  mcp_client.__aexit__ Examples.counting_sdk None Examples.env0 Examples.opened_client
  = (Env 2 [], Examples.opened_client, Returned tt)
  /\ mcp_client.__aexit__ Examples.counting_sdk None (Env 2 []) Examples.opened_client
     = (Env 4 [], Examples.opened_client, Returned tt)
  /\ mcp_client.__aexit__ Examples.counting_sdk None (Env 2 []) Examples.opened_client
     <> (Env 2 [], Examples.opened_client, Returned tt).
Proof.
  repeat split. vm_compute. discriminate.
Qed.

(** ** The request handlers of [main.py] (C1, C7) *)

Lemma get_of_key {V} (d : dict V) (k : string) :
  In k (keys d) -> exists v, get d k = Some v.
Proof.
  induction d as [|[k' v'] d IH]; simpl; [contradiction|].
  intros [->|H].
  - rewrite String.eqb_refl. eauto.
  - destruct (String.eqb k' k); eauto.
Qed.

Lemma main_find_loop_is_key {py : str_methods} (text_lower : string)
    (mcp_servers : dict main.server_info) (server_name : string) :
  main.find_loop text_lower mcp_servers = Some server_name ->
  In server_name (keys mcp_servers).
Proof.
  induction mcp_servers as [|[n i] r IH]; simpl; [discriminate|].
  destruct (keyword_hit _ _).
  - intros [= ->]. now left.
  - intros H. right. now apply IH.
Qed.

(** the router only ever names a registered server *)
Lemma main_find_is_registered {py : str_methods}
    (mcp_servers : dict main.server_info) (text server_name : string) :
  main.find_server_by_keywords mcp_servers text = Some server_name ->
  exists i, get mcp_servers server_name = Some i.
Proof.
  unfold main.find_server_by_keywords. intros H. apply get_of_key.
  destruct (main.find_loop _ _) eqn:E.
  - injection H as ->. now apply main_find_loop_is_key in E.
  - destruct mcp_servers as [|[n i] r]; [discriminate|].
    injection H as ->. now left.
Qed.

Section ServiceFacts.
Context {W : Type} (X : externals W) {py : str_methods}.


Lemma call_mcp_server_run (server_name tool_name : string) (arguments : json)
    (i : main.server_info) (en : env W) (mcp_servers : dict main.server_info) :
  get mcp_servers server_name = Some i ->
  main.call_mcp_server X server_name tool_name arguments en mcp_servers
  = match main.use_session X server_name i tool_name arguments en mcp_servers with
    | (en1, s1, Returned result) =>
        (en1, s1,
         Returned
           (JObj [("success", JBool true);
                  ("server_name", JStr server_name);
                  ("tool_name", JStr tool_name);
                  ("raw_mcp_result", JStr (result_str result));
                  ("mcp_result_type", JStr (result_type_str result));
                  ("server_info", main.server_info_json i);
                  ("data", JObj [("reply_subject", JStr "MCP Response");
                                 ("reply_body", JStr (result_str result))])]))
    | (en1, s1, Raised e) =>
        (Env (world en1) (logs en1 ++ [Log ERROR ("❌ MCP call failed: " ++ str_exn e)]),
         s1, Returned (failure_result server_name tool_name e i))
    end.
Proof.
  intros H. unfold main.call_mcp_server. run. rewrite H.
  destruct (main.use_session _ _ _ _ _ _ _) as [[en1 s1] [r|e]]; reflexivity.
Qed.

Lemma call_mcp_server_returns (server_name tool_name : string) (arguments : json)
    (i : main.server_info) (en : env W) (mcp_servers : dict main.server_info) :
  get mcp_servers server_name = Some i ->
  exists en' servers' d,
    main.call_mcp_server X server_name tool_name arguments en mcp_servers
    = (en', servers', Returned d).
Proof.
  intros H. rewrite (call_mcp_server_run _ _ _ i) by exact H.
  destruct (main.use_session _ _ _ _ _ _ _) as [[en1 s1] [r|e]]; eauto.
Qed.

Lemma do_task_returns (request : dict json) : returns (main.do_task X request).
Proof.
  unfold main.do_task. apply try_except_returns. intros e.
  apply bind_returns; [apply log_returns|]. intros _.
  apply bind_returns; [apply get_self_returns|]. intros servers.
  apply ret_returns.
Qed.

(** [do_task] up to the call of the server, for a textual request that is
    routed to [server_name] *)
Lemma do_task_routed (request : dict json) (text server_name : string)
    (i : main.server_info) (en : env W) (mcp_servers : dict main.server_info) :
  py_get (get_default request "input_data" (JObj request)) "user_request" (JStr "")
  = Returned (JStr text) ->
  main.find_server_by_keywords mcp_servers text = Some server_name ->
  server_name <> "" ->
  get mcp_servers server_name = Some i ->
  main.do_task X request en mcp_servers
  = main.call_mcp_server X server_name "generate_email_draft"
      (main.task_arguments text) en mcp_servers.
Proof.
  intros Hreq Hfind Hne Hget.
  destruct (call_mcp_server_returns server_name "generate_email_draft"
              (main.task_arguments text) i en mcp_servers Hget)
    as (en' & s' & d & Hcall).
  unfold main.do_task. run. rewrite Hreq. cbn -[append main.task_arguments].
  rewrite Hfind. destruct server_name as [|c r]; [contradiction|].
  fold (main.call_mcp_server X (String c r) "generate_email_draft"
          (main.task_arguments text) en mcp_servers).
  now rewrite Hcall.
Qed.

(** C1.  An exception raised while a session is used never leaves the
    orchestrator.  [call_mcp_server], for a registered server, always
    returns a mapping, and when the session use raised [e] (at the spawn or
    handshake, in the tool call, or raised again after the teardown) that
    mapping has [success] false, the server name, the tool name and
    [str(e)] as the error.  [do_task] returns a mapping for every request
    and every registry, and when the request was routed to a server and the
    session use raised, it is that same failure mapping. *)
Theorem session_failure_is_a_structured_result :
  (forall server_name tool_name arguments i en mcp_servers,
      get mcp_servers server_name = Some i ->
      exists en' servers' d,
        main.call_mcp_server X server_name tool_name arguments en mcp_servers
        = (en', servers', Returned d)
        /\ forall en1 s1 e,
            main.use_session X server_name i tool_name arguments en mcp_servers
            = (en1, s1, Raised e) ->
            field d "success" = Some (JBool false)
            /\ field d "server_name" = Some (JStr server_name)
            /\ field d "tool_name" = Some (JStr tool_name)
            /\ field d "error" = Some (JStr (str_exn e)))
  /\ (forall request en mcp_servers,
         exists en' servers' d,
           main.do_task X request en mcp_servers = (en', servers', Returned d)
           /\ forall text server_name i en1 s1 e,
               py_get (get_default request "input_data" (JObj request))
                      "user_request" (JStr "")
               = Returned (JStr text) ->
               main.find_server_by_keywords mcp_servers text = Some server_name ->
               server_name <> "" ->
               get mcp_servers server_name = Some i ->
               main.use_session X server_name i "generate_email_draft"
                 (main.task_arguments text) en mcp_servers
               = (en1, s1, Raised e) ->
               field d "success" = Some (JBool false)
               /\ field d "server_name" = Some (JStr server_name)
               /\ field d "tool_name" = Some (JStr "generate_email_draft")
               /\ field d "error" = Some (JStr (str_exn e))).
Proof.
  split.
  - intros server_name tool_name arguments i en mcp_servers Hget.
    rewrite (call_mcp_server_run _ _ _ i) by exact Hget.
    destruct (main.use_session _ _ _ _ _ _ _) as [[en1 s1] [r|e]].
    + do 3 eexists. split; [reflexivity|]. intros ? ? ? [=].
    + do 3 eexists. split; [reflexivity|]. intros ? ? e' [= _ _ <-].
      repeat split.
  - intros request en mcp_servers.
    destruct (do_task_returns request en mcp_servers) as (en' & s' & d & Hrun).
    exists en', s', d. split; [exact Hrun|].
    intros text server_name i en1 s1 e Hreq Hfind Hne Hget Huse.
    rewrite (do_task_routed request text server_name i) in Hrun by assumption.
    rewrite (call_mcp_server_run _ _ _ i) in Hrun by exact Hget.
    rewrite Huse in Hrun. injection Hrun as _ _ <-. repeat split.
Qed.

(** On an empty registry [do_task] returns a
    mapping with [success] false for every request, and for a request whose
    [user_request] is a text (or is left out) that mapping is the "No MCP
    servers available" answer, with nothing else done. *)
Lemma do_task_on_empty_registry (request : dict json) (en : env W) :
  exists en' d,
    main.do_task X request en [] = (en', [], Returned d)
    /\ field d "success" = Some (JBool false)
    /\ (forall text,
           py_get (get_default request "input_data" (JObj request))
                  "user_request" (JStr "")
           = Returned (JStr text) ->
           en' = en
           /\ d = JObj [("success", JBool false);
                        ("error", JStr "No MCP servers available");
                        ("available_servers", JArr [])]).
Proof.
  unfold main.do_task. run.
  destruct (py_get _ _ _) as [v|e]; cbn -[append].
  - destruct v; cbn -[append];
      (do 2 eexists; split; [reflexivity|]; split; [reflexivity|];
       intros text E; try discriminate E).
    now destruct en.
  - do 2 eexists. split; [reflexivity|]. split; [reflexivity|]. intros text [=].
Qed.

End ServiceFacts.

Lemma session_failure_is_a_structured_result_witness :
  exists en' servers' d,
    main.call_mcp_server (Examples.failing_sdk "") "mailer" "generate_email_draft"
      (JObj []) Examples.env0 [("mailer", Examples.mailer_info)]
    = (en', servers', Returned d)
    /\ field d "success" = Some (JBool false)
    /\ field d "server_name" = Some (JStr "mailer")
    /\ field d "tool_name" = Some (JStr "generate_email_draft")
    /\ field d "error" = Some (JStr "No such file or directory: 'python'").
Proof.
  destruct (proj1 (session_failure_is_a_structured_result (py := ascii_methods)
                     (Examples.failing_sdk ""))
              "mailer" "generate_email_draft" (JObj []) Examples.mailer_info
              Examples.env0 [("mailer", Examples.mailer_info)] eq_refl)
    as (en' & servers' & d & Hrun & Hfail).
  exists en', servers', d. split; [exact Hrun|].
  refine (Hfail _ _ (Exn "FileNotFoundError" "No such file or directory: 'python'") _).
  reflexivity.
Defined.

(** ** The heuristics that generate arguments *)

Lemma append_nil_r (s : string) : s ++ "" = s.
Proof. induction s as [|c s IH]; simpl; [reflexivity|]. now rewrite IH. Qed.

Lemma append_assoc (a b c : string) : (a ++ b) ++ c = a ++ b ++ c.
Proof. induction a as [|x a IH]; simpl; [reflexivity|]. now rewrite IH. Qed.

Lemma rev_string_app (s acc : string) : rev_string acc s = rev_string "" s ++ acc.
Proof.
  revert acc. induction s as [|c s IH]; intros acc; simpl; [reflexivity|].
  rewrite (IH (String c acc)), (IH (String c "")), append_assoc. reflexivity.
Qed.

Lemma not_occurs_in_empty (sep : string) : sep <> "" -> ~ Spec.occurs_in sep "".
Proof.
  intros Hsep (b & a & H). destruct b; [|discriminate].
  destruct sep; [now apply Hsep|discriminate].
Qed.

Lemma not_occurs_in_cons (sep : string) (c : ascii) (r : string) :
  prefix sep (String c r) = false -> ~ Spec.occurs_in sep r ->
  ~ Spec.occurs_in sep (String c r).
Proof.
  intros Hp Hr H. apply contains_iff_occurs in H.
  rewrite contains_unfold, Hp in H. now apply contains_iff_occurs in H.
Qed.

(** What the scan of [split] leaves as its last part: the whole rest when
    the separator does not occur in it, and else what follows an occurrence
    of the separator after which it occurs no more. *)
Lemma split_scan_last (sep : string) :
  sep <> "" ->
  forall s skip cur skipped rest,
    s = skipped ++ rest -> String.length skipped = skip ->
    (~ Spec.occurs_in sep rest
     /\ split_scan sep s skip cur = [rev_string "" cur ++ rest])
    \/ ((1 < List.length (split_scan sep s skip cur))%nat
        /\ exists before after,
            rest = before ++ sep ++ after
            /\ ~ Spec.occurs_in sep after
            /\ last (split_scan sep s skip cur) "" = after).
Proof.
  intros Hsep. induction s as [|c r IH]; intros skip cur skipped rest Hs Hl.
  - destruct skipped; [|discriminate]. destruct rest; [|discriminate].
    subst skip. left. split; [now apply not_occurs_in_empty|].
    cbn. now rewrite append_nil_r.
  - destruct skip as [|k].
    + destruct skipped; [|discriminate]. cbn in Hs. subst rest.
      cbn [split_scan]. destruct (prefix sep (String c r)) eqn:Hp.
      * right. apply prefix_iff_app in Hp as [rest' Hrest].
        destruct sep as [|c' sep']; [now elim Hsep|].
        cbn in Hrest. injection Hrest as <- ->.
        replace (String.length (String c sep') - 1)%nat with (String.length sep')
          by (cbn; lia).
        destruct (IH (String.length sep') "" sep' rest' eq_refl eq_refl)
          as [[Hno ->]|(Hlen & before & after & -> & Hno & Hlast)].
        -- split; [cbn; lia|]. exists "", rest'. now repeat split.
        -- split; [cbn [List.length]; lia|].
           exists (String c sep' ++ before), after. split; [|split; [exact Hno|]].
           ++ cbn. now rewrite append_assoc.
           ++ destruct (split_scan (String c sep') (sep' ++ before ++ String c sep' ++ after)
                          (String.length sep') "") as [|x l] eqn:E;
                [cbn in Hlen; lia|exact Hlast].
      * destruct (IH 0%nat (String c cur) "" r eq_refl eq_refl)
          as [[Hno ->]|(Hlen & before & after & -> & Hno & Hlast)].
        -- left. split; [now apply not_occurs_in_cons|].
           cbn [rev_string]. rewrite (rev_string_app cur (String c "")), append_assoc.
           reflexivity.
        -- right. split; [exact Hlen|]. exists (String c before), after.
           now repeat split.
    + destruct skipped as [|c' skipped']; [discriminate|].
      cbn in Hs. injection Hs as <- ->. cbn in Hl. injection Hl as <-.
      cbn [split_scan]. exact (IH (String.length skipped') cur skipped' rest eq_refl eq_refl).
Qed.

Lemma split_at_occurrence (s sep : string) :
  sep <> "" -> Spec.occurs_in sep s ->
  (1 <? List.length (split s sep))%nat = true
  /\ exists before after,
      s = before ++ sep ++ after
      /\ ~ Spec.occurs_in sep after
      /\ last (split s sep) "" = after.
Proof.
  intros Hsep Hocc. unfold split.
  destruct (split_scan_last sep Hsep s 0%nat "" "" s eq_refl eq_refl)
    as [[Hno _]|(Hlen & H)]; [contradiction|].
  split; [now apply Nat.ltb_lt|exact H].
Qed.

Section Heuristics.
Context {py : str_methods}.

(** the mail text of the source is the one the words describe *)
Lemma extract_original_email_spec (pats : list string) (text : string) :
  Forall (fun p => p <> "") pats ->
  Spec.mail_text_of pats text
    (or_default (extract_original_email pats text) "User request").
Proof.
  induction 1 as [|p r Hp _ IH]; [left; now split|].
  cbn [extract_original_email].
  destruct (contains p text) eqn:E.
  - apply contains_iff_occurs in E.
    destruct (split_at_occurrence text p Hp E)
      as (-> & before & after & Ht & Hno & ->).
    right. exists [], p, r, before, after. now repeat split.
  - assert (Hn : ~ Spec.occurs_in p text).
    { intros Ho. apply contains_iff_occurs in Ho. congruence. }
    destruct IH as [[Hall ->]|(sk & q & rest & b & a & -> & Hsk & Ht & Hno & ->)].
    + left. split; [now constructor|reflexivity].
    + right. exists (p :: sk), q, rest, b, a. repeat split; trivial.
      now constructor.
Qed.

Lemma detect_tone_spec (text : string) : Spec.tone_for text (detect_tone text).
Proof.
  unfold Spec.tone_for, Spec.casual_marks, Spec.urgent_marks, detect_tone.
  rewrite <- !contains_iff_occurs.
  destruct (contains "轻松" text); destruct (contains "casual" (lower text));
    destruct (contains "紧急" text); destruct (contains "urgent" (lower text));
    cbn; intuition congruence.
Qed.

Lemma text_of_fields_spec (d : dict json) :
  llm_tool_selector.text_of_fields d = Spec.blank_separated (Spec.texts d).
Proof.
  unfold Spec.blank_separated, Spec.texts.
  induction d as [|[k v] d IH]; [reflexivity|].
  destruct v; cbn -[append]; try exact IH. now rewrite IH.
Qed.

(** on a text the shape-generic code of the selector does what the code of
    [do_task] does on a [str] *)
Lemma scan_patterns_text (pats : list string) (text : string) :
  llm_tool_selector.scan_patterns pats (JStr text)
  = Returned (JStr (extract_original_email pats text)).
Proof.
  induction pats as [|p r IH]; [reflexivity|].
  cbn [llm_tool_selector.scan_patterns extract_original_email py_in py_split and_then].
  destruct (contains p text); [|exact IH].
  destruct (1 <? List.length (split text p))%nat; [reflexivity|exact IH].
Qed.

Lemma tone_of_text (text : string) :
  llm_tool_selector.tone_of (JStr text) = Returned (detect_tone text).
Proof.
  unfold llm_tool_selector.tone_of, llm_tool_selector.marked, detect_tone.
  cbn [py_in py_lower and_then].
  destruct (contains "轻松" text); cbn [and_then orb]; [reflexivity|].
  destruct (contains "casual" (lower text)); cbn [and_then]; [reflexivity|].
  destruct (contains "紧急" text); cbn [and_then orb]; [reflexivity|].
  now destruct (contains "urgent" (lower text)).
Qed.

Lemma py_or_text (x dflt : string) :
  dflt <> "" -> py_or (JStr x) (JStr dflt) = JStr (or_default x dflt).
Proof.
  intros _. unfold py_or, or_default, truthy. now destruct (String.eqb x "").
Qed.

Lemma or_default_not_empty (x dflt : string) : dflt <> "" -> or_default x dflt <> "".
Proof.
  intros H. unfold or_default. destruct (String.eqb x "") eqn:E; [exact H|].
  now apply String.eqb_neq.
Qed.

Lemma generated_from_text (input_data : payload) (text : string) :
  get input_data "user_request" = Some (JStr text) ->
  llm_tool_selector._generate_fallback_arguments input_data
  = Returned
      (JObj [("original_email",
              JStr (or_default (extract_original_email patterns text) "User request"));
             ("tone", JStr (detect_tone text));
             ("context",
              llm_tool_selector.fallback_context
                (if String.eqb (detect_tone text) "urgent" then "high" else "normal"))]).
Proof.
  intros H. unfold llm_tool_selector._generate_fallback_arguments. rewrite H.
  rewrite scan_patterns_text. cbn [and_then]. rewrite tone_of_text. cbn [and_then].
  rewrite py_or_text by discriminate. reflexivity.
Qed.

Lemma urgency_of_tone (tone : string) :
  tone = "urgent" /\ (if String.eqb tone "urgent" then "high" else "normal") = "high"
  \/ tone <> "urgent"
     /\ (if String.eqb tone "urgent" then "high" else "normal") = "normal".
Proof.
  destruct (String.eqb tone "urgent") eqn:E.
  - apply String.eqb_eq in E. now left.
  - apply String.eqb_neq in E. now right.
Qed.

(** from a textual payload the arguments are generated, and they are the
    ones the words describe *)
Lemma generated_from_textual (input_data : payload) :
  Spec.textual input_data ->
  exists arguments,
    llm_tool_selector._generate_fallback_arguments input_data = Returned arguments
    /\ Spec.heuristic_arguments input_data arguments.
Proof.
  unfold Spec.textual, Spec.heuristic_arguments.
  destruct (get input_data "user_request") as [v|] eqn:E.
  - destruct v as [| | |text| |]; try contradiction. intros _.
    rewrite (generated_from_text input_data text E).
    eexists. split; [reflexivity|].
    do 3 eexists. split; [reflexivity|].
    split; [apply or_default_not_empty; discriminate|].
    split; [apply urgency_of_tone|].
    split; [|apply detect_tone_spec].
    apply extract_original_email_spec. repeat constructor; discriminate.
  - intros _. unfold llm_tool_selector._generate_fallback_arguments. rewrite E.
    eexists. split; [reflexivity|].
    do 3 eexists. split; [reflexivity|].
    split; [apply or_default_not_empty; discriminate|].
    split; [right; split; [discriminate|reflexivity]|].
    split; [now rewrite text_of_fields_spec|reflexivity].
Qed.

Lemma generated_from_response (response : string) :
  llm_tool_selector._generate_fallback_arguments
    (llm_tool_selector.response_payload response)
  = Returned (response_arguments response).
Proof. reflexivity. Qed.

End Heuristics.

(** ** The selector (C4, C6, C7) *)

Lemma set_keeps_keys {V} (d : dict V) (k : string) (v v' : V) :
  get d k = Some v -> keys (set d k v') = keys d.
Proof.
  induction d as [|[k0 v0] d IH]; simpl; [discriminate|].
  destruct (String.eqb k0 k); [reflexivity|].
  intros H. simpl. f_equal. now apply IH.
Qed.

Lemma mem_in_keys {V} (d : dict V) (k : string) :
  mem k d = true -> In k (keys d).
Proof.
  unfold mem. induction d as [|[k0 v0] d IH]; simpl; [discriminate|].
  destruct (String.eqb k0 k) eqn:E.
  - apply String.eqb_eq in E. now left.
  - intros H. right. now apply IH.
Qed.

Lemma in_keys_mem {V} (d : dict V) (k : string) :
  In k (keys d) -> mem k d = true.
Proof.
  intros H. unfold mem. destruct (get_of_key d k H) as [v ->]. reflexivity.
Qed.

Lemma mem_same_keys {V} (d d' : dict V) (k : string) :
  keys d = keys d' -> mem k d = mem k d'.
Proof.
  intros H. destruct (mem k d') eqn:E.
  - apply in_keys_mem. rewrite H. now apply mem_in_keys.
  - destruct (mem k d) eqn:E'; trivial.
    apply mem_in_keys in E'. rewrite H in E'. apply in_keys_mem in E'. congruence.
Qed.

Lemma store_client_keeps_keys (tool_name : string) (c : mcp_client.MCPClient)
    (available_tools : dict llm_tool_selector.tool_info) :
  keys (llm_tool_selector.store_client tool_name c available_tools)
  = keys available_tools.
Proof.
  unfold llm_tool_selector.store_client.
  destruct (get available_tools tool_name) eqn:E; [|reflexivity].
  now apply set_keeps_keys with (v := t).
Qed.

Lemma scan_for_tool_is_listed (response_lower : string) (tool_names : list string)
    (tool_name : string) :
  llm_tool_selector.scan_for_tool response_lower tool_names = Some tool_name ->
  In tool_name tool_names.
Proof.
  induction tool_names as [|n r IH]; simpl; [discriminate|].
  destruct (contains n response_lower).
  - intros [= ->]. now left.
  - intros H. right. now apply IH.
Qed.

Lemma bind_run {W S A B} (m : M W S A) (k : A -> M W S B) (en : env W) (s : S) :
  bind m k en s
  = match m en s with
    | (en', s', Returned a) => k a en' s'
    | (en', s', Raised e) => (en', s', Raised e)
    end.
Proof. reflexivity. Qed.

Lemma try_except_run {W S A} (m : M W S A) (handler : exn -> M W S A)
    (en : env W) (s : S) :
  try_except m handler en s
  = match m en s with
    | (en', s', Returned a) => (en', s', Returned a)
    | (en', s', Raised e) => handler e en' s'
    end.
Proof. reflexivity. Qed.

Section SelectorFacts.
Context {W : Type} (X : externals W) {py : str_methods}.

Local Abbreviation tools := (dict llm_tool_selector.tool_info).

(** the two branches of [_fallback_selection] are the same *)
Lemma fallback_selection_run (input_data : payload) (en : env W)
    (available_tools : tools) :
  llm_tool_selector._fallback_selection X input_data en available_tools
  = (Env (world en) (logs en ++ [Log WARNING "Using fallback tool selection"]),
     available_tools, default_selection input_data).
Proof.
  unfold llm_tool_selector._fallback_selection, default_selection.
  rewrite bind_run. unfold log at 1.
  destruct (existsb _ _);
    rewrite bind_run; unfold of_outcome;
    destruct (llm_tool_selector._generate_fallback_arguments input_data);
    reflexivity.
Qed.

(** the handler of [_llm_select_and_generate] *)
Lemma selection_handler_run (input_data : payload) (e : exn) (en : env W)
    (available_tools : tools) :
  (log ERROR ("LLM tool selection failed: " ++ str_exn e) ;;
   llm_tool_selector._fallback_selection X input_data) en available_tools
  = (Env (world en) (logs en ++ failure_logs e), available_tools,
     default_selection input_data).
Proof.
  unfold bind at 1. unfold log. rewrite fallback_selection_run.
  cbn [world logs]. unfold failure_logs. now rewrite <- app_assoc.
Qed.

Lemma parse_unparsable (response : string) (e : exn) (en : env W)
    (available_tools : tools) :
  json_loads X (strip response) = Raised e ->
  is_JSONDecodeError e = true ->
  llm_tool_selector._parse_llm_response X response en available_tools
  = (Env (world en)
         ((logs en ++ [Log ERROR ("Failed to parse LLM response as JSON: " ++ str_exn e)])
          ++ [Log ERROR ("Response was: " ++ response)]),
     available_tools,
     Returned (JStr (scanned_name response available_tools),
               response_arguments response)).
Proof.
  intros H He. unfold llm_tool_selector._parse_llm_response, scanned_name.
  rewrite bind_run. unfold get_self at 1. rewrite H, He.
  rewrite !bind_run. unfold log at 1 2. cbn [world logs].
  destruct (llm_tool_selector.scan_for_tool _ _);
    rewrite bind_run, generated_from_response; reflexivity.
Qed.

(** an exception of [json.loads] that is no [JSONDecodeError] is not
    caught by [_parse_llm_response] *)
Lemma parse_failed (response : string) (e : exn) (en : env W)
    (available_tools : tools) :
  json_loads X (strip response) = Raised e ->
  is_JSONDecodeError e = false ->
  llm_tool_selector._parse_llm_response X response en available_tools
  = (en, available_tools, Raised e).
Proof.
  intros H He. unfold llm_tool_selector._parse_llm_response.
  rewrite bind_run. unfold get_self at 1. now rewrite H, He.
Qed.

Lemma parse_mapping (response : string) (d : dict json) (en : env W)
    (available_tools : tools) :
  json_loads X (strip response) = Returned (JObj d) ->
  llm_tool_selector._parse_llm_response X response en available_tools
  = (en, available_tools,
     Returned (get_default d "selected_tool" (JStr "email_draft"),
               get_default d "arguments" (JObj []))).
Proof.
  intros H. unfold llm_tool_selector._parse_llm_response. run. now rewrite H.
Qed.

Lemma parse_other (response : string) (v : json) (en : env W)
    (available_tools : tools) :
  json_loads X (strip response) = Returned v ->
  (forall d, v <> JObj d) ->
  llm_tool_selector._parse_llm_response X response en available_tools
  = (en, available_tools, Raised (AttributeError (type_name v) "get")).
Proof.
  intros H Hv. unfold llm_tool_selector._parse_llm_response. run. rewrite H.
  destruct v; try reflexivity. now elim (Hv fields).
Qed.

Lemma validate_known (input_data : payload) (name : string) (arguments : json)
    (en : env W) (available_tools : tools) :
  In name (keys available_tools) ->
  llm_tool_selector.validate input_data (JStr name) arguments en available_tools
  = (en, available_tools, Returned (name, arguments)).
Proof.
  intros H. unfold llm_tool_selector.validate. rewrite bind_run. unfold get_self.
  now rewrite (in_keys_mem _ _ H).
Qed.

Lemma unknown_run (input_data : payload) (shown : string) (en : env W)
    (available_tools : tools) :
  (log WARNING ("LLM selected unknown tool: " ++ shown
                ++ ", falling back to email_draft") ;;
   generated <- of_outcome (llm_tool_selector._generate_fallback_arguments input_data) ;;
   ret ("email_draft", generated)) en available_tools
  = (Env (world en)
         (logs en ++ [Log WARNING ("LLM selected unknown tool: " ++ shown
                                   ++ ", falling back to email_draft")]),
     available_tools, default_selection input_data).
Proof.
  rewrite bind_run. unfold log at 1. rewrite bind_run. unfold of_outcome, default_selection.
  now destruct (llm_tool_selector._generate_fallback_arguments input_data).
Qed.

Lemma validate_unknown (input_data : payload) (selected : string) (arguments : json)
    (en : env W) (available_tools : tools) :
  ~ In selected (keys available_tools) ->
  llm_tool_selector.validate input_data (JStr selected) arguments en available_tools
  = (Env (world en)
         (logs en ++ [Log WARNING ("LLM selected unknown tool: " ++ selected
                                   ++ ", falling back to email_draft")]),
     available_tools, default_selection input_data).
Proof.
  intros H. unfold llm_tool_selector.validate. rewrite bind_run. unfold get_self.
  destruct (mem selected available_tools) eqn:E.
  - now apply mem_in_keys in E.
  - apply unknown_run.
Qed.

(** what [validate] lets through: a registered name with the arguments it
    came with, or the default with generated arguments *)
Lemma validate_cases (input_data : payload) (tool_name arguments : json)
    (en : env W) (available_tools : tools) :
  exists en' r,
    llm_tool_selector.validate input_data tool_name arguments en available_tools
    = (en', available_tools, r)
    /\ match r with
       | Returned (name, args) =>
           In name (keys available_tools) /\ tool_name = JStr name /\ args = arguments
           \/ name = "email_draft"
              /\ llm_tool_selector._generate_fallback_arguments input_data
                 = Returned args
       | Raised _ => True
       end.
Proof.
  assert (Hdflt : forall en0 : env W,
             exists r,
               (en0, available_tools, default_selection input_data)
               = (en0, available_tools, r)
               /\ match r with
                  | Returned (name, args) =>
                      In name (keys available_tools) /\ tool_name = JStr name
                      /\ args = arguments
                      \/ name = "email_draft"
                         /\ llm_tool_selector._generate_fallback_arguments input_data
                            = Returned args
                  | Raised _ => True
                  end).
  { intros en0. unfold default_selection.
    destruct (llm_tool_selector._generate_fallback_arguments input_data) as [a|e];
      eexists; (split; [reflexivity|]); cbn; auto. }
  destruct tool_name as [|b|n|s|items|fields].
  - unfold llm_tool_selector.validate. rewrite bind_run. unfold get_self.
    rewrite unknown_run. destruct (Hdflt (Env (world en)
      (logs en ++ [Log WARNING ("LLM selected unknown tool: " ++ str_scalar JNull
                                ++ ", falling back to email_draft")]))) as (r & -> & Hr).
    eauto.
  - unfold llm_tool_selector.validate. rewrite bind_run. unfold get_self.
    rewrite unknown_run. destruct (Hdflt (Env (world en)
      (logs en ++ [Log WARNING ("LLM selected unknown tool: " ++ str_scalar (JBool b)
                                ++ ", falling back to email_draft")]))) as (r & -> & Hr).
    eauto.
  - unfold llm_tool_selector.validate. rewrite bind_run. unfold get_self.
    rewrite unknown_run. destruct (Hdflt (Env (world en)
      (logs en ++ [Log WARNING ("LLM selected unknown tool: " ++ str_scalar (JNum n)
                                ++ ", falling back to email_draft")]))) as (r & -> & Hr).
    eauto.
  - destruct (in_dec string_dec s (keys available_tools)) as [Hin|Hout].
    + rewrite validate_known by exact Hin. do 2 eexists. split; [reflexivity|].
      left. now repeat split.
    + rewrite validate_unknown by exact Hout.
      match goal with
      | |- context [(?e0, available_tools, default_selection input_data)] =>
          destruct (Hdflt e0) as (r & -> & Hr)
      end.
      eauto.
  - unfold llm_tool_selector.validate. run.
    do 2 eexists. split; [reflexivity|exact I].
  - unfold llm_tool_selector.validate. run.
    do 2 eexists. split; [reflexivity|exact I].
Qed.

Lemma llm_select_unfold (input_data : payload) (tool_schemas : dict tool_schema) :
  llm_tool_selector._llm_select_and_generate X input_data tool_schemas
  = try_except (selection_body X input_data tool_schemas)
      (fun e => log ERROR ("LLM tool selection failed: " ++ str_exn e) ;;
                llm_tool_selector._fallback_selection X input_data).
Proof. reflexivity. Qed.

(** the body leaves [available_tools] alone; a name it returns is a
    registered one, or the default with generated arguments *)
Lemma selection_body_cases (input_data : payload) (tool_schemas : dict tool_schema)
    (en en1 : env W) (available_tools s1 : tools) (r : outcome (string * json)) :
  selection_body X input_data tool_schemas en available_tools = (en1, s1, r) ->
  s1 = available_tools
  /\ match r with
     | Returned (name, args) =>
         In name (keys available_tools)
         \/ name = "email_draft"
            /\ llm_tool_selector._generate_fallback_arguments input_data
               = Returned args
     | Raised _ => True
     end.
Proof.
  assert (Hval : forall tool_name arguments en0,
             llm_tool_selector.validate input_data tool_name arguments en0
               available_tools = (en1, s1, r) ->
             s1 = available_tools
             /\ match r with
                | Returned (name, args) =>
                    In name (keys available_tools)
                    \/ name = "email_draft"
                       /\ llm_tool_selector._generate_fallback_arguments input_data
                          = Returned args
                | Raised _ => True
                end).
  { intros tool_name arguments en0.
    destruct (validate_cases input_data tool_name arguments en0 available_tools)
      as (en' & r' & -> & Hr). intros [= <- <- <-]. split; [reflexivity|].
    destruct r' as [[name args]|e]; [|exact I].
    destruct Hr as [(Hin & _)|Hd]; auto. }
  unfold selection_body. rewrite bind_run. unfold extern.
  destruct (call_llm X _ (world en)) as [w' [response|e]].
  2:{ intros [= <- <- <-]. now split. }
  rewrite bind_run.
  destruct (json_loads X (strip response)) as [v|e] eqn:Hj.
  - assert (Hv : (exists d, v = JObj d) \/ (forall d, v <> JObj d))
      by (destruct v; try (right; discriminate); left; eauto).
    destruct Hv as [[d ->]|Hv].
    + rewrite (parse_mapping response d) by exact Hj. cbn [fst snd]. apply Hval.
    + rewrite (parse_other response v) by assumption.
      intros [= <- <- <-]. now split.
  - destruct (is_JSONDecodeError e) eqn:He.
    + rewrite (parse_unparsable response e) by assumption. cbn [fst snd].
      apply Hval.
    + rewrite (parse_failed response e) by assumption.
      intros [= <- <- <-]. now split.
Qed.

(** [_llm_select_and_generate] leaves [available_tools] alone; what it
    returns is a registered name, or the default with generated arguments;
    and it raises only when the payload is not textual *)
Lemma llm_select_cases (input_data : payload) (tool_schemas : dict tool_schema)
    (en en' : env W) (available_tools s' : tools) (r : outcome (string * json)) :
  llm_tool_selector._llm_select_and_generate X input_data tool_schemas en available_tools
  = (en', s', r) ->
  s' = available_tools
  /\ match r with
     | Returned (name, args) =>
         In name (keys available_tools)
         \/ name = "email_draft"
            /\ llm_tool_selector._generate_fallback_arguments input_data
               = Returned args
     | Raised _ => ~ Spec.textual input_data
     end.
Proof.
  rewrite llm_select_unfold, try_except_run.
  destruct (selection_body _ _ _ _ _) as [[en1 s1] r1] eqn:Hb.
  apply selection_body_cases in Hb as [-> Hr].
  destruct r1 as [[name args]|e].
  - intros [= <- <- <-]. now split.
  - rewrite selection_handler_run. intros [= <- <- <-]. split; [reflexivity|].
    unfold default_selection.
    destruct (llm_tool_selector._generate_fallback_arguments input_data) as [a|e0] eqn:E;
      cbn [and_then]; [now right|].
    intros Ht. destruct (generated_from_textual input_data Ht) as (a & Ha & _).
    congruence.
Qed.

Lemma llm_select_returns (input_data : payload) (tool_schemas : dict tool_schema)
    (en : env W) (available_tools : tools) :
  Spec.textual input_data ->
  exists en' name args,
    llm_tool_selector._llm_select_and_generate X input_data tool_schemas en available_tools
    = (en', available_tools, Returned (name, args)).
Proof.
  intros Ht.
  destruct (llm_tool_selector._llm_select_and_generate X input_data tool_schemas en
              available_tools) as [[en' s'] r] eqn:E.
  destruct (llm_select_cases _ _ _ _ _ _ _ E) as [-> Hr].
  destruct r as [[name args]|e]; [eauto|contradiction].
Qed.

Lemma discover_state (tool_name : string) (i : llm_tool_selector.tool_info)
    (en : env W) (available_tools : tools) :
  exists en' c r,
    llm_tool_selector.discover X tool_name i en available_tools
    = (en', llm_tool_selector.store_client tool_name c available_tools, r).
Proof.
  unfold llm_tool_selector.discover, zoom.
  destruct (mcp_client.async_with _ _ _ _) as [[en' c] r]. eauto.
Qed.

(** discovery never raises and keeps the set of tool names *)
Lemma schemas_loop_returns (items : tools) :
  forall (acc : dict tool_schema) (en : env W) (available_tools : tools),
  exists en' tools' schemas,
    llm_tool_selector.schemas_loop X items acc en available_tools
    = (en', tools', Returned schemas)
    /\ keys tools' = keys available_tools.
Proof.
  induction items as [|[tool_name i] r IH]; intros acc en available_tools.
  - now exists en, available_tools, acc.
  - cbn [llm_tool_selector.schemas_loop]. rewrite bind_run, try_except_run.
    destruct (discover_state tool_name i en available_tools) as (en1 & c & o & ->).
    destruct o as [sc|e].
    + destruct (IH (set acc tool_name sc) en1
                  (llm_tool_selector.store_client tool_name c available_tools))
        as (en' & tools' & schemas & -> & Hk).
      exists en', tools', schemas. split; [reflexivity|].
      now rewrite Hk, store_client_keeps_keys.
    + rewrite bind_run. unfold log at 1. unfold ret at 1.
      match goal with
      | |- context [llm_tool_selector.schemas_loop X r ?a ?e0 ?s0] =>
          destruct (IH a e0 s0) as (en' & tools' & schemas & -> & Hk)
      end.
      exists en', tools', schemas. split; [reflexivity|].
      now rewrite Hk, store_client_keeps_keys.
Qed.

(** [select_tool_and_generate_args] keeps the set of tool names; what it
    returns is a registered name, or the default with generated arguments;
    and it raises only when the payload is not textual *)
Lemma select_cases (input_data : payload) (en en' : env W)
    (available_tools tools' : tools) (r : outcome (string * json)) :
  llm_tool_selector.select_tool_and_generate_args X input_data en available_tools
  = (en', tools', r) ->
  keys tools' = keys available_tools
  /\ match r with
     | Returned (name, args) =>
         In name (keys available_tools)
         \/ name = "email_draft"
            /\ llm_tool_selector._generate_fallback_arguments input_data
               = Returned args
     | Raised _ => ~ Spec.textual input_data
     end.
Proof.
  unfold llm_tool_selector.select_tool_and_generate_args,
    llm_tool_selector._get_tool_schemas.
  rewrite !bind_run. unfold get_self at 1.
  destruct (schemas_loop_returns available_tools [] en available_tools)
    as (en1 & tools1 & schemas & -> & Hk).
  intros H. destruct (llm_select_cases _ _ _ _ _ _ _ H) as [-> Hr].
  split; [exact Hk|]. now rewrite <- Hk.
Qed.

Lemma select_returns (input_data : payload) (en : env W) (available_tools : tools) :
  Spec.textual input_data ->
  exists en' tools' name args,
    llm_tool_selector.select_tool_and_generate_args X input_data en available_tools
    = (en', tools', Returned (name, args)).
Proof.
  intros Ht.
  destruct (llm_tool_selector.select_tool_and_generate_args X input_data en
              available_tools) as [[en' tools'] r] eqn:E.
  destruct (select_cases _ _ _ _ _ _ E) as [_ Hr].
  destruct r as [[name args]|e]; [eauto|contradiction].
Qed.

(** the handler's answer for a textual payload *)
Lemma default_selection_textual (input_data : payload) :
  Spec.textual input_data ->
  exists generated,
    default_selection input_data = Returned ("email_draft", generated)
    /\ Spec.heuristic_arguments input_data generated.
Proof.
  intros Ht. destruct (generated_from_textual input_data Ht) as (a & Ha & Hh).
  exists a. unfold default_selection. now rewrite Ha.
Qed.

Lemma scan_for_tool_first (response_lower : string) (before after : list string)
    (found : string) :
  Forall (fun n => ~ Spec.occurs_in n response_lower) before ->
  Spec.occurs_in found response_lower ->
  llm_tool_selector.scan_for_tool response_lower (before ++ found :: after)%list
  = Some found.
Proof.
  intros Hb Hf. induction Hb as [|n b Hn _ IH]; simpl.
  - apply contains_iff_occurs in Hf. now rewrite Hf.
  - destruct (contains n response_lower) eqn:E; [|exact IH].
    apply contains_iff_occurs in E. contradiction.
Qed.

Lemma scan_for_tool_none (response_lower : string) (names : list string) :
  Forall (fun n => ~ Spec.occurs_in n response_lower) names ->
  llm_tool_selector.scan_for_tool response_lower names = None.
Proof.
  induction 1 as [|n b Hn _ IH]; simpl; [reflexivity|].
  destruct (contains n response_lower) eqn:E; [|exact IH].
  apply contains_iff_occurs in E. contradiction.
Qed.

(** [_llm_select_and_generate] on an answer that [json.loads] rejects as no
    JSON *)
Lemma llm_select_unparsable (input_data : payload) (tool_schemas : dict tool_schema)
    (en : env W) (available_tools : tools) (w' : W) (response : string) (e : exn) :
  call_llm X (llm_messages X input_data tool_schemas) (world en)
  = (w', Returned response) ->
  json_loads X (strip response) = Raised e ->
  is_JSONDecodeError e = true ->
  llm_tool_selector._llm_select_and_generate X input_data tool_schemas en available_tools
  = let en1 :=
      Env w' ((logs en
               ++ [Log ERROR ("Failed to parse LLM response as JSON: " ++ str_exn e)])
              ++ [Log ERROR ("Response was: " ++ response)]) in
    let name := scanned_name response available_tools in
    if mem name available_tools
    then (en1, available_tools, Returned (name, response_arguments response))
    else
      match default_selection input_data with
      | Returned a =>
          (Env w' (logs en1 ++ [Log WARNING ("LLM selected unknown tool: " ++ name
                                             ++ ", falling back to email_draft")]),
           available_tools, Returned a)
      | Raised e' =>
          (Env w' ((logs en1 ++ [Log WARNING ("LLM selected unknown tool: " ++ name
                                              ++ ", falling back to email_draft")])
                   ++ failure_logs e'),
           available_tools, default_selection input_data)
      end.
Proof.
  intros Hllm Hj He. rewrite llm_select_unfold, try_except_run.
  unfold selection_body. rewrite bind_run. unfold extern at 1. rewrite Hllm.
  rewrite bind_run, (parse_unparsable response e) by assumption. cbn [fst snd world logs].
  destruct (mem (scanned_name response available_tools) available_tools) eqn:E.
  - rewrite validate_known by now apply mem_in_keys. reflexivity.
  - rewrite validate_unknown.
    2:{ intros Hin. apply in_keys_mem in Hin. congruence. }
    cbn [world logs].
    destruct (default_selection input_data) as [a|e'] eqn:Ed; [reflexivity|].
    rewrite selection_handler_run. cbn [world logs]. now rewrite Ed.
Qed.

End SelectorFacts.

Section SelectorClaims.
Context {W : Type} (X : externals W) {py : str_methods}.

Local Abbreviation tools := (dict llm_tool_selector.tool_info).

(** C4, as the code has it.  For every answer of the LLM and every set of
    registered tools, a tool name that [select_tool_and_generate_args]
    returns is a key of [available_tools] or the fixed default
    "email_draft": a selected name that is not registered is discarded with
    a warning and replaced by "email_draft" with heuristically generated
    arguments.  Hence the returned name is registered whenever
    "email_draft" is.  A selection is returned for every payload whose
    [user_request], when it has one, is a text. *)
Theorem selected_tool_is_registered_or_default (input_data : payload)
    (en : env W) (available_tools : tools) :
  (forall en' tools' name args,
      llm_tool_selector.select_tool_and_generate_args X input_data en available_tools
      = (en', tools', Returned (name, args)) ->
      (In name (keys available_tools) \/ name = "email_draft")
      /\ (In "email_draft" (keys available_tools) -> In name (keys available_tools)))
  /\ (Spec.textual input_data ->
      exists en' tools' name args,
        llm_tool_selector.select_tool_and_generate_args X input_data en available_tools
        = (en', tools', Returned (name, args)))
  /\ (forall selected arguments,
         ~ In selected (keys available_tools) ->
         llm_tool_selector.validate input_data (JStr selected) arguments en available_tools
         = (Env (world en)
                (logs en ++ [Log WARNING ("LLM selected unknown tool: " ++ selected
                                          ++ ", falling back to email_draft")]),
            available_tools, default_selection input_data))
  /\ (Spec.textual input_data ->
      exists generated,
        default_selection input_data = Returned ("email_draft", generated)
        /\ Spec.heuristic_arguments input_data generated).
Proof.
  split; [|split; [|split]].
  - intros en' tools' name args Hrun.
    destruct (select_cases X _ _ _ _ _ _ Hrun) as [_ [Hin|[-> _]]].
    + split; [now left|trivial].
    + split; [now right|trivial].
  - apply select_returns.
  - intros selected arguments Hn. now apply validate_unknown.
  - apply default_selection_textual.
Qed.

(** C6, as the code has it, for a payload whose [user_request], when it has
    one, is a text.  [_llm_select_and_generate] and
    [select_tool_and_generate_args] then return a selection in every case.
    An exception of the LLM call is caught, logged, and answered with the
    fallback selection: "email_draft" with the arguments the heuristics
    generate from the payload.  An answer that [json.loads] rejects as no
    JSON gives the first registered tool name that occurs in the lowered
    answer, with arguments generated from the answer; when no registered
    name occurs in it, it gives "email_draft", with arguments generated from
    the answer when "email_draft" is registered and from the payload when it
    is not.  Any other exception of [json.loads], and a JSON answer that is
    no mapping, are answered like a failed call. *)
Theorem llm_failure_degrades_to_fallback (input_data : payload)
    (tool_schemas : dict tool_schema) (en : env W) (available_tools : tools) :
  Spec.textual input_data ->
  (exists en' name args,
      llm_tool_selector._llm_select_and_generate X input_data tool_schemas en
        available_tools
      = (en', available_tools, Returned (name, args)))
  /\ (forall w' e,
         call_llm X (llm_messages X input_data tool_schemas) (world en) = (w', Raised e) ->
         exists generated,
           llm_tool_selector._llm_select_and_generate X input_data tool_schemas en
             available_tools
           = (Env w' (logs en ++ failure_logs e), available_tools,
              Returned ("email_draft", generated))
           /\ Spec.heuristic_arguments input_data generated)
  /\ (forall w' response e,
         call_llm X (llm_messages X input_data tool_schemas) (world en)
         = (w', Returned response) ->
         json_loads X (strip response) = Raised e ->
         is_JSONDecodeError e = true ->
         exists en' name args,
           llm_tool_selector._llm_select_and_generate X input_data tool_schemas en
             available_tools
           = (en', available_tools, Returned (name, args))
           /\ (forall before found after,
                  keys available_tools = (before ++ found :: after)%list ->
                  Forall (fun n => ~ Spec.occurs_in n (lower response)) before ->
                  Spec.occurs_in found (lower response) ->
                  name = found /\ args = response_arguments response)
           /\ (Forall (fun n => ~ Spec.occurs_in n (lower response))
                      (keys available_tools) ->
               name = "email_draft"
               /\ (In "email_draft" (keys available_tools) ->
                   args = response_arguments response)
               /\ (~ In "email_draft" (keys available_tools) ->
                   Spec.heuristic_arguments input_data args)))
  /\ (forall w' response e,
         call_llm X (llm_messages X input_data tool_schemas) (world en)
         = (w', Returned response) ->
         json_loads X (strip response) = Raised e ->
         is_JSONDecodeError e = false ->
         exists generated,
           llm_tool_selector._llm_select_and_generate X input_data tool_schemas en
             available_tools
           = (Env w' (logs en ++ failure_logs e), available_tools,
              Returned ("email_draft", generated))
           /\ Spec.heuristic_arguments input_data generated)
  /\ (forall w' response v,
         call_llm X (llm_messages X input_data tool_schemas) (world en)
         = (w', Returned response) ->
         json_loads X (strip response) = Returned v ->
         (forall d, v <> JObj d) ->
         exists generated,
           llm_tool_selector._llm_select_and_generate X input_data tool_schemas en
             available_tools
           = (Env w' (logs en ++ failure_logs (AttributeError (type_name v) "get")),
              available_tools, Returned ("email_draft", generated))
           /\ Spec.heuristic_arguments input_data generated)
  /\ (exists en' tools' name args,
         llm_tool_selector.select_tool_and_generate_args X input_data en available_tools
         = (en', tools', Returned (name, args))).
Proof.
  intros Ht.
  destruct (default_selection_textual input_data Ht) as (generated & Hd & Hh).
  split; [|split; [|split; [|split; [|split]]]].
  - now apply llm_select_returns.
  - intros w' e Hllm. exists generated. split; [|exact Hh].
    rewrite llm_select_unfold, try_except_run.
    unfold selection_body. rewrite bind_run. unfold extern. rewrite Hllm.
    now rewrite selection_handler_run, Hd.
  - intros w' response e Hllm Hj He.
    rewrite (llm_select_unparsable X input_data tool_schemas en available_tools
               w' response e Hllm Hj He).
    cbv zeta. rewrite Hd.
    assert (Hfound : forall before found after,
               keys available_tools = (before ++ found :: after)%list ->
               Forall (fun n => ~ Spec.occurs_in n (lower response)) before ->
               Spec.occurs_in found (lower response) ->
               scanned_name response available_tools = found
               /\ mem found available_tools = true).
    { intros before found after Hk Hb Hf. unfold scanned_name.
      rewrite Hk, (scan_for_tool_first _ _ _ _ Hb Hf). split; [reflexivity|].
      apply in_keys_mem. rewrite Hk, in_app_iff. right. now left. }
    assert (Hnone : Forall (fun n => ~ Spec.occurs_in n (lower response))
                           (keys available_tools) ->
                    scanned_name response available_tools = "email_draft").
    { intros H. unfold scanned_name. now rewrite (scan_for_tool_none _ _ H). }
    destruct (mem (scanned_name response available_tools) available_tools) eqn:E.
    + do 3 eexists. split; [reflexivity|]. split.
      * intros before found after Hk Hb Hf.
        destruct (Hfound before found after Hk Hb Hf) as [-> _]. now split.
      * intros H. rewrite (Hnone H) in *. split; [reflexivity|]. split; [reflexivity|].
        intros Hout. apply mem_in_keys in E. contradiction.
    + do 3 eexists. split; [reflexivity|]. split.
      * intros before found after Hk Hb Hf.
        destruct (Hfound before found after Hk Hb Hf) as [Hs Hm]. congruence.
      * intros H. rewrite (Hnone H) in E. split; [reflexivity|]. split; [|now intros _].
        intros Hin. apply in_keys_mem in Hin. congruence.
  - intros w' response e Hllm Hj He. exists generated. split; [|exact Hh].
    rewrite llm_select_unfold, try_except_run.
    unfold selection_body. rewrite bind_run. unfold extern at 1. rewrite Hllm.
    rewrite bind_run, (parse_failed X response e) by assumption.
    now rewrite selection_handler_run, Hd.
  - intros w' response v Hllm Hj Hv. exists generated. split; [|exact Hh].
    rewrite llm_select_unfold, try_except_run.
    unfold selection_body. rewrite bind_run. unfold extern at 1. rewrite Hllm.
    rewrite bind_run, (parse_other X response v) by assumption.
    now rewrite selection_handler_run, Hd.
  - now apply select_returns.
Qed.

(** C7, as the code has it.  On an empty registry [do_task] returns a
    mapping with [success] false, for a textual request the "No MCP servers
    available" answer, and never raises.  [select_tool_and_generate_args]
    with no registered tool reports no such outcome: for a payload whose
    [user_request], when it has one, is a text, it returns a selection, the
    default tool "email_draft" with the arguments the heuristics generate
    from the payload; whatever the payload, the only name it returns is
    "email_draft", and it raises only for a payload that is not textual. *)
Theorem empty_registry_outcomes :
  (forall request en,
      exists en' d,
        main.do_task X request en [] = (en', [], Returned d)
        /\ field d "success" = Some (JBool false)
        /\ (forall text,
               py_get (get_default request "input_data" (JObj request))
                      "user_request" (JStr "")
               = Returned (JStr text) ->
               en' = en
               /\ d = JObj [("success", JBool false);
                            ("error", JStr "No MCP servers available");
                            ("available_servers", JArr [])]))
  /\ (forall input_data en,
         Spec.textual input_data ->
         exists en' arguments,
           llm_tool_selector.select_tool_and_generate_args X input_data en []
           = (en', [], Returned ("email_draft", arguments))
           /\ Spec.heuristic_arguments input_data arguments)
  /\ (forall input_data en en' tools' r,
         llm_tool_selector.select_tool_and_generate_args X input_data en []
         = (en', tools', r) ->
         tools' = []
         /\ match r with
            | Returned (name, _) => name = "email_draft"
            | Raised _ => ~ Spec.textual input_data
            end).
Proof.
  assert (Hany : forall input_data en en' tools' r,
             llm_tool_selector.select_tool_and_generate_args X input_data en []
             = (en', tools', r) ->
             tools' = []
             /\ match r with
                | Returned (name, args) =>
                    name = "email_draft"
                    /\ llm_tool_selector._generate_fallback_arguments input_data
                       = Returned args
                | Raised _ => ~ Spec.textual input_data
                end).
  { intros input_data en en' tools' r Hrun.
    destruct (select_cases X _ _ _ _ _ _ Hrun) as [Hk Hr].
    split; [now destruct tools'|].
    destruct r as [[name args]|e]; [|exact Hr].
    destruct Hr as [[]|Hr]. exact Hr. }
  split; [|split].
  - intros request en. apply do_task_on_empty_registry.
  - intros input_data en Ht.
    destruct (select_returns X input_data en [] Ht)
      as (en' & tools' & name & args & Hrun).
    destruct (Hany _ _ _ _ _ Hrun) as [-> [-> Hgen]].
    exists en', args. split; [exact Hrun|].
    destruct (generated_from_textual input_data Ht) as (a & Ha & Hh). congruence.
  - intros input_data en en' tools' r Hrun.
    destruct (Hany _ _ _ _ _ Hrun) as [-> Hr]. split; [reflexivity|].
    destruct r as [[name args]|e]; [apply Hr|exact Hr].
Qed.

End SelectorClaims.

Lemma selected_tool_is_registered_or_default_witness :
  exists en' tools' name args,
    llm_tool_selector.select_tool_and_generate_args (py := ascii_methods)
      (Examples.failing_sdk Examples.weather_answer) Examples.weather_request
      Examples.env0 Examples.calendar_and_email
    = (en', tools', Returned (name, args))
    /\ In name (keys Examples.calendar_and_email).
Proof.
  destruct (proj1 (proj2 (selected_tool_is_registered_or_default (py := ascii_methods)
                            (Examples.failing_sdk Examples.weather_answer)
                            Examples.weather_request Examples.env0
                            Examples.calendar_and_email)) I)
    as (en' & tools' & name & args & Hrun).
  exists en', tools', name, args. split; [exact Hrun|].
  apply (proj1 (selected_tool_is_registered_or_default (py := ascii_methods)
                  (Examples.failing_sdk Examples.weather_answer)
                  Examples.weather_request Examples.env0
                  Examples.calendar_and_email) en' tools' name args Hrun).
  simpl. auto.
Defined.

(** C4 as stated fails when "email_draft" is not a registered tool: with the
    calendar tool alone registered and a well-formed answer of the LLM that
    selects the unknown tool "weather", the selector returns "email_draft",
    which is not registered. *)
Lemma selector_returns_unregistered_default :
  snd (llm_tool_selector.select_tool_and_generate_args (py := ascii_methods)
         (Examples.failing_sdk Examples.weather_answer) Examples.weather_request
         Examples.env0 Examples.calendar_only)
  = Returned ("email_draft",
              JObj [("original_email", JStr "what is the weather in Paris");
                    ("tone", JStr "professional");
                    ("context", JObj [("reply_type", JStr "reply");
                                      ("urgency", JStr "normal")])])
  /\ ~ In "email_draft" (keys Examples.calendar_only).
Proof.
  split.
  - vm_compute. reflexivity.
  - simpl. intros [H|[]]. discriminate.
Qed.

Lemma llm_failure_degrades_to_fallback_witness :
  exists generated,
    llm_tool_selector._llm_select_and_generate (py := ascii_methods)
      Examples.counting_sdk Examples.weather_request [] Examples.env0
      Examples.calendar_and_email
    = (Env 1 [Log ERROR "LLM tool selection failed: Connection error.";
              Log WARNING "Using fallback tool selection"],
       Examples.calendar_and_email, Returned ("email_draft", generated))
    /\ Spec.heuristic_arguments (py := ascii_methods) Examples.weather_request generated.
Proof.
  apply (proj1 (proj2 (llm_failure_degrades_to_fallback (py := ascii_methods)
                         Examples.counting_sdk Examples.weather_request []
                         Examples.env0 Examples.calendar_and_email I))
           1 (Exn "APIConnectionError" "Connection error.")).
  reflexivity.
Defined.

(** C6 as stated fails for a payload whose [user_request] is no text.  With
    the number 5 as [user_request] and the LLM endpoint down, the exception
    of the LLM call is caught, but the fallback selection raises in turn:
    generating the arguments applies [in] to the number.  Neither
    [_llm_select_and_generate] nor [select_tool_and_generate_args] returns
    a selection; the [TypeError] reaches the caller. *)
Lemma fallback_raises_on_a_request_that_is_no_text :
  call_llm Examples.counting_sdk
    (llm_messages Examples.counting_sdk Examples.number_request []) 0
  = (1, Raised (Exn "APIConnectionError" "Connection error."))
  /\ llm_tool_selector._llm_select_and_generate (py := ascii_methods)
       Examples.counting_sdk Examples.number_request [] Examples.env0
       Examples.calendar_and_email
     = (Env 1 [Log ERROR "LLM tool selection failed: Connection error.";
               Log WARNING "Using fallback tool selection"],
        Examples.calendar_and_email,
        Raised (Exn "TypeError" "argument of type 'int' is not iterable"))
  /\ snd (llm_tool_selector.select_tool_and_generate_args (py := ascii_methods)
            Examples.counting_sdk Examples.number_request Examples.env0
            Examples.calendar_and_email)
     = Raised (Exn "TypeError" "argument of type 'int' is not iterable").
Proof.
  split; [reflexivity|]. split; vm_compute; reflexivity.
Qed.

Lemma empty_registry_outcomes_witness :
  (exists en' d,
      main.do_task (py := ascii_methods) Examples.counting_sdk
        [("user_request", JStr "draft a mail")] Examples.env0 []
      = (en', [], Returned d)
      /\ en' = Examples.env0
      /\ d = JObj [("success", JBool false);
                   ("error", JStr "No MCP servers available");
                   ("available_servers", JArr [])])
  /\ (exists en' arguments,
         llm_tool_selector.select_tool_and_generate_args (py := ascii_methods)
           Examples.counting_sdk Examples.weather_request Examples.env0 []
         = (en', [], Returned ("email_draft", arguments))
         /\ Spec.heuristic_arguments (py := ascii_methods) Examples.weather_request
              arguments).
Proof.
  split.
  - destruct (proj1 (empty_registry_outcomes (py := ascii_methods) Examples.counting_sdk)
                [("user_request", JStr "draft a mail")] Examples.env0)
      as (en' & d & Hrun & _ & Htext).
    exists en', d. split; [exact Hrun|]. apply (Htext "draft a mail"). reflexivity.
  - apply (proj1 (proj2 (empty_registry_outcomes (py := ascii_methods)
                           Examples.counting_sdk))
             Examples.weather_request Examples.env0 I).
Defined.

(** C7 as stated fails for the selector: with no tool registered (and the
    LLM endpoint down) [select_tool_and_generate_args] reports no error, it
    returns a selection, the tool "email_draft" with generated arguments. *)
Lemma selector_selects_on_empty_registry :
  llm_tool_selector.select_tool_and_generate_args (py := ascii_methods)
    Examples.counting_sdk Examples.weather_request Examples.env0 []
  = (Env 1 [Log ERROR "LLM tool selection failed: Connection error.";
            Log WARNING "Using fallback tool selection"],
     [],
     Returned ("email_draft",
               JObj [("original_email", JStr "what is the weather in Paris");
                     ("tone", JStr "professional");
                     ("context", JObj [("reply_type", JStr "reply");
                                       ("urgency", JStr "normal")])])).
Proof. vm_compute. reflexivity. Qed.

(** ** Loading and reloading the configuration (C3, C5) *)


Lemma set_adds_keys {V} (d : dict V) (k k' : string) (v : V) :
  In k' (keys d) -> In k' (keys (set d k v)).
Proof.
  induction d as [|[k0 v0] d IH]; simpl; [contradiction|].
  destruct (String.eqb k0 k); simpl; intuition.
Qed.

Section RegistryLoadFacts.
Context {W : Type}.

Local Abbreviation servers_t := (dict mcp_registry.MCPServerInfo).

Lemma registry_register_entry_keeps (item : string * entry_value) (en : env W)
    (servers : servers_t) :
  exists servers' r,
    mcp_registry.register_entry item en servers = (en, servers', r)
    /\ forall k, In k (keys servers) -> In k (keys servers').
Proof.
  destruct item as [server_name server_config].
  unfold mcp_registry.register_entry. run.
  destruct (entry_fields server_name server_config) as [[[[c a] d] k]|e];
    [|exists servers, (Raised e); now split].
  destruct (mcp_client.__init__ c a 30) as [cl|e];
    [|exists servers, (Raised e); now split].
  do 2 eexists. split; [reflexivity|]. intros k0 H. now apply set_adds_keys.
Qed.

Lemma registry_for_each_keeps (items : dict entry_value) :
  forall (en : env W) (servers : servers_t),
  exists servers' r,
    for_each items mcp_registry.register_entry en servers = (en, servers', r)
    /\ forall k, In k (keys servers) -> In k (keys servers').
Proof.
  induction items as [|item items IH]; intros en servers.
  - exists servers, (Returned tt). now split.
  - cbn [for_each]. rewrite bind_run.
    destruct (registry_register_entry_keeps item en servers)
      as (s1 & r1 & -> & H1).
    destruct r1 as [[]|e].
    + destruct (IH en s1) as (s2 & r2 & -> & H2).
      exists s2, r2. split; [reflexivity|]. intros k Hk. apply H2, H1, Hk.
    + exists s1, (Raised e). now split.
Qed.

(** C5, as the code has it.  [MCPRegistry.load_config] never raises, and no
    error type of its own exists: an absent file is logged as a warning, a
    file that cannot be read as a JSON mapping of servers is logged as an
    error, and in both cases the call returns normally with the registry as
    it was; whatever the source, every server registered before the call is
    still registered after it.  [reload_config] clears the registry before
    it loads, so after a reload from an absent or unreadable source the
    registry is empty: the descriptors of before the reload are gone. *)
Theorem load_config_logs_and_returns :
  (forall src (en : env W) servers,
      exists en' servers',
        mcp_registry.load_config src en servers = (en', servers', Returned tt)
        /\ forall k, In k (keys servers) -> In k (keys servers'))
  /\ (forall config_file (en : env W) servers,
         mcp_registry.load_config (FileAbsent config_file) en servers
         = (Env (world en)
                (logs en ++ [Log WARNING ("⚠️  MCP config file not found: "
                                          ++ config_file)]),
            servers, Returned tt))
  /\ (forall src e (en : env W) servers,
         source_error src = Some e ->
         mcp_registry.load_config src en servers
         = (Env (world en)
                (logs en ++ [Log ERROR ("❌ Failed to load MCP config: " ++ str_exn e)]),
            servers, Returned tt))
  /\ (forall src (en : env W) servers,
         (exists config_file, src = FileAbsent config_file)
         \/ source_error src <> None ->
         exists en',
           mcp_registry.reload_config src en servers = (en', [], Returned tt)).
Proof.
  assert (Habsent : forall config_file (en : env W) servers,
             mcp_registry.load_config (FileAbsent config_file) en servers
             = (Env (world en)
                    (logs en ++ [Log WARNING ("⚠️  MCP config file not found: "
                                              ++ config_file)]),
                servers, Returned tt)) by reflexivity.
  assert (Herr : forall src e (en : env W) servers,
             source_error src = Some e ->
             mcp_registry.load_config src en servers
             = (Env (world en)
                    (logs en ++ [Log ERROR ("❌ Failed to load MCP config: " ++ str_exn e)]),
                servers, Returned tt)).
  { intros src e en servers H. destruct src as [f|e0|[[[items|ty]|]|ty]];
      try discriminate H; injection H as <-; reflexivity. }
  split; [|split; [exact Habsent|split; [exact Herr|]]].
  - intros src en servers.
    destruct (source_error src) as [e|] eqn:E.
    { rewrite (Herr src e) by exact E. eauto. }
    destruct src as [f|e0|[[[items|ty]|]|ty]]; try discriminate E.
    + rewrite Habsent. eauto.
    + unfold mcp_registry.load_config, try_except, bind, of_outcome.
      cbn [get_mcpServers servers_items].
      destruct (registry_for_each_keeps items en servers) as (s' & r & -> & Hk).
      destruct r as [[]|e]; [eauto|]. unfold log. eauto.
    + unfold mcp_registry.load_config. rewrite try_except_run.
      cbn. eauto.
  - intros src en servers [[f ->] | H].
    + unfold mcp_registry.reload_config. rewrite bind_run. unfold modify, clear.
      rewrite Habsent. eauto.
    + destruct (source_error src) as [e|] eqn:E; [|contradiction].
      unfold mcp_registry.reload_config. rewrite bind_run. unfold modify, clear.
      rewrite (Herr src e) by exact E. eauto.
Qed.

(** [MCPRegistry.reload_config] starts from an empty mapping: what it
    leaves does not depend on the registry of before the reload. *)
Lemma registry_reload_forgets_prior_state (src : config_source) (en : env W)
    (servers servers' : servers_t) :
  mcp_registry.reload_config src en servers
  = mcp_registry.reload_config src en servers'.
Proof. reflexivity. Qed.

End RegistryLoadFacts.

Lemma load_config_logs_and_returns_witness :
  mcp_registry.load_config Examples.broken_config Examples.env0 Examples.mailer_only
  = (Env 0 [Log ERROR
              "❌ Failed to load MCP config: Expecting value: line 1 column 1 (char 0)"],
     Examples.mailer_only, Returned tt).
Proof.
  apply (proj1 (proj2 (proj2 load_config_logs_and_returns)) Examples.broken_config
           (Exn "JSONDecodeError" "Expecting value: line 1 column 1 (char 0)")
           Examples.env0 Examples.mailer_only).
  reflexivity.
Defined.

(** C5 as stated fails on both counts.  With a configuration file that is
    no JSON text, [load_config] raises nothing (it returns normally), and
    [reload_config] on the registry that holds "mailer" leaves an empty
    registry, which no longer lists the server of before the reload. *)
Lemma failed_reload_empties_the_registry :
  snd (mcp_registry.load_config Examples.broken_config Examples.env0
         Examples.mailer_only)
  = Returned tt
  /\ snd (fst (mcp_registry.reload_config Examples.broken_config Examples.env0
                 Examples.mailer_only))
     = []
  /\ mcp_registry.list_servers
       (snd (fst (mcp_registry.reload_config Examples.broken_config Examples.env0
                    Examples.mailer_only)))
     <> mcp_registry.list_servers Examples.mailer_only.
Proof.
  repeat split. vm_compute. discriminate.
Qed.

Section MainLoadFacts.
Context {W : Type}.

Lemma main_register_entry_keeps (item : string * entry_value) (en : env W)
    (mcp_servers : dict main.server_info) :
  exists servers' r,
    main.register_entry item en mcp_servers = (en, servers', r)
    /\ forall k, In k (keys mcp_servers) -> In k (keys servers').
Proof.
  destruct item as [server_name server_config].
  unfold main.register_entry. run.
  destruct (entry_fields server_name server_config) as [[[[c a] d] k]|e];
    [|exists mcp_servers, (Raised e); now split].
  destruct (mcp_client.__init__ c a 30) as [cl|e];
    [|exists mcp_servers, (Raised e); now split].
  do 2 eexists. split; [reflexivity|]. intros k0 H. now apply set_adds_keys.
Qed.

Lemma main_for_each_keeps (items : dict entry_value) :
  forall (en : env W) (mcp_servers : dict main.server_info),
  exists servers' r,
    for_each items main.register_entry en mcp_servers = (en, servers', r)
    /\ forall k, In k (keys mcp_servers) -> In k (keys servers').
Proof.
  induction items as [|item items IH]; intros en mcp_servers.
  - exists mcp_servers, (Returned tt). now split.
  - cbn [for_each]. rewrite bind_run.
    destruct (main_register_entry_keeps item en mcp_servers)
      as (s1 & r1 & -> & H1).
    destruct r1 as [[]|e].
    + destruct (IH en s1) as (s2 & r2 & -> & H2).
      exists s2, r2. split; [reflexivity|]. intros k Hk. apply H2, H1, Hk.
    + exists s1, (Raised e). now split.
Qed.

(** [load_mcp_config] of [main.py], the whole of its reload, never drops a
    server: whatever the configuration source, every name registered before
    the call is registered after it. *)
Lemma main_load_never_forgets (src : config_source) (en : env W)
    (mcp_servers : dict main.server_info) :
  exists en' servers',
    main.load_mcp_config src en mcp_servers = (en', servers', Returned tt)
    /\ forall k, In k (keys mcp_servers) -> In k (keys servers').
Proof.
  unfold main.load_mcp_config, try_except.
  destruct src as [f|e0|[[[items|ty]|]|ty]];
    try (do 2 eexists; split; [reflexivity|]; now auto).
  unfold bind, of_outcome. cbn [get_mcpServers servers_items].
  destruct (main_for_each_keeps items en mcp_servers) as (s' & r & -> & Hk).
  destruct r as [[]|e]; [eauto|]. unfold log. eauto.
Qed.

End MainLoadFacts.

(** C3 on [main.py]: the reload endpoint loads into the module global
    without clearing it.  With "mailer" registered and a new configuration
    that declares "calendar" only, the reload answers with both names: the
    server of the old configuration is still listed next to the new one. *)
Theorem main_reload_keeps_stale_servers :
  exists en' servers',
    main.reload_config Examples.calendar_config Examples.env0
      [("mailer", Examples.mailer_info)]
    = (en', servers',
       Returned (JObj [("success", JBool true);
                       ("message", JStr "Configuration reloaded");
                       ("servers", JNum 2);
                       ("server_names", str_list ["mailer"; "calendar"])]))
    /\ keys servers' = ["mailer"; "calendar"]
    /\ get servers' "mailer" = Some Examples.mailer_info.
Proof.
  do 2 eexists. split; [vm_compute; reflexivity|]. split; reflexivity.
Qed.

(** the same reload through [MCPRegistry.reload_config] lists the new
    configuration only *)
Lemma registry_reload_replaces_servers :
  keys (snd (fst (mcp_registry.reload_config Examples.calendar_config Examples.env0
                    Examples.mailer_only)))
  = ["calendar"].
Proof. reflexivity. Qed.

(** * Further properties of the code *)

(** ** Opening a session and the scoped use ([mcp_client.py]) *)

Section SessionScope.
Context {W : Type} (X : externals W).

(** X1.  After [__aenter__] has returned, the session and the transport
    context of the client are set, and its launch parameters and timeout
    are those of before: entry never hands back a client without a session,
    and it has logged no warning and no error. *)
Theorem aenter_success_sets_session (en en' : env W)
    (c c' : mcp_client.MCPClient) :
  mcp_client.__aenter__ X en c = (en', c', Returned tt) ->
  mcp_client.session c' <> None
  /\ mcp_client._client_ctx c' <> None
  /\ mcp_client.server_params c' = mcp_client.server_params c
  /\ mcp_client.timeout c' = mcp_client.timeout c
  /\ logs en' = logs en.
Proof.
  unfold mcp_client.__aenter__, mcp_client.exit_if_set. run.
  cbn -[append].
  repeat (next_call; cbn -[append]);
    repeat match goal with
           | |- context [match mcp_client.session ?c with _ => _ end] =>
               destruct (mcp_client.session c); cbn -[append]
           | |- context [match mcp_client._client_ctx ?c with _ => _ end] =>
               destruct (mcp_client._client_ctx c); cbn -[append]
           | _ => next_call; cbn -[append]
           end;
    intros [= <- <-]; try discriminate; cbn; repeat split; discriminate.
Qed.

(** X2.  The outcome of [async with client: body] is the outcome of the
    body whenever the entry succeeded: the value of the body is returned and
    an exception of the body is raised again, also when the teardown fails
    (its failure is only logged), and the client is left as the body left
    it.  When the entry fails the body is not run and the exception of the
    entry is raised. *)
Theorem scoped_use_has_the_outcome_of_the_body {A : Type}
    (body : M W mcp_client.MCPClient A) (en : env W) (c : mcp_client.MCPClient) :
  (forall en1 c1 en2 c2 r,
      mcp_client.__aenter__ X en c = (en1, c1, Returned tt) ->
      body en1 c1 = (en2, c2, r) ->
      exists en3, mcp_client.async_with X body en c = (en3, c2, r))
  /\ (forall en1 c1 e,
         mcp_client.__aenter__ X en c = (en1, c1, Raised e) ->
         mcp_client.async_with X body en c = (en1, c1, Raised e)).
Proof.
  split.
  - intros en1 c1 en2 c2 r Henter Hbody.
    unfold mcp_client.async_with. rewrite bind_run, Henter, Hbody.
    destruct r as [a|e]; rewrite bind_run.
    + destruct (aexit_returns_same_client X None en2 c2) as [en3 ->]. now exists en3.
    + destruct (aexit_returns_same_client X (Some e) en2 c2) as [en3 ->].
      now exists en3.
  - intros en1 c1 e Henter. unfold mcp_client.async_with.
    now rewrite bind_run, Henter.
Qed.

(** X3.  A failed spawn on a client that was never opened: [__aenter__]
    logs the failure, closes the transport context it had created, and
    raises the exception of the spawn; but when that closing fails too, the
    exception of the closing is raised instead and the one of the spawn is
    only in the log. *)
Theorem failed_spawn_raises (en : env W) (c : mcp_client.MCPClient)
    (ctx : handle) (w1 w2 : W) (e : exn) :
  mcp_client.session c = None ->
  stdio_client X (mcp_client.server_params c) (world en) = (w1, Returned ctx) ->
  ctx_aenter X ctx (mcp_client.timeout c) w1 = (w2, Raised e) ->
  (forall w3,
      ctx_aexit X ctx (Some e) w2 = (w3, Returned tt) ->
      mcp_client.__aenter__ X en c
      = (Env w3 (logs en ++ [Log ERROR ("Failed to initialize MCP client: " ++ str_exn e)]),
         mcp_client.set_client_ctx ctx c, Raised e))
  /\ (forall w3 e',
         ctx_aexit X ctx (Some e) w2 = (w3, Raised e') ->
         mcp_client.__aenter__ X en c
         = (Env w3 (logs en ++ [Log ERROR ("Failed to initialize MCP client: " ++ str_exn e)]),
            mcp_client.set_client_ctx ctx c, Raised e')).
Proof.
  intros Hs H1 H2. split.
  - intros w3 H3. unfold mcp_client.__aenter__, mcp_client.exit_if_set. run.
    rewrite H1. cbn -[append]. rewrite H2. cbn -[append]. rewrite Hs.
    cbn -[append]. now rewrite H3.
  - intros w3 e' H3. unfold mcp_client.__aenter__, mcp_client.exit_if_set. run.
    rewrite H1. cbn -[append]. rewrite H2. cbn -[append]. rewrite Hs.
    cbn -[append]. now rewrite H3.
Qed.

End SessionScope.

Lemma aenter_success_sets_session_witness :
  mcp_client.session
    (snd (fst (mcp_client.__aenter__ Examples.counting_sdk Examples.env0
                 Examples.mail_client)))
  <> None.
Proof.
  apply (aenter_success_sets_session Examples.counting_sdk Examples.env0
           (Env 5 []) Examples.mail_client
           (snd (fst (mcp_client.__aenter__ Examples.counting_sdk Examples.env0
                        Examples.mail_client)))).
  reflexivity.
Defined.

Lemma scoped_use_has_the_outcome_of_the_body_witness :
  exists en3,
    mcp_client.async_with Examples.counting_sdk
      (raise (Exn "ValueError" "bad arguments")) Examples.env0 Examples.mail_client
    = (en3, Examples.opened_client, Raised (A:=unit) (Exn "ValueError" "bad arguments")).
Proof.
  apply (proj1 (scoped_use_has_the_outcome_of_the_body Examples.counting_sdk
                  (raise (Exn "ValueError" "bad arguments")) Examples.env0
                  Examples.mail_client)
           (Env 5 []) Examples.opened_client (Env 5 []) Examples.opened_client).
  - reflexivity.
  - reflexivity.
Defined.

Lemma failed_spawn_raises_witness :
  mcp_client.__aenter__ (Examples.failing_sdk "") Examples.env0 Examples.mail_client
  = (Env 3 [Log ERROR
              "Failed to initialize MCP client: No such file or directory: 'python'"],
     mcp_client.set_client_ctx 1 Examples.mail_client,
     Raised (Exn "FileNotFoundError" "No such file or directory: 'python'")).
Proof.
  apply (proj1 (failed_spawn_raises (Examples.failing_sdk "") Examples.env0
                  Examples.mail_client 1 1 2
                  (Exn "FileNotFoundError" "No such file or directory: 'python'")
                  eq_refl eq_refl eq_refl) 3).
  reflexivity.
Defined.

(** ** Relations kept by a computation *)

Section Preservation.
Context {W S : Type} (R : S -> S -> Prop).
Hypothesis R_refl : forall s, R s s.
Hypothesis R_trans : forall s1 s2 s3, R s1 s2 -> R s2 s3 -> R s1 s3.

Lemma preserves_ret {A} (a : A) : preserves (W:=W) R (ret a).
Proof. intros en s en' s' r [= _ <- _]. apply R_refl. Qed.

Lemma preserves_raise {A} (e : exn) : preserves (W:=W) (A:=A) R (raise e).
Proof. intros en s en' s' r [= _ <- _]. apply R_refl. Qed.

Lemma preserves_log (l : level) (msg : string) : preserves (W:=W) R (log l msg).
Proof. intros en s en' s' r [= _ <- _]. apply R_refl. Qed.

Lemma preserves_get_self : preserves (W:=W) R get_self.
Proof. intros en s en' s' r [= _ <- _]. apply R_refl. Qed.

Lemma preserves_of_outcome {A} (o : outcome A) : preserves (W:=W) R (of_outcome o).
Proof. intros en s en' s' r [= _ <- _]. apply R_refl. Qed.

Lemma preserves_extern {A} (f : W -> W * outcome A) : preserves R (extern f).
Proof.
  intros en s en' s' r. unfold extern. destruct (f (world en)).
  intros [= _ <- _]. apply R_refl.
Qed.

Lemma preserves_bind {A B} (m : M W S A) (k : A -> M W S B) :
  preserves R m -> (forall a, preserves R (k a)) -> preserves R (bind m k).
Proof.
  intros Hm Hk en s en' s' r. rewrite bind_run.
  destruct (m en s) as [[en1 s1] [a|e]] eqn:E.
  - intros H. eapply R_trans; [eapply Hm, E | eapply Hk, H].
  - intros [= _ <- _]. eapply Hm, E.
Qed.

Lemma preserves_try_except {A} (m : M W S A) (handler : exn -> M W S A) :
  preserves R m -> (forall e, preserves R (handler e)) ->
  preserves R (try_except m handler).
Proof.
  intros Hm Hh en s en' s' r. rewrite try_except_run.
  destruct (m en s) as [[en1 s1] [a|e]] eqn:E.
  - intros [= _ <- _]. eapply Hm, E.
  - intros H. eapply R_trans; [eapply Hm, E | eapply Hh, H].
Qed.

End Preservation.

(** closing the goals on [preserves] that follow the shape of the code *)
Ltac keeps R_refl R_trans :=
  repeat first [ exact R_refl | exact R_trans
               | apply preserves_ret | apply preserves_raise | apply preserves_log
               | apply preserves_get_self | apply preserves_of_outcome
               | apply preserves_extern
               | apply preserves_bind | apply preserves_try_except
               | match goal with |- forall _, preserves _ _ => intro end ].

(** ** More on the handlers of [main.py] *)

Lemma catalogue_set_client (mcp_servers : dict main.server_info)
    (server_name : string) (c : mcp_client.MCPClient) (i : main.server_info) :
  get mcp_servers server_name = Some i ->
  catalogue (set mcp_servers server_name (main.with_client c i)) = catalogue mcp_servers.
Proof.
  induction mcp_servers as [|[k v] r IH]; simpl; [discriminate|].
  destruct (String.eqb k server_name).
  - now intros [= ->].
  - intros H. simpl. f_equal. now apply IH.
Qed.

Lemma same_catalogue_store_client (server_name : string) (c : mcp_client.MCPClient)
    (mcp_servers : dict main.server_info) :
  same_catalogue mcp_servers (main.store_client server_name c mcp_servers).
Proof.
  unfold same_catalogue, main.store_client.
  destruct (get mcp_servers server_name) eqn:E; [|reflexivity].
  now apply catalogue_set_client.
Qed.

Lemma find_loop_of_catalogue {py : str_methods} (text_lower : string) :
  forall mcp_servers servers' : dict main.server_info,
  catalogue servers' = catalogue mcp_servers ->
  main.find_loop text_lower servers' = main.find_loop text_lower mcp_servers.
Proof.
  induction mcp_servers as [|[n i] r IH]; intros [|[n' i'] r']; simpl;
    try discriminate; trivial.
  unfold public_part. intros [= -> _ _ _ -> H].
  destruct (keyword_hit _ _); [reflexivity|]. now apply IH.
Qed.

Lemma keys_of_catalogue (mcp_servers servers' : dict main.server_info) :
  catalogue servers' = catalogue mcp_servers -> keys servers' = keys mcp_servers.
Proof.
  intros H. apply (f_equal (map fst)) in H. unfold catalogue in H.
  rewrite !map_map in H. exact H.
Qed.

Section HandlerFacts.
Context {W : Type} (X : externals W) {py : str_methods}.

Lemma same_catalogue_refl (s : dict main.server_info) : same_catalogue s s.
Proof. reflexivity. Qed.

Lemma same_catalogue_trans (s1 s2 s3 : dict main.server_info) :
  same_catalogue s1 s2 -> same_catalogue s2 s3 -> same_catalogue s1 s3.
Proof. unfold same_catalogue. congruence. Qed.

Lemma use_session_preserves (server_name : string) (i : main.server_info)
    (tool_name : string) (arguments : json) :
  preserves same_catalogue (main.use_session X server_name i tool_name arguments).
Proof.
  intros en s en' s' r. unfold main.use_session, zoom.
  destruct (mcp_client.async_with _ _ _ _) as [[en1 c1] r1].
  intros [= _ <- _]. apply same_catalogue_store_client.
Qed.

Lemma call_mcp_server_preserves (server_name tool_name : string) (arguments : json) :
  preserves same_catalogue (main.call_mcp_server X server_name tool_name arguments).
Proof.
  intros en s. unfold main.call_mcp_server. rewrite bind_run. unfold get_self.
  destruct (get s server_name) as [i|].
  - revert en s.
    keeps same_catalogue_refl same_catalogue_trans. apply use_session_preserves.
  - revert en s. keeps same_catalogue_refl same_catalogue_trans.
Qed.

Lemma do_task_preserves (request : dict json) :
  preserves same_catalogue (main.do_task X request).
Proof.
  unfold main.do_task. keeps same_catalogue_refl same_catalogue_trans.
  destruct (main.find_server_by_keywords _ _) as [[|c r]|];
    try apply call_mcp_server_preserves;
    keeps same_catalogue_refl same_catalogue_trans.
Qed.

(** X4.  Requests never change what is registered.  Whatever the request,
    the registry and the SDK do, after [do_task] and after
    [call_mcp_server] the registry has the same server names in the same
    order, each with the same command, arguments, description and keywords
    (only the client objects are touched); so the routing of every text and
    the list of names are those of before the request. *)
Theorem requests_keep_the_catalogue (en en' : env W)
    (mcp_servers servers' : dict main.server_info) :
  (forall request r,
      main.do_task X request en mcp_servers = (en', servers', r) ->
      catalogue servers' = catalogue mcp_servers
      /\ keys servers' = keys mcp_servers
      /\ forall text, main.find_server_by_keywords servers' text
                      = main.find_server_by_keywords mcp_servers text)
  /\ (forall server_name tool_name arguments r,
         main.call_mcp_server X server_name tool_name arguments en mcp_servers
         = (en', servers', r) ->
         catalogue servers' = catalogue mcp_servers
         /\ keys servers' = keys mcp_servers
         /\ forall text, main.find_server_by_keywords servers' text
                         = main.find_server_by_keywords mcp_servers text).
Proof.
  assert (Hcat : catalogue servers' = catalogue mcp_servers ->
                 catalogue servers' = catalogue mcp_servers
                 /\ keys servers' = keys mcp_servers
                 /\ forall text, main.find_server_by_keywords servers' text
                                 = main.find_server_by_keywords mcp_servers text).
  { intros H. split; [exact H|]. split; [now apply keys_of_catalogue|].
    intros text. unfold main.find_server_by_keywords.
    rewrite (find_loop_of_catalogue _ _ _ H), (keys_of_catalogue _ _ H).
    reflexivity. }
  split.
  - intros request r H. apply Hcat. exact (do_task_preserves request _ _ _ _ _ H).
  - intros server_name tool_name arguments r H. apply Hcat.
    exact (call_mcp_server_preserves _ _ _ _ _ _ _ _ H).
Qed.

(** X5.  The direct tool call raises exactly when the server is not
    registered: for an unknown name it raises the [ValueError] "Server not
    found: name" and does nothing else, and for a registered name it always
    returns a mapping, whatever the session does. *)
Theorem direct_call_raises_only_for_unknown_server (server_name tool_name : string)
    (request : dict json) (en : env W) (mcp_servers : dict main.server_info) :
  (get mcp_servers server_name = None ->
   main_endpoints.call_server_tool_direct X server_name tool_name request en mcp_servers
   = (en, mcp_servers, Raised (Exn "ValueError" ("Server not found: " ++ server_name))))
  /\ (forall i,
         get mcp_servers server_name = Some i ->
         exists en' servers' d,
           main_endpoints.call_server_tool_direct X server_name tool_name request en
             mcp_servers
           = (en', servers', Returned d)
           /\ field d "server_name" = Some (JStr server_name)
           /\ field d "tool_name" = Some (JStr tool_name)).
Proof.
  unfold main_endpoints.call_server_tool_direct. split.
  - intros H. unfold main.call_mcp_server. run. now rewrite H.
  - intros i H. rewrite (call_mcp_server_run X _ _ _ i) by exact H.
    destruct (main.use_session _ _ _ _ _ _ _) as [[en1 s1] [r|e]];
      do 3 eexists; split; try reflexivity; split; reflexivity.
Qed.

(** X6.  The happy path of [do_task].  When the request carries a text that
    is routed to a server, the entry of that server's client succeeds and
    the SDK answers the call of "generate_email_draft" with the generated
    arguments, [do_task] returns the success mapping with [str(result)] as
    [raw_mcp_result] and as the reply body, whatever the teardown does. *)
Theorem do_task_success (request : dict json) (text server_name : string)
    (i : main.server_info) (en en1 : env W) (c1 : mcp_client.MCPClient)
    (s : handle) (w2 : W) (result : mcp_result)
    (mcp_servers : dict main.server_info) :
  py_get (get_default request "input_data" (JObj request)) "user_request" (JStr "")
  = Returned (JStr text) ->
  main.find_server_by_keywords mcp_servers text = Some server_name ->
  server_name <> "" ->
  get mcp_servers server_name = Some i ->
  mcp_client.__aenter__ X en (main.client i) = (en1, c1, Returned tt) ->
  mcp_client.session c1 = Some s ->
  session_call_tool X s "generate_email_draft" (main.task_arguments text)
    (mcp_client.timeout c1) (world en1)
  = (w2, Returned result) ->
  exists en' d,
    main.do_task X request en mcp_servers
    = (en', main.store_client server_name c1 mcp_servers, Returned d)
    /\ field d "success" = Some (JBool true)
    /\ field d "server_name" = Some (JStr server_name)
    /\ field d "tool_name" = Some (JStr "generate_email_draft")
    /\ field d "raw_mcp_result" = Some (JStr (result_str result))
    /\ field d "data"
       = Some (JObj [("reply_subject", JStr "MCP Response");
                     ("reply_body", JStr (result_str result))]).
Proof.
  intros Hreq Hfind Hne Hget Henter Hs Hcall.
  rewrite (do_task_routed X request text server_name i) by assumption.
  rewrite (call_mcp_server_run X _ _ _ i) by exact Hget.
  unfold main.use_session, zoom, mcp_client.async_with.
  rewrite bind_run, Henter.
  assert (Hbody : mcp_client.call_tool X "generate_email_draft"
                    (main.task_arguments text) en1 c1
                  = (Env w2 (logs en1), c1, Returned result)).
  { unfold mcp_client.call_tool. run. rewrite Hs. now rewrite Hcall. }
  rewrite Hbody, bind_run.
  destruct (aexit_returns_same_client X None (Env w2 (logs en1)) c1) as [en3 ->].
  do 2 eexists. split; [reflexivity|]. repeat split.
Qed.

End HandlerFacts.

Section ReloadEndpoint.
Context {W : Type}.

(** X7.  The reload endpoint of [main.py] answers with [success] true for
    every configuration source, also when the file is absent or cannot be
    read: it never raises and never takes its error branch, it reports the
    names now registered and their number, no name registered before is
    missing, and after a failed load the registry is the one of before. *)
Theorem reload_endpoint_always_reports_success (src : config_source) (en : env W)
    (mcp_servers : dict main.server_info) :
  exists en' servers',
    main.reload_config src en mcp_servers
    = (en', servers',
       Returned (JObj [("success", JBool true);
                       ("message", JStr "Configuration reloaded");
                       ("servers", JNum (Z.of_nat (List.length servers')));
                       ("server_names", str_list (keys servers'))]))
    /\ (forall k, In k (keys mcp_servers) -> In k (keys servers'))
    /\ ((exists f, src = FileAbsent f) \/ source_error src <> None ->
        servers' = mcp_servers).
Proof.
  destruct (main_load_never_forgets src en mcp_servers) as (en' & s' & Hload & Hk).
  exists en', s'. split; [|split; [exact Hk|]].
  - unfold main.reload_config. rewrite try_except_run, bind_run, Hload.
    reflexivity.
  - intros Hsrc. revert Hload.
    destruct src as [f|e0|[[[items|ty]|]|ty]]; cbn;
      try (intros [= _ <-]; reflexivity);
      destruct Hsrc as [[f' Hf]|Hne]; try discriminate Hf; now elim Hne.
Qed.

End ReloadEndpoint.

Section RegisteredNames.
Context {py : str_methods}.

(** X8.  The routers never name a server that is not registered: a name
    returned by [find_server_by_keywords] of [main.py] is a key of
    [mcp_servers] with a value, and a descriptor returned by the one of
    [MCPRegistry] is stored in [servers]. *)
Theorem routers_name_registered_servers :
  (forall mcp_servers text server_name,
      main.find_server_by_keywords mcp_servers text = Some server_name ->
      In server_name (keys mcp_servers)
      /\ exists i, get mcp_servers server_name = Some i)
  /\ (forall servers text server,
         mcp_registry.find_server_by_keywords servers text = Some server ->
         exists server_name, In (server_name, server) servers).
Proof.
  split.
  - intros mcp_servers text server_name H.
    assert (Hin : In server_name (keys mcp_servers)).
    { unfold main.find_server_by_keywords in H.
      destruct (main.find_loop _ _) eqn:E.
      - injection H as ->. now apply main_find_loop_is_key in E.
      - destruct mcp_servers as [|[n i] r]; [discriminate|].
        injection H as ->. now left. }
    split; [exact Hin | now apply get_of_key].
  - intros servers text server. unfold mcp_registry.find_server_by_keywords.
    destruct (mcp_registry.find_by_keyword_loop _ _) eqn:E.
    + intros [= ->]. clear - E. unfold values in E.
      induction servers as [|[n d] r IH]; simpl in E; [discriminate|].
      destruct (keyword_hit _ _).
      * injection E as ->. exists n. now left.
      * destruct (IH E) as [m Hm]. exists m. now right.
    + clear E. intros H.
      induction servers as [|[n d] r IH]; simpl in H; [discriminate|].
      destruct (contains _ _).
      * injection H as ->. exists n. now left.
      * destruct (IH H) as [m Hm]. exists m. now right.
Qed.

End RegisteredNames.

(** ** Loading, looked at entry by entry ([mcp_registry.py]) *)

Lemma set_new_key {V} (d : dict V) (k : string) (v : V) :
  ~ In k (keys d) -> set d k v = (d ++ [(k, v)])%list.
Proof.
  induction d as [|[k0 v0] d IH]; simpl; trivial.
  intros H. destruct (String.eqb k0 k) eqn:E.
  - apply String.eqb_eq in E. elim H. now left.
  - f_equal. apply IH. intros Hin. apply H. now right.
Qed.

Lemma fresh_client_of_init (command : string) (args : list string) :
  command <> "" -> args <> [] ->
  mcp_client.__init__ command args 30 = Returned (fresh_client command args).
Proof.
  intros Hc Ha. unfold mcp_client.__init__.
  destruct (String.eqb command "") eqn:E; [now apply String.eqb_eq in E|].
  destruct args; [contradiction|reflexivity].
Qed.

Lemma init_returns_fresh_client (command : string) (args : list string)
    (c : mcp_client.MCPClient) :
  mcp_client.__init__ command args 30 = Returned c ->
  command <> "" /\ args <> [] /\ c = fresh_client command args.
Proof.
  unfold mcp_client.__init__.
  destruct (String.eqb command "") eqn:E; [discriminate|].
  destruct args; [discriminate|]. intros [= <-].
  apply String.eqb_neq in E. repeat split; trivial. discriminate.
Qed.

Lemma keys_registry_of (items : dict entry_value) :
  Forall (fun p => loadable (snd p)) items -> keys (registry_of items) = keys items.
Proof.
  induction 1 as [|[n v] r Hv _ IH]; simpl; trivial.
  destruct v as [e|ty]; [|contradiction]. simpl. now f_equal.
Qed.

Section EntryByEntry.
Context {W : Type}.

Local Abbreviation servers_t := (dict mcp_registry.MCPServerInfo).

Lemma register_loadable_entry (server_name : string) (e : server_entry)
    (en : env W) (servers : servers_t) :
  loadable (EntryObject e) ->
  mcp_registry.register_entry (server_name, EntryObject e) en servers
  = (en, set servers server_name (described server_name e), Returned tt).
Proof.
  intros (Hc & Ha & Ha'). unfold mcp_registry.register_entry. run.
  cbn [entry_fields].
  rewrite fresh_client_of_init.
  - reflexivity.
  - destruct (entry_command e) as [c|]; [congruence|discriminate].
  - destruct (entry_args e) as [a|]; congruence.
Qed.

Lemma register_faulty_entry (server_name : string) (v : entry_value)
    (en : env W) (servers : servers_t) :
  ~ loadable v ->
  exists e, mcp_registry.register_entry (server_name, v) en servers
            = (en, servers, Raised e).
Proof.
  intros H. unfold mcp_registry.register_entry. run.
  destruct v as [e|ty]; cbn [entry_fields]; [|eauto].
  destruct (mcp_client.__init__ _ _ 30) as [c|e0] eqn:E; [|eauto].
  apply init_returns_fresh_client in E as (Hc & Ha & _).
  elim H. repeat split.
  - intros Hs. rewrite Hs in Hc. now apply Hc.
  - intros Hs. rewrite Hs in Ha. now apply Ha.
  - intros Hs. rewrite Hs in Ha. now apply Ha.
Qed.

(** loading entries that are all loadable, under names that are new *)
Lemma for_each_loadable (items : dict entry_value) :
  forall (en : env W) (servers : servers_t),
  Forall (fun p => loadable (snd p)) items ->
  NoDup (keys items) ->
  (forall k, In k (keys items) -> ~ In k (keys servers)) ->
  for_each items mcp_registry.register_entry en servers
  = (en, (servers ++ registry_of items)%list, Returned tt).
Proof.
  induction items as [|[n v] r IH]; intros en servers Hl Hnd Hnew.
  - cbn. now rewrite app_nil_r.
  - inversion Hl as [|? ? Hv Hr]; subst. inversion Hnd as [|? ? Hn Hnd']; subst.
    destruct v as [e|ty]; [|contradiction].
    cbn [for_each]. rewrite bind_run, (register_loadable_entry n e) by exact Hv.
    rewrite set_new_key by (apply Hnew; now left).
    rewrite IH; trivial.
    + cbn [registry_of]. now rewrite <- app_assoc.
    + intros k Hk. unfold keys. rewrite map_app, in_app_iff. cbn.
      intros [Hin|[->|[]]]; [|contradiction].
      apply (Hnew k); [now right|exact Hin].
Qed.

Lemma load_of_items (items : dict entry_value) (en : env W) (servers : servers_t) :
  mcp_registry.load_config (config_of items) en servers
  = match for_each items mcp_registry.register_entry en servers with
    | (en', s', Returned a) => (en', s', Returned a)
    | (en', s', Raised e) =>
        (Env (world en') (logs en' ++ [Log ERROR ("❌ Failed to load MCP config: "
                                                   ++ str_exn e)]),
         s', Returned tt)
    end.
Proof. reflexivity. Qed.

(** X9.  Load and look up.  After [reload_config] from a configuration
    whose entries are all loadable (under distinct names, as the keys of a
    JSON mapping are), no warning and no error is logged, the registered
    names are those of the file in the order of the file, and [get_server]
    finds for each name
    the descriptor of its entry: the command ("python" when left out), the
    arguments, the description ("MCP Server: name" when left out), the
    keywords (none when left out) and a client built from command and
    arguments that is not opened. *)
Theorem reload_then_get_server (items : dict entry_value) (en : env W)
    (servers : servers_t) :
  NoDup (keys items) ->
  Forall (fun p => loadable (snd p)) items ->
  exists servers',
    mcp_registry.reload_config (config_of items) en servers
    = (en, servers', Returned tt)
    /\ keys servers' = keys items
    /\ forall server_name e,
        In (server_name, EntryObject e) items ->
        mcp_registry.get_server servers' server_name
        = Some (described server_name e).
Proof.
  intros Hnd Hl. exists (registry_of items).
  split; [|split].
  - unfold mcp_registry.reload_config. rewrite bind_run. unfold modify, clear.
    rewrite load_of_items.
    rewrite for_each_loadable; [reflexivity|assumption|assumption|intros k _ []].
  - now apply keys_registry_of.
  - unfold mcp_registry.get_server. clear servers en.
    induction items as [|[n v] r IH]; intros server_name e Hin; [contradiction|].
    inversion Hl as [|? ? Hv Hr]; subst. inversion Hnd as [|? ? Hn Hnd']; subst.
    destruct Hin as [[= -> ->]|Hin].
    + cbn. now rewrite String.eqb_refl.
    + destruct v as [e0|ty]; [|contradiction]. cbn.
      destruct (String.eqb n server_name) eqn:E.
      * apply String.eqb_eq in E. subst n. elim Hn.
        change server_name with (fst (server_name, EntryObject e)).
        now apply in_map.
      * now apply IH.
Qed.

(** X10.  Loading stops at the first faulty entry.  When the entries before
    an entry that is not loadable (no mapping, an empty command, or no
    arguments) are loadable, [reload_config] registers exactly those, logs
    one error, returns normally, and registers none of the entries after
    the faulty one, loadable or not. *)
Theorem reload_stops_at_first_faulty_entry (good rest : dict entry_value)
    (server_name : string) (faulty : entry_value) (en : env W)
    (servers : servers_t) :
  NoDup (keys good) ->
  Forall (fun p => loadable (snd p)) good ->
  ~ loadable faulty ->
  exists e,
    mcp_registry.reload_config
      (config_of (good ++ (server_name, faulty) :: rest)%list) en servers
    = (Env (world en)
           (logs en ++ [Log ERROR ("❌ Failed to load MCP config: " ++ str_exn e)]),
       registry_of good, Returned tt)
    /\ keys (registry_of good) = keys good.
Proof.
  intros Hnd Hl Hf.
  assert (Hsplit : forall (items : dict entry_value) (en0 : env W) (s0 : servers_t),
             for_each (items ++ (server_name, faulty) :: rest)%list
               mcp_registry.register_entry en0 s0
             = match for_each items mcp_registry.register_entry en0 s0 with
               | (en1, s1, Returned _) =>
                   for_each ((server_name, faulty) :: rest)
                     mcp_registry.register_entry en1 s1
               | (en1, s1, Raised e) => (en1, s1, Raised e)
               end).
  { induction items as [|item items IH]; intros en0 s0; [reflexivity|].
    cbn [app for_each]. rewrite !bind_run.
    destruct (mcp_registry.register_entry item en0 s0) as [[en1 s1] [[]|e]];
      [apply IH|reflexivity]. }
  destruct (register_faulty_entry server_name faulty en ([] ++ registry_of good)%list Hf)
    as [e He].
  exists e. split; [|now apply keys_registry_of].
  unfold mcp_registry.reload_config. rewrite bind_run. unfold modify, clear.
  rewrite load_of_items, Hsplit.
  rewrite for_each_loadable; [|assumption|assumption|intros k _ []].
  cbn [for_each]. rewrite bind_run, He. reflexivity.
Qed.

End EntryByEntry.

Lemma Forall_set {V} (P : string * V -> Prop) (d : dict V) (k : string) (v : V) :
  Forall P d -> P (k, v) -> Forall P (set d k v).
Proof.
  intros Hd Hv. induction Hd as [|[k0 v0] d H0 Hd IH]; simpl.
  - now constructor.
  - destruct (String.eqb k0 k) eqn:E.
    + apply String.eqb_eq in E. subst k0. now constructor.
    + now constructor.
Qed.

Section LaunchableServers.
Context {W : Type}.

Local Abbreviation servers_t := (dict mcp_registry.MCPServerInfo).

Lemma register_entry_keeps_launchable (item : string * entry_value) :
  preserves (W:=W) (fun s s' : servers_t => Forall launchable s -> Forall launchable s')
    (mcp_registry.register_entry item).
Proof.
  destruct item as [server_name v]. intros en s en' s' r.
  unfold mcp_registry.register_entry. run.
  destruct (entry_fields server_name v) as [[[[c a] d] k]|e];
    [|intros [= _ <- _]; trivial].
  destruct (mcp_client.__init__ c a 30) as [cl|e] eqn:E;
    [|intros [= _ <- _]; trivial].
  intros [= _ <- _] Hs. apply Forall_set; trivial.
  apply init_returns_fresh_client in E as (Hc & Ha & ->).
  repeat split; assumption.
Qed.

Lemma for_each_keeps_launchable (items : dict entry_value) :
  preserves (W:=W) (fun s s' : servers_t => Forall launchable s -> Forall launchable s')
    (for_each items mcp_registry.register_entry).
Proof.
  induction items as [|item items IH]; cbn [for_each].
  - intros en s en' s' r [= _ <- _]. trivial.
  - apply preserves_bind; auto.
    apply register_entry_keeps_launchable.
Qed.

(** X11.  Every server of an [MCPRegistry] can be launched.  [load_config]
    keeps, and [reload_config] establishes for every configuration source,
    that each registered server is stored under its own name, has a command
    and an argument list that are not empty, and holds a client built from
    exactly that command and those arguments with timeout 30 and no session:
    an entry that would break this is never stored. *)
Theorem registry_servers_are_launchable (src : config_source) (en en' : env W)
    (servers servers' : servers_t) (r : outcome unit) :
  (mcp_registry.load_config src en servers = (en', servers', r) ->
   Forall launchable servers -> Forall launchable servers')
  /\ (mcp_registry.reload_config src en servers = (en', servers', r) ->
      Forall launchable servers').
Proof.
  assert (Hload : preserves (W:=W)
                    (fun s s' : servers_t => Forall launchable s -> Forall launchable s')
                    (mcp_registry.load_config src)).
  { unfold mcp_registry.load_config. apply preserves_try_except; auto.
    - destruct src as [f|e0|config].
      + apply preserves_log; auto.
      + apply preserves_raise; auto.
      + repeat (apply preserves_bind; auto;
                [apply preserves_of_outcome; auto|intros ?]).
        apply for_each_keeps_launchable.
    - intros e. apply preserves_log; auto. }
  split.
  - intros H. exact (Hload _ _ _ _ _ H).
  - unfold mcp_registry.reload_config. rewrite bind_run. unfold modify, clear.
    intros H. apply (Hload _ _ _ _ _ H). constructor.
Qed.

End LaunchableServers.

(** ** Calls through the registry ([mcp_registry.py]) *)

Lemma aexit_logs_grow {W : Type} (X : externals W) (exc : option exn) (en : env W)
    (c : mcp_client.MCPClient) :
  exists en' more,
    mcp_client.__aexit__ X exc en c = (en', c, Returned tt)
    /\ logs en' = (logs en ++ more)%list.
Proof.
  unfold mcp_client.__aexit__, mcp_client.exit_if_set. run.
  destruct (mcp_client.session c) as [s|];
    destruct (mcp_client._client_ctx c) as [x|]; calls;
    try (do 2 eexists; split; [reflexivity|]; cbn [logs];
         first [ reflexivity | symmetry; apply app_nil_r ]).
Qed.


Section RegistryCalls.
Context {W : Type} (X : externals W).

Local Abbreviation servers_t := (dict mcp_registry.MCPServerInfo).

(** X12.  [MCPRegistry.get_server_tools] never raises.  For a name that is
    not registered (or a server without a client) it returns the empty list
    and does nothing; for a registered server it returns what [list_tools]
    returned inside the scoped session, and the empty list, with one more
    error in the log, when the session use raised. *)
Theorem get_server_tools_never_raises (server_name : string) (en : env W)
    (servers : servers_t) :
  (exists en' servers' tools,
      mcp_registry_calls.get_server_tools X server_name en servers
      = (en', servers', Returned tools))
  /\ (mcp_registry.get_server servers server_name = None ->
      mcp_registry_calls.get_server_tools X server_name en servers
      = (en, servers, Returned []))
  /\ (forall server c en1 c1 o,
         mcp_registry.get_server servers server_name = Some server ->
         mcp_registry.client server = Some c ->
         mcp_client.async_with X (mcp_client.list_tools X) en c = (en1, c1, o) ->
         mcp_registry_calls.get_server_tools X server_name en servers
         = match o with
           | Returned tools =>
               (en1, mcp_registry_calls.store_client server_name c1 servers,
                Returned tools)
           | Raised e =>
               (Env (world en1)
                    (logs en1 ++ [Log ERROR ("❌ Failed to get tools from "
                                             ++ server_name ++ ": " ++ str_exn e)]),
                mcp_registry_calls.store_client server_name c1 servers,
                Returned [])
           end).
Proof.
  unfold mcp_registry_calls.get_server_tools. rewrite bind_run. unfold get_self.
  split; [|split].
  - destruct (mcp_registry.get_server servers server_name) as [server|];
      [|unfold ret; eauto].
    destruct (mcp_registry.client server) as [c|]; [|unfold ret; eauto].
    rewrite try_except_run. unfold zoom.
    destruct (mcp_client.async_with _ _ _ _) as [[en1 c1] [tools|e]]; [eauto|].
    rewrite bind_run. unfold log, ret. eauto.
  - intros ->. reflexivity.
  - intros server c en1 c1 o -> -> H. rewrite try_except_run. unfold zoom.
    rewrite H. destruct o; reflexivity.
Qed.

(** X13.  [MCPRegistry.call_server_tool] lets failures through.  For a name
    that is not registered it raises the [ValueError] "Server not found:
    name".  For a registered server whose session opens, the answer of the
    SDK to the tool call decides.  A result is returned as it is, after
    [__aexit__] has run without an exception.  An exception is logged by
    the client, then [__aexit__] runs with that exception, then the registry
    logs it and raises it again to the caller: when the teardown of the
    session and of the transport both succeed, the world the call leaves is
    the one after these two calls, in this order. *)
Theorem call_server_tool_propagates (server_name tool_name : string)
    (arguments : json) (en : env W) (servers : servers_t) :
  (mcp_registry.get_server servers server_name = None ->
   mcp_registry_calls.call_server_tool X server_name tool_name arguments en servers
   = (en, servers, Raised (Exn "ValueError" ("Server not found: " ++ server_name))))
  /\ (forall server c en1 c1 s w2 result,
         mcp_registry.get_server servers server_name = Some server ->
         mcp_registry.client server = Some c ->
         mcp_client.__aenter__ X en c = (en1, c1, Returned tt) ->
         mcp_client.session c1 = Some s ->
         session_call_tool X s tool_name arguments (mcp_client.timeout c1) (world en1)
         = (w2, Returned result) ->
         exists en3,
           mcp_client.__aexit__ X None (Env w2 (logs en1)) c1 = (en3, c1, Returned tt)
           /\ mcp_registry_calls.call_server_tool X server_name tool_name arguments en
                servers
              = (en3, mcp_registry_calls.store_client server_name c1 servers,
                 Returned result))
  /\ (forall server c en1 c1 s w2 e,
         mcp_registry.get_server servers server_name = Some server ->
         mcp_registry.client server = Some c ->
         mcp_client.__aenter__ X en c = (en1, c1, Returned tt) ->
         mcp_client.session c1 = Some s ->
         session_call_tool X s tool_name arguments (mcp_client.timeout c1) (world en1)
         = (w2, Raised e) ->
         exists en3,
           mcp_client.__aexit__ X (Some e)
             (Env w2 (logs en1 ++ [Log ERROR ("Failed to call tool " ++ tool_name
                                              ++ ": " ++ str_exn e)])) c1
           = (en3, c1, Returned tt)
           /\ mcp_registry_calls.call_server_tool X server_name tool_name arguments en
                servers
              = (Env (world en3)
                     (logs en3 ++ [Log ERROR ("❌ Failed to call tool " ++ tool_name
                                              ++ " on " ++ server_name ++ ": "
                                              ++ str_exn e)]),
                 mcp_registry_calls.store_client server_name c1 servers,
                 Raised e))
  /\ (forall server c en1 c1 s x w2 w3 w4 e,
         mcp_registry.get_server servers server_name = Some server ->
         mcp_registry.client server = Some c ->
         mcp_client.__aenter__ X en c = (en1, c1, Returned tt) ->
         mcp_client.session c1 = Some s ->
         mcp_client._client_ctx c1 = Some x ->
         session_call_tool X s tool_name arguments (mcp_client.timeout c1) (world en1)
         = (w2, Raised e) ->
         session_aexit X s (Some e) w2 = (w3, Returned tt) ->
         ctx_aexit X x (Some e) w3 = (w4, Returned tt) ->
         mcp_registry_calls.call_server_tool X server_name tool_name arguments en
           servers
         = (Env w4
                ((logs en1 ++ [Log ERROR ("Failed to call tool " ++ tool_name
                                          ++ ": " ++ str_exn e)])
                 ++ [Log ERROR ("❌ Failed to call tool " ++ tool_name
                                ++ " on " ++ server_name ++ ": " ++ str_exn e)]),
            mcp_registry_calls.store_client server_name c1 servers,
            Raised e)).
Proof.
  assert (Hraised : forall server c en1 c1 s w2 e,
             mcp_registry.get_server servers server_name = Some server ->
             mcp_registry.client server = Some c ->
             mcp_client.__aenter__ X en c = (en1, c1, Returned tt) ->
             mcp_client.session c1 = Some s ->
             session_call_tool X s tool_name arguments (mcp_client.timeout c1)
               (world en1)
             = (w2, Raised e) ->
             exists en3,
               mcp_client.__aexit__ X (Some e)
                 (Env w2 (logs en1 ++ [Log ERROR ("Failed to call tool " ++ tool_name
                                                  ++ ": " ++ str_exn e)])) c1
               = (en3, c1, Returned tt)
               /\ mcp_registry_calls.call_server_tool X server_name tool_name arguments
                    en servers
                  = (Env (world en3)
                         (logs en3 ++ [Log ERROR ("❌ Failed to call tool " ++ tool_name
                                                  ++ " on " ++ server_name ++ ": "
                                                  ++ str_exn e)]),
                     mcp_registry_calls.store_client server_name c1 servers,
                     Raised e)).
  { intros server c en1 c1 s w2 e Hget Hc Henter Hs Hcall.
    unfold mcp_registry_calls.call_server_tool. rewrite bind_run. unfold get_self.
    rewrite Hget, Hc, try_except_run. unfold zoom, mcp_client.async_with.
    rewrite bind_run, Henter.
    assert (Hbody : mcp_client.call_tool X tool_name arguments en1 c1
                    = (Env w2 (logs en1 ++ [Log ERROR ("Failed to call tool "
                                                       ++ tool_name ++ ": "
                                                       ++ str_exn e)]),
                       c1, Raised e)).
    { unfold mcp_client.call_tool. run. rewrite Hs. now rewrite Hcall. }
    rewrite Hbody, bind_run.
    destruct (aexit_returns_same_client X (Some e)
                (Env w2 (logs en1 ++ [Log ERROR ("Failed to call tool "
                                                 ++ tool_name ++ ": "
                                                 ++ str_exn e)])) c1)
      as (en3 & Hexit).
    exists en3. split; [exact Hexit|]. now rewrite Hexit. }
  split; [|split; [|split; [exact Hraised|]]].
  - intros H. unfold mcp_registry_calls.call_server_tool. rewrite bind_run.
    unfold get_self. now rewrite H.
  - intros server c en1 c1 s w2 result Hget Hc Henter Hs Hcall.
    unfold mcp_registry_calls.call_server_tool. rewrite bind_run. unfold get_self.
    rewrite Hget, Hc, try_except_run. unfold zoom, mcp_client.async_with.
    rewrite bind_run, Henter.
    assert (Hbody : mcp_client.call_tool X tool_name arguments en1 c1
                    = (Env w2 (logs en1), c1, Returned result)).
    { unfold mcp_client.call_tool. run. rewrite Hs. now rewrite Hcall. }
    rewrite Hbody, bind_run.
    destruct (aexit_returns_same_client X None (Env w2 (logs en1)) c1) as [en3 Hexit].
    exists en3. split; [exact Hexit|]. now rewrite Hexit.
  - intros server c en1 c1 s x w2 w3 w4 e Hget Hc Henter Hs Hx Hcall H3 H4.
    destruct (Hraised server c en1 c1 s w2 e Hget Hc Henter Hs Hcall)
      as (en3 & Hexit & ->).
    revert Hexit. unfold mcp_client.__aexit__, mcp_client.exit_if_set. run.
    rewrite Hs, Hx. cbn -[append]. rewrite H3. cbn -[append]. rewrite H4.
    intros [= <-]. reflexivity.
Qed.

End RegistryCalls.

(** ** More on the selector ([llm_tool_selector.py]) *)

Section Postconditions.
Context {W S : Type}.

Lemma ensures_ret {A} (Q : A -> Prop) (a : A) : Q a -> ensures (W:=W) (S:=S) Q (ret a).
Proof. intros H en s en' s' a' [= _ _ <-]. exact H. Qed.

Lemma ensures_bind {A B} (Q : B -> Prop) (m : M W S A) (k : A -> M W S B) :
  (forall a, ensures Q (k a)) -> ensures Q (bind m k).
Proof.
  intros Hk en s en' s' b. rewrite bind_run.
  destruct (m en s) as [[en1 s1] [a|e]]; [apply Hk|discriminate].
Qed.

Lemma ensures_try_except {A} (Q : A -> Prop) (m : M W S A)
    (handler : exn -> M W S A) :
  ensures Q m -> (forall e, ensures Q (handler e)) -> ensures Q (try_except m handler).
Proof.
  intros Hm Hh en s en' s' a. rewrite try_except_run.
  destruct (m en s) as [[en1 s1] [a1|e]] eqn:E.
  - intros [= _ _ <-]. eapply Hm, E.
  - apply Hh.
Qed.

Lemma ensures_zoom {T A} (Q : A -> Prop) (get : S -> T) (put : T -> S -> S)
    (m : M W T A) :
  ensures Q m -> ensures Q (zoom get put m).
Proof.
  intros Hm en s en' s' a. unfold zoom.
  destruct (m en (get s)) as [[en1 t1] r] eqn:E.
  intros [= _ _ ->]. eapply Hm, E.
Qed.

End Postconditions.

Lemma ensures_async_with {W A} (X : externals W) (Q : A -> Prop)
    (body : M W mcp_client.MCPClient A) :
  ensures Q body -> ensures Q (mcp_client.async_with X body).
Proof.
  intros Hb en c en' c' a. unfold mcp_client.async_with. rewrite bind_run.
  destruct (mcp_client.__aenter__ X en c) as [[en1 c1] [[]|e]]; [|discriminate].
  destruct (body en1 c1) as [[en2 c2] [a2|e]] eqn:E; rewrite bind_run.
  - destruct (aexit_returns_same_client X None en2 c2) as [en3 ->].
    intros [= _ _ <-]. eapply Hb, E.
  - destruct (aexit_returns_same_client X (Some e) en2 c2) as [en3 ->].
    discriminate.
Qed.

Lemma find_relevant_tool_schema (i : llm_tool_selector.tool_info)
    (tools : list sdk_tool) (sc : tool_schema) :
  llm_tool_selector.find_relevant_tool i tools = Some sc -> schema_of_tool i sc.
Proof.
  induction tools as [|[n d s|d] r IH]; simpl; [discriminate| |].
  - destruct (String.eqb n _); [intros [= <-]; now split|exact IH].
  - destruct (get d "name") as [[| | |name| |]|]; trivial.
    destruct (String.eqb name _); [intros [= <-]; now split|exact IH].
Qed.

Section SchemaDiscovery.
Context {W : Type} (X : externals W) {py : str_methods}.

Local Abbreviation tools_t := (dict llm_tool_selector.tool_info).

Lemma schema_step_ensures (tool_name : string) (i : llm_tool_selector.tool_info) :
  ensures (W:=W) (S:=tools_t) (schema_of_tool i)
    (try_except (llm_tool_selector.discover X tool_name i)
       (fun e =>
          log WARNING ("Could not get schema for tool " ++ tool_name
                       ++ ": " ++ str_exn e) ;;
          ret (llm_tool_selector.general_schema tool_name i))).
Proof.
  apply ensures_try_except.
  - unfold llm_tool_selector.discover.
    apply ensures_zoom, ensures_async_with.
    apply ensures_bind. intros tools. apply ensures_bind. intros _.
    apply ensures_ret.
    destruct (llm_tool_selector.find_relevant_tool i tools) eqn:E.
    + now apply find_relevant_tool_schema in E.
    + now split.
  - intros e. apply ensures_bind. intros _. apply ensures_ret. now split.
Qed.

(** the loop adds one schema per tool, under the name of the tool *)
Lemma schemas_loop_appends (items : tools_t) :
  forall (acc : dict tool_schema) (en : env W) (available_tools : tools_t),
  NoDup (keys items) ->
  (forall k, In k (keys items) -> ~ In k (keys acc)) ->
  exists en' tools' news,
    llm_tool_selector.schemas_loop X items acc en available_tools
    = (en', tools', Returned (acc ++ news)%list)
    /\ keys news = keys items
    /\ forall tool_name i,
        In (tool_name, i) items ->
        exists sc, get news tool_name = Some sc /\ schema_of_tool i sc.
Proof.
  induction items as [|[n i] r IH]; intros acc en available_tools Hnd Hnew.
  - exists en, available_tools, []. cbn. rewrite app_nil_r.
    repeat split. intros ? ? [].
  - inversion Hnd as [|? ? Hn Hnd']; subst.
    cbn [llm_tool_selector.schemas_loop]. rewrite bind_run.
    destruct (try_except_returns (llm_tool_selector.discover X n i)
                (fun e =>
                   log WARNING ("Could not get schema for tool " ++ n
                                ++ ": " ++ str_exn e) ;;
                   ret (llm_tool_selector.general_schema n i))
                (fun e => bind_returns _ _ (log_returns _ _)
                            (fun _ => ret_returns _)) en available_tools)
      as (en1 & s1 & sc & Hstep).
    rewrite Hstep.
    pose proof (schema_step_ensures n i _ _ _ _ _ Hstep) as Hsc.
    rewrite set_new_key by (apply Hnew; now left).
    destruct (IH (acc ++ [(n, sc)])%list en1 s1 Hnd') as (en' & tools' & news & -> & Hk & Hget).
    { intros k Hk. unfold keys. rewrite map_app, in_app_iff. cbn.
      intros [Hin|[->|[]]]; [|contradiction].
      apply (Hnew k); [now right|exact Hin]. }
    exists en', tools', ((n, sc) :: news). split; [now rewrite <- app_assoc|].
    split; [cbn; now f_equal|].
    intros tool_name i0 [[= -> ->]|Hin].
    + exists sc. cbn. now rewrite String.eqb_refl.
    + destruct (Hget tool_name i0 Hin) as (sc0 & Hg & Hs). exists sc0.
      split; [|exact Hs]. cbn.
      destruct (String.eqb n tool_name) eqn:E; [|exact Hg].
      apply String.eqb_eq in E. subst n. elim Hn.
      change tool_name with (fst (tool_name, i0)). now apply in_map.
Qed.

(** X14.  Discovery gives one schema per registered tool, whatever the
    servers do.  [_get_tool_schemas] never raises; the schemas it returns
    are listed under exactly the names of [available_tools], in their order
    (the names are distinct, as the keys of a mapping are), and the schema
    of each tool carries the keywords and the description configured for
    that tool, whether it came from the server or from the defaults used
    when discovery failed. *)
Theorem one_schema_per_tool (en : env W) (available_tools : tools_t) :
  NoDup (keys available_tools) ->
  exists en' tools' schemas,
    llm_tool_selector._get_tool_schemas X en available_tools
    = (en', tools', Returned schemas)
    /\ keys schemas = keys available_tools
    /\ forall tool_name i,
        In (tool_name, i) available_tools ->
        exists sc, get schemas tool_name = Some sc /\ schema_of_tool i sc.
Proof.
  intros Hnd. unfold llm_tool_selector._get_tool_schemas.
  rewrite bind_run. unfold get_self.
  destruct (schemas_loop_appends available_tools [] en available_tools Hnd)
    as (en' & tools' & news & H & Hk & Hget); [intros k _ []|].
  exists en', tools', news. now repeat split.
Qed.

(** X15.  A registered choice of the LLM is returned as it is.  When the
    answer of the LLM parses to a mapping whose [selected_tool] is the name
    of a registered tool, [_llm_select_and_generate] returns that name with
    the [arguments] of the answer (an empty mapping when the key is left
    out), unchanged and unchecked against any schema, and logs no warning
    and no error. *)
Theorem registered_choice_is_returned_verbatim (input_data : payload)
    (tool_schemas : dict tool_schema) (en : env W) (available_tools : tools_t)
    (w' : W) (response : string) (d : dict json) (selected : string) :
  call_llm X (llm_messages X input_data tool_schemas) (world en)
  = (w', Returned response) ->
  json_loads X (strip response) = Returned (JObj d) ->
  get d "selected_tool" = Some (JStr selected) ->
  In selected (keys available_tools) ->
  llm_tool_selector._llm_select_and_generate X input_data tool_schemas en
    available_tools
  = (Env w' (logs en), available_tools,
     Returned (selected, get_default d "arguments" (JObj []))).
Proof.
  intros Hllm Hj Hsel Hin. rewrite llm_select_unfold, try_except_run.
  unfold selection_body. rewrite bind_run. unfold extern at 1. rewrite Hllm.
  rewrite bind_run, (parse_mapping X response d) by exact Hj. cbn [fst snd].
  unfold get_default at 1. rewrite Hsel.
  unfold llm_tool_selector.validate. rewrite bind_run. unfold get_self.
  now rewrite (in_keys_mem _ _ Hin).
Qed.

End SchemaDiscovery.

(** *** Scanning an answer for a tool name *)

Lemma lower_char_idempotent (c : ascii) : lower_char (lower_char c) = lower_char c.
Proof.
  destruct c as [[] [] [] [] [] [] [] []]; reflexivity.
Qed.

Lemma ascii_lower_idempotent (s : string) : ascii_lower (ascii_lower s) = ascii_lower s.
Proof.
  induction s as [|c s IH]; simpl; [reflexivity|].
  now rewrite lower_char_idempotent, IH.
Qed.

Lemma ascii_lower_app (a b : string) :
  ascii_lower (a ++ b) = ascii_lower a ++ ascii_lower b.
Proof. induction a as [|c a IH]; simpl; [reflexivity|]. now rewrite IH. Qed.

Lemma length_ascii_lower (s : string) : String.length (ascii_lower s) = String.length s.
Proof. induction s as [|c s IH]; simpl; [reflexivity|]. now rewrite IH. Qed.

Lemma append_same_length (a a' b b' : string) :
  a ++ b = a' ++ b' -> String.length a = String.length a' -> a = a' /\ b = b'.
Proof.
  revert a'. induction a as [|c a IH]; intros [|c' a']; simpl; try discriminate.
  - auto.
  - intros [= -> H] [= Hl]. destruct (IH a' H Hl) as [-> ->]. auto.
Qed.

(** a text that occurs in an ASCII-lowered text has no upper-case letter
    A to Z *)
Lemma occurs_in_ascii_lowered (name text : string) :
  Spec.occurs_in name (ascii_lower text) -> ascii_lower name = name.
Proof.
  intros (b & a & H).
  assert (H' : ascii_lower b ++ ascii_lower name ++ ascii_lower a = b ++ name ++ a).
  { rewrite <- !ascii_lower_app, <- H. apply ascii_lower_idempotent. }
  apply append_same_length in H' as [_ H']; [|apply length_ascii_lower].
  apply append_same_length in H' as [H' _]; [exact H'|apply length_ascii_lower].
Qed.

Section Scanning.
Context {W : Type} (X : externals W) {py : str_methods}.

(** X16.  What [_parse_llm_response] does with an answer that [json.loads]
    does not parse.  Only a [JSONDecodeError] is caught: any other exception
    of [json.loads] leaves the method.  On a [JSONDecodeError] the method
    logs two errors and picks the first registered tool name that occurs in
    the lowered answer, the name itself not being lowered, and
    "email_draft" when none occurs, with arguments generated from the
    answer.  So for an ASCII answer the name it returns has no upper-case
    letter: a tool registered under a name with an upper-case ASCII letter
    is never picked this way, however the answer spells it. *)
Theorem scan_finds_only_lowered_names (response : string) (e : exn) (en : env W)
    (available_tools : dict llm_tool_selector.tool_info) :
  json_loads X (strip response) = Raised e ->
  (is_JSONDecodeError e = false ->
   llm_tool_selector._parse_llm_response X response en available_tools
   = (en, available_tools, Raised e))
  /\ (is_JSONDecodeError e = true ->
      exists name,
        llm_tool_selector._parse_llm_response X response en available_tools
        = (Env (world en)
               ((logs en
                 ++ [Log ERROR ("Failed to parse LLM response as JSON: " ++ str_exn e)])
                ++ [Log ERROR ("Response was: " ++ response)]),
           available_tools,
           Returned (JStr name, response_arguments response))
        /\ (forall before found after,
               keys available_tools = (before ++ found :: after)%list ->
               Forall (fun n => ~ Spec.occurs_in n (lower response)) before ->
               Spec.occurs_in found (lower response) ->
               name = found)
        /\ (Forall (fun n => ~ Spec.occurs_in n (lower response))
                   (keys available_tools) ->
            name = "email_draft")
        /\ (lower_on_ascii -> is_ascii response = true ->
            ascii_lower name = name
            /\ forall registered,
                In registered (keys available_tools) ->
                ascii_lower registered <> registered ->
                name <> registered)).
Proof.
  intros Hj. split; [now apply parse_failed|]. intros He.
  rewrite (parse_unparsable X response e) by assumption.
  eexists. split; [reflexivity|]. split; [|split].
  - intros before found after Hk Hb Hf. unfold scanned_name.
    now rewrite Hk, (scan_for_tool_first _ _ _ _ Hb Hf).
  - intros H. unfold scanned_name. now rewrite (scan_for_tool_none _ _ H).
  - intros Hlow Hascii.
    assert (Hname : ascii_lower (scanned_name response available_tools)
                    = scanned_name response available_tools).
    { unfold scanned_name.
      destruct (llm_tool_selector.scan_for_tool _ _) as [n|] eqn:E; [|reflexivity].
      assert (Ho : Spec.occurs_in n (lower response)).
      { clear - E. induction (keys available_tools) as [|n0 r IH]; simpl in E;
          [discriminate|].
        destruct (contains n0 (lower response)) eqn:E0.
        - injection E as <-. now apply contains_iff_occurs.
        - now apply IH. }
      rewrite (Hlow response Hascii) in Ho. now apply occurs_in_ascii_lowered in Ho. }
    split; [exact Hname|].
    intros registered _ Hne Heq. apply Hne. now rewrite <- Heq.
Qed.

End Scanning.

(** *** The generated arguments *)

Section GeneratedArguments.
Context {py : str_methods}.

(** X17.  The heuristically generated arguments against the default schema
    of "email_draft", whose one required key is [original_email] and whose
    [tone] is one of three values.  For a payload whose [user_request], when
    it has one, is a text, [_generate_fallback_arguments] returns a mapping
    with exactly the keys [original_email], [tone] and [context], in which
    [original_email] is a text that is never empty, [tone] is one of the
    values the schema enumerates, and the urgency is "high" exactly when the
    tone is "urgent".  For a [user_request] that is no text it raises,
    or, when it returns, [original_email] is that value and no text: a
    number, [None] or a truth value always raises a [TypeError].  The
    arguments [do_task] builds have the same [original_email] and [tone]
    ranges. *)
Theorem generated_arguments_fit_the_schema :
  lookup_path (llm_tool_selector._get_default_schema "email_draft") ["required"]
  = Some (str_list ["original_email"])
  /\ (forall input_data,
         Spec.textual input_data ->
         exists original_email tone urgency enum,
           llm_tool_selector._generate_fallback_arguments input_data
           = Returned (JObj [("original_email", JStr original_email);
                             ("tone", JStr tone);
                             ("context", JObj [("reply_type", JStr "reply");
                                               ("urgency", JStr urgency)])])
           /\ original_email <> ""
           /\ lookup_path (llm_tool_selector._get_default_schema "email_draft")
                ["properties"; "tone"; "enum"]
              = Some (JArr enum)
           /\ In (JStr tone) enum
           /\ (tone = "urgent" /\ urgency = "high"
               \/ tone <> "urgent" /\ urgency = "normal"))
  /\ (forall input_data user_request arguments,
         get input_data "user_request" = Some user_request ->
         (forall text, user_request <> JStr text) ->
         llm_tool_selector._generate_fallback_arguments input_data = Returned arguments ->
         field arguments "original_email" = Some user_request)
  /\ (forall input_data user_request,
         get input_data "user_request" = Some user_request ->
         In user_request [JNull; JBool true; JBool false]
         \/ (exists n, user_request = JNum n) ->
         llm_tool_selector._generate_fallback_arguments input_data
         = Raised (Exn "TypeError"
                       ("argument of type '" ++ type_name user_request
                        ++ "' is not iterable")))
  /\ (forall text,
         exists original_email tone urgency,
           main.task_arguments text
           = JObj [("original_email", JStr original_email);
                   ("tone", JStr tone);
                   ("context", JStr ("Reply type: reply, Urgency: " ++ urgency))]
           /\ original_email <> ""
           /\ In tone ["professional"; "casual"; "urgent"]
           /\ (tone = "urgent" /\ urgency = "high"
               \/ tone <> "urgent" /\ urgency = "normal")).
Proof.
  assert (Hne : "User request" <> "") by discriminate.
  assert (Htone : forall text,
             In (detect_tone text) ["professional"; "casual"; "urgent"]).
  { intros text. unfold detect_tone.
    destruct (contains "轻松" text || contains "casual" (lower text));
      [|destruct (contains "紧急" text || contains "urgent" (lower text))];
      cbn; tauto. }
  split; [reflexivity|]. split; [|split; [|split]].
  - intros input_data Ht. unfold Spec.textual in Ht.
    destruct (get input_data "user_request") as [v|] eqn:E.
    + destruct v as [| | |text| |]; try contradiction.
      rewrite (generated_from_text input_data text E).
      do 4 eexists. split; [reflexivity|].
      split; [now apply or_default_not_empty|]. split; [reflexivity|].
      split; [|apply urgency_of_tone].
      destruct (Htone text) as [H|[H|[H|[]]]]; rewrite <- H; cbn; tauto.
    + unfold llm_tool_selector._generate_fallback_arguments. rewrite E.
      do 4 eexists. split; [reflexivity|].
      split; [now apply or_default_not_empty|]. split; [reflexivity|].
      split; [cbn; tauto|]. right. split; [discriminate|reflexivity].
  - intros input_data user_request arguments E Hv.
    unfold llm_tool_selector._generate_fallback_arguments. rewrite E.
    assert (Hscan : forall pats original_email,
               llm_tool_selector.scan_patterns pats user_request
               = Returned original_email ->
               original_email = user_request).
    { induction pats as [|p r IH]; intros original_email; cbn;
        [now intros [= <-]|].
      destruct user_request as [|b|n|text|items|d]; cbn; try discriminate.
      - now elim (Hv text).
      - destruct (existsb (is_str p) items); [discriminate|apply IH].
      - destruct (mem p d); [discriminate|apply IH]. }
    destruct (llm_tool_selector.scan_patterns patterns user_request)
      as [original_email|e] eqn:Es; cbn [and_then]; [|discriminate].
    apply Hscan in Es. subst original_email.
    destruct (llm_tool_selector.tone_of user_request) as [tone|e] eqn:Et;
      cbn [and_then]; [|discriminate].
    intros [= <-]. cbn. unfold py_or.
    assert (Htruthy : truthy user_request = true).
    { revert Et. unfold llm_tool_selector.tone_of, llm_tool_selector.marked.
      destruct user_request as [|b|n|text|items|d]; cbn; try discriminate.
      - now elim (Hv text).
      - destruct items; [discriminate|reflexivity].
      - destruct d; [discriminate|reflexivity]. }
    now rewrite Htruthy.
  - intros input_data user_request E Hv.
    unfold llm_tool_selector._generate_fallback_arguments. rewrite E.
    destruct Hv as [[<-|[<-|[<-|[]]]]|[n ->]]; reflexivity.
  - intros text. unfold main.task_arguments.
    do 3 eexists. split; [reflexivity|].
    split; [now apply or_default_not_empty|]. split; [apply Htone|].
    apply urgency_of_tone.
Qed.

End GeneratedArguments.

(** ** [agents/email_utils.py] *)

Section EmailUtils.
Context {py : str_methods}.

(** X18.  The tone and the mail text of [email_utils] against the inline
    code of [do_task].  [detect_tone] only returns a tone listed by
    [get_supported_tones]; [extract_email_content] returns the same text as
    the extraction inlined in [do_task] and in the selector; the inline tone
    of [do_task] is the tone of [detect_tone], except that it answers
    "professional" where [detect_tone] answers "formal" or "friendly"; and
    [build_context_string] reports the urgency "high" whenever the tone is
    "urgent". *)
Theorem email_utils_agree_with_inline_code (user_request : string) :
  In (email_utils.detect_tone user_request) email_utils.get_supported_tones
  /\ email_utils.extract_email_content user_request
     = extract_original_email patterns user_request
  /\ (detect_tone user_request = email_utils.detect_tone user_request
      \/ detect_tone user_request = "professional"
         /\ In (email_utils.detect_tone user_request) ["formal"; "friendly"])
  /\ (email_utils.detect_tone user_request = "urgent" ->
      email_utils.build_context_string user_request
        (email_utils.detect_tone user_request)
      = "Reply type: reply, Urgency: high").
Proof.
  split; [|split; [|split]].
  - unfold email_utils.detect_tone, email_utils.get_supported_tones.
    repeat match goal with
           | |- context [if ?b then _ else _] => destruct b
           end; cbn; tauto.
  - unfold email_utils.extract_email_content, patterns.
    generalize ["："; ":"; "邮件"; "内容是"; "下面的"].
    induction l as [|p r IH]; simpl; [reflexivity|]. now rewrite IH.
  - unfold detect_tone, email_utils.detect_tone.
    destruct (contains "轻松" user_request || contains "casual" (lower user_request));
      [now left|].
    destruct (contains "紧急" user_request || contains "urgent" (lower user_request));
      [now left|].
    destruct (contains "正式" user_request || contains "formal" (lower user_request));
      [right; split; [reflexivity|cbn; tauto]|].
    destruct (contains "友好" user_request || contains "friendly" (lower user_request));
      [right; split; [reflexivity|cbn; tauto]|].
    now left.
  - intros ->. reflexivity.
Qed.

End EmailUtils.

(** ** The further properties at sample inputs *)

Lemma requests_keep_the_catalogue_witness :
  keys (snd (fst (main.do_task (py := ascii_methods) Examples.counting_sdk MoreExamples.mail_request
                    Examples.env0 MoreExamples.main_registry)))
  = ["calendar"; "mailer"].
Proof.
  apply (proj1 (proj2 (proj1 (requests_keep_the_catalogue (py := ascii_methods) Examples.counting_sdk
                                Examples.env0
                                (fst (fst (main.do_task (py := ascii_methods) Examples.counting_sdk
                                             MoreExamples.mail_request Examples.env0
                                             MoreExamples.main_registry)))
                                MoreExamples.main_registry
                                (snd (fst (main.do_task (py := ascii_methods) Examples.counting_sdk
                                             MoreExamples.mail_request Examples.env0
                                             MoreExamples.main_registry))))
                         MoreExamples.mail_request
                         (snd (main.do_task (py := ascii_methods) Examples.counting_sdk
                                 MoreExamples.mail_request Examples.env0
                                 MoreExamples.main_registry))
                         eq_refl))).
Defined.

Lemma direct_call_raises_only_for_unknown_server_witness :
  main_endpoints.call_server_tool_direct (Examples.failing_sdk "") "notes"
    "list_notes" [] Examples.env0 MoreExamples.main_registry
  = (Examples.env0, MoreExamples.main_registry,
     Raised (Exn "ValueError" "Server not found: notes")).
Proof.
  apply (proj1 (direct_call_raises_only_for_unknown_server (Examples.failing_sdk "")
                  "notes" "list_notes" [] Examples.env0 MoreExamples.main_registry)).
  reflexivity.
Defined.

Lemma do_task_success_witness :
  exists en' d,
    main.do_task (py := ascii_methods) Examples.counting_sdk MoreExamples.mail_request Examples.env0
      MoreExamples.main_registry
    = (en',
       main.store_client "mailer" Examples.opened_client MoreExamples.main_registry,
       Returned d)
    /\ field d "success" = Some (JBool true)
    /\ field d "server_name" = Some (JStr "mailer")
    /\ field d "tool_name" = Some (JStr "generate_email_draft")
    /\ field d "raw_mcp_result" = Some (JStr "draft")
    /\ field d "data"
       = Some (JObj [("reply_subject", JStr "MCP Response");
                     ("reply_body", JStr "draft")]).
Proof.
  apply (do_task_success (py := ascii_methods) Examples.counting_sdk MoreExamples.mail_request
           "draft a mail: hi" "mailer" Examples.mailer_info Examples.env0
           (Env 5 []) Examples.opened_client 4 6 MoreExamples.draft
           MoreExamples.main_registry).
  - reflexivity.
  - reflexivity.
  - discriminate.
  - reflexivity.
  - reflexivity.
  - reflexivity.
  - reflexivity.
Defined.

Lemma reload_endpoint_always_reports_success_witness :
  exists en',
    main.reload_config Examples.broken_config Examples.env0 MoreExamples.main_registry
    = (en', MoreExamples.main_registry,
       Returned (JObj [("success", JBool true);
                       ("message", JStr "Configuration reloaded");
                       ("servers", JNum 2);
                       ("server_names", str_list ["calendar"; "mailer"])])).
Proof.
  destruct (reload_endpoint_always_reports_success Examples.broken_config
              Examples.env0 MoreExamples.main_registry)
    as (en' & servers' & Hrun & _ & Hsame).
  assert (Hne : source_error Examples.broken_config <> None) by (cbn; discriminate).
  pose proof (Hsame (or_intror Hne)) as Heq. subst servers'.
  exists en'. exact Hrun.
Defined.

Lemma routers_name_registered_servers_witness :
  In "calendar" (keys MoreExamples.main_registry).
Proof.
  apply (proj1 (proj1 (routers_name_registered_servers (py := ascii_methods))
                  MoreExamples.main_registry
                  "What is the weather?" "calendar" eq_refl)).
Defined.

Lemma reload_then_get_server_witness :
  exists servers',
    mcp_registry.reload_config (config_of MoreExamples.two_entries) Examples.env0
      Examples.mailer_only
    = (Examples.env0, servers', Returned tt)
    /\ keys servers' = ["calendar"; "mailer"]
    /\ mcp_registry.get_server servers' "mailer"
       = Some {| mcp_registry.name := "mailer";
                 mcp_registry.command := "python";
                 mcp_registry.args := ["mail_server.py"];
                 mcp_registry.description := "MCP Server: mailer";
                 mcp_registry.keywords := [];
                 mcp_registry.client := Some Examples.mail_client |}.
Proof.
  destruct (reload_then_get_server MoreExamples.two_entries Examples.env0
              Examples.mailer_only)
    as (servers' & Hrun & Hkeys & Hget).
  - repeat constructor; simpl; intuition discriminate.
  - repeat constructor; discriminate.
  - exists servers'. split; [exact Hrun|]. split; [exact Hkeys|].
    apply (Hget "mailer" MoreExamples.mailer_fields). simpl. auto.
Defined.

Lemma reload_stops_at_first_faulty_entry_witness :
  exists e,
    mcp_registry.reload_config
      (config_of [("calendar", MoreExamples.calendar_entry);
                  ("notes", MoreExamples.no_args_entry);
                  ("mailer", EntryObject MoreExamples.mailer_fields)])
      Examples.env0 Examples.mailer_only
    = (Env 0 [Log ERROR ("❌ Failed to load MCP config: " ++ str_exn e)],
       registry_of [("calendar", MoreExamples.calendar_entry)], Returned tt)
    /\ keys (registry_of [("calendar", MoreExamples.calendar_entry)]) = ["calendar"].
Proof.
  apply (reload_stops_at_first_faulty_entry
           [("calendar", MoreExamples.calendar_entry)]
           [("mailer", EntryObject MoreExamples.mailer_fields)]
           "notes" MoreExamples.no_args_entry Examples.env0 Examples.mailer_only).
  - repeat constructor. simpl. tauto.
  - repeat constructor; discriminate.
  - simpl. intros (_ & H & _). now apply H.
Defined.

Lemma registry_servers_are_launchable_witness :
  Forall launchable
    (snd (fst (mcp_registry.reload_config Examples.calendar_config Examples.env0
                 Examples.mailer_only))).
Proof.
  apply (proj2 (registry_servers_are_launchable Examples.calendar_config
                  Examples.env0
                  (fst (fst (mcp_registry.reload_config Examples.calendar_config
                               Examples.env0 Examples.mailer_only)))
                  Examples.mailer_only
                  (snd (fst (mcp_registry.reload_config Examples.calendar_config
                               Examples.env0 Examples.mailer_only)))
                  (snd (mcp_registry.reload_config Examples.calendar_config
                          Examples.env0 Examples.mailer_only)))).
  reflexivity.
Defined.

Lemma get_server_tools_never_raises_witness :
  mcp_registry_calls.get_server_tools (Examples.failing_sdk "") "notes" Examples.env0
    Examples.mailer_only
  = (Examples.env0, Examples.mailer_only, Returned []).
Proof.
  apply (proj1 (proj2 (get_server_tools_never_raises (Examples.failing_sdk "")
                         "notes" Examples.env0 Examples.mailer_only))).
  reflexivity.
Defined.

Lemma call_server_tool_propagates_witness :
  exists en3,
    mcp_client.__aexit__ Examples.counting_sdk None (Env 6 []) Examples.opened_client
    = (en3, Examples.opened_client, Returned tt)
    /\ mcp_registry_calls.call_server_tool Examples.counting_sdk "mailer"
         "generate_email_draft" (JObj []) Examples.env0 Examples.mailer_only
       = (en3,
          mcp_registry_calls.store_client "mailer" Examples.opened_client
            Examples.mailer_only,
          Returned MoreExamples.draft).
Proof.
  apply (proj1 (proj2 (call_server_tool_propagates Examples.counting_sdk "mailer"
                         "generate_email_draft" (JObj []) Examples.env0
                         Examples.mailer_only))
           Examples.mailer_server Examples.mail_client (Env 5 [])
           Examples.opened_client 4 6 MoreExamples.draft
           eq_refl eq_refl eq_refl eq_refl eq_refl).
Defined.

Lemma one_schema_per_tool_witness :
  exists en' tools' schemas,
    llm_tool_selector._get_tool_schemas (Examples.failing_sdk "") Examples.env0
      Examples.calendar_and_email
    = (en', tools', Returned schemas)
    /\ keys schemas = ["calendar"; "email_draft"].
Proof.
  destruct (one_schema_per_tool (Examples.failing_sdk "") Examples.env0
              Examples.calendar_and_email)
    as (en' & tools' & schemas & Hrun & Hkeys & _).
  - repeat constructor; simpl; intuition discriminate.
  - exists en', tools', schemas. split; [exact Hrun|exact Hkeys].
Defined.

Lemma registered_choice_is_returned_verbatim_witness :
  llm_tool_selector._llm_select_and_generate (py := ascii_methods)
    (Examples.failing_sdk Examples.weather_answer) Examples.weather_request []
    Examples.env0 MoreExamples.weather_only
  = (Env 1 [], MoreExamples.weather_only, Returned ("weather", JObj [])).
Proof.
  apply (registered_choice_is_returned_verbatim (py := ascii_methods)
           (Examples.failing_sdk Examples.weather_answer) Examples.weather_request []
           Examples.env0 MoreExamples.weather_only 1 Examples.weather_answer
           [("selected_tool", JStr "weather"); ("arguments", JObj [])] "weather").
  - reflexivity.
  - reflexivity.
  - reflexivity.
  - simpl. auto.
Defined.

Lemma scan_finds_only_lowered_names_witness :
  exists name,
    llm_tool_selector._parse_llm_response (py := ascii_methods) Examples.counting_sdk
      "I would use the Calendar tool" Examples.env0 Examples.calendar_only
    = (Env 0 [Log ERROR "Failed to parse LLM response as JSON: Expecting value";
              Log ERROR "Response was: I would use the Calendar tool"],
       Examples.calendar_only,
       Returned (JStr name,
                 response_arguments (py := ascii_methods)
                   "I would use the Calendar tool"))
    /\ name = "calendar"
    /\ ascii_lower name = name.
Proof.
  destruct (proj2 (scan_finds_only_lowered_names (py := ascii_methods)
                     Examples.counting_sdk "I would use the Calendar tool"
                     (Exn "JSONDecodeError" "Expecting value") Examples.env0
                     Examples.calendar_only eq_refl) eq_refl)
    as (name & Hrun & Hfound & _ & Hlow).
  exists name. split; [exact Hrun|]. split.
  - apply (Hfound [] "calendar" [] eq_refl); [constructor|].
    apply contains_iff_occurs. vm_compute. reflexivity.
  - apply (Hlow ascii_methods_lower_on_ascii eq_refl).
Defined.

Lemma generated_arguments_fit_the_schema_witness :
  exists original_email tone urgency,
    llm_tool_selector._generate_fallback_arguments (py := ascii_methods)
      [("user_request", JStr "please reply, it is URGENT: see you at noon ")]
    = Returned (JObj [("original_email", JStr original_email);
                      ("tone", JStr tone);
                      ("context", JObj [("reply_type", JStr "reply");
                                        ("urgency", JStr urgency)])])
    /\ original_email <> ""
    /\ In (JStr tone) [JStr "professional"; JStr "casual"; JStr "urgent"].
Proof.
  destruct (proj1 (proj2 (generated_arguments_fit_the_schema (py := ascii_methods)))
              [("user_request", JStr "please reply, it is URGENT: see you at noon ")] I)
    as (original_email & tone & urgency & enum & Hgen & Hne & Henum & Htone & _).
  exists original_email, tone, urgency. split; [exact Hgen|]. split; [exact Hne|].
  injection Henum as <-. exact Htone.
Defined.


Lemma email_utils_agree_with_inline_code_witness :
  email_utils.build_context_string (py := ascii_methods) "this is URGENT: reply now"
    (email_utils.detect_tone (py := ascii_methods) "this is URGENT: reply now")
  = "Reply type: reply, Urgency: high".
Proof.
  apply (proj2 (proj2 (proj2 (email_utils_agree_with_inline_code
                                (py := ascii_methods) "this is URGENT: reply now")))).
  reflexivity.
Defined.

(** ** Two edges of the routing *)

Section EmptyKeyword.
Context {py : str_methods}.

Lemma empty_keyword_any_match (text : string) (keywords : list string) :
  lower "" = "" -> In "" keywords -> Spec.any_match text keywords.
Proof.
  intros Hl H. exists "". split; [exact H|]. unfold Spec.keyword_matches.
  rewrite Hl. now exists "", (lower text).
Qed.

(** X19.  The empty keyword matches every text (the empty text is its own
    lowering).  A server that lists "" among its keywords is returned for
    every text that no server loaded before it matches, by the router of
    [main.py] and by [MCPRegistry]: servers loaded after it are never
    reached by keyword. *)
Theorem empty_keyword_matches_every_text (text server_name : string) :
  lower "" = "" ->
  (forall before after i,
      In "" (main.keywords i) ->
      Forall (fun p => ~ Spec.any_match text (main.keywords (snd p))) before ->
      main.find_server_by_keywords (before ++ (server_name, i) :: after)%list text
      = Some server_name)
  /\ (forall before after server,
         In "" (mcp_registry.keywords server) ->
         Forall (fun p => ~ Spec.any_match text (mcp_registry.keywords (snd p)))
                before ->
         mcp_registry.find_server_by_keywords
           (before ++ (server_name, server) :: after)%list text
         = Some server).
Proof.
  intros Hl. split.
  - intros before after i Hin Hb. unfold main.find_server_by_keywords.
    now rewrite (main_find_loop_first text before after server_name i Hb
                   (empty_keyword_any_match text _ Hl Hin)).
  - intros before after server Hin Hb.
    unfold mcp_registry.find_server_by_keywords. rewrite values_app. simpl.
    rewrite (registry_keyword_loop_first text (values before) (values after) server);
      trivial.
    + now apply Forall_values.
    + now apply empty_keyword_any_match.
Qed.

End EmptyKeyword.

Section EmptyName.
Context {W : Type} (X : externals W) {py : str_methods}.

(** X20.  A server registered under the empty name cannot be used by
    [do_task]: when the router answers with the name "", [do_task] takes it
    for no server, calls nothing, and returns the "No MCP servers available"
    mapping, in which [available_servers] lists the registered names. *)
Theorem empty_server_name_is_no_server (request : dict json) (text : string)
    (en : env W) (mcp_servers : dict main.server_info) :
  py_get (get_default request "input_data" (JObj request)) "user_request" (JStr "")
  = Returned (JStr text) ->
  main.find_server_by_keywords mcp_servers text = Some "" ->
  main.do_task X request en mcp_servers
  = (en, mcp_servers,
     Returned (JObj [("success", JBool false);
                     ("error", JStr "No MCP servers available");
                     ("available_servers", str_list (keys mcp_servers))])).
Proof.
  intros Hreq Hfind. unfold main.do_task. run. rewrite Hreq.
  cbn -[append main.task_arguments]. rewrite Hfind. now destruct en.
Qed.

End EmptyName.

Lemma empty_keyword_matches_every_text_witness :
  main.find_server_by_keywords (py := ascii_methods)
    [("calendar", Examples.calendar_info);
     ("any", {| main.client := Examples.mail_client; main.command := "python";
                main.args := ["any.py"]; main.description := "Catch-all";
                main.keywords := [""] |});
     ("mailer", Examples.mailer_info)]
    "please draft an email"
  = Some "any".
Proof.
  apply (proj1 (empty_keyword_matches_every_text (py := ascii_methods)
                  "please draft an email" "any" eq_refl)
           [("calendar", Examples.calendar_info)] [("mailer", Examples.mailer_info)]).
  - simpl. auto.
  - repeat constructor. intros H. apply keyword_hit_iff in H. vm_compute in H.
    discriminate.
Defined.

Lemma empty_server_name_is_no_server_witness :
  main.do_task (py := ascii_methods) Examples.counting_sdk MoreExamples.mail_request Examples.env0
    [("", Examples.mailer_info)]
  = (Examples.env0, [("", Examples.mailer_info)],
     Returned (JObj [("success", JBool false);
                     ("error", JStr "No MCP servers available");
                     ("available_servers", str_list [""])])).
Proof.
  apply (empty_server_name_is_no_server (py := ascii_methods) Examples.counting_sdk
           MoreExamples.mail_request "draft a mail: hi" Examples.env0
           [("", Examples.mailer_info)]).
  - reflexivity.
  - reflexivity.
Defined.
